(** * The coin-reward bot ([server/bot.ts]): ledger, referrals, daily
    check-in, raffle and shop engines, conversation state, broadcast.

    The handlers of [bot.ts] are embedded as pure functions over an explicit
    state: the persistent tables reached through [storage] and the in-memory
    [userStates] map.  Every handler returns the new state together with the
    list of replies it sends.  Reply texts are abstracted to tagged values
    that keep the numbers the texts interpolate. *)

From Stdlib Require Import ZArith Ascii String List Lia Bool.
From Stdlib Require Import Decimal DecimalString DecimalPos.
From stdpp Require Import base option gmap strings list.

Local Open Scope string_scope.
Local Open Scope Z_scope.

(** ** JavaScript built-ins used by the handlers *)

Module JS.

(** Code unit of a character. *)
Definition code (c : ascii) : Z := Z.of_N (N_of_ascii c).

(** White space recognised by [String.prototype.trim] and by [parseInt],
    restricted to the one-byte characters: TAB, LF, VT, FF, CR, SPACE. *)
Definition isSpace (c : ascii) : bool :=
  (code c =? 32) || ((9 <=? code c) && (code c <=? 13)).

Fixpoint trimStart (s : string) : string :=
  match s with
  | EmptyString => EmptyString
  | String c r => if isSpace c then trimStart r else s
  end.

Fixpoint trimEnd (s : string) : string :=
  match s with
  | EmptyString => EmptyString
  | String c r =>
      match trimEnd r with
      | EmptyString => if isSpace c then EmptyString else String c EmptyString
      | r' => String c r'
      end
  end.

(** [s.trim()] *)
Definition trim (s : string) : string := trimStart (trimEnd s).

Definition upperChar (c : ascii) : ascii :=
  if (97 <=? code c) && (code c <=? 122)
  then ascii_of_N (N_of_ascii c - 32) else c.

(** [s.toUpperCase()] on one-byte characters: a..z are mapped to A..Z. *)
Fixpoint toUpperCase (s : string) : string :=
  match s with
  | EmptyString => EmptyString
  | String c r => String (upperChar c) (toUpperCase r)
  end.

(** [s.startsWith(p)] *)
Fixpoint startsWith (p s : string) : bool :=
  match p, s with
  | EmptyString, _ => true
  | String a p', String b s' => Ascii.eqb a b && startsWith p' s'
  | String _ _, EmptyString => false
  end.

(** Value of a digit in the given radix, when it is one. *)
Definition digitVal (radix : Z) (c : ascii) : option Z :=
  let n := code c in
  let v := if (48 <=? n) && (n <=? 57) then Some (n - 48)
           else if (97 <=? n) && (n <=? 122) then Some (n - 87)
           else if (65 <=? n) && (n <=? 90) then Some (n - 55)
           else None in
  match v with
  | Some d => if d <? radix then Some d else None
  | None => None
  end.

(** The longest prefix of digits, read in [radix]; [acc] is [None] until a
    first digit has been read. *)
Fixpoint parseDigits (radix : Z) (acc : option Z) (s : string) : option Z :=
  match s with
  | EmptyString => acc
  | String c r =>
      match digitVal radix c with
      | Some d => parseDigits radix (Some (radix * default 0 acc + d)) r
      | None => acc
      end
  end.

(** A JavaScript number as the handlers meet it: an integer, or NaN
    ([None]).  Integers are exact here; the double rounding of values above
    2^53 is not modelled. *)
Definition number := option Z.

Definition stripHexPrefix (s : string) : option string :=
  match s with
  | String "0" (String x r) =>
      if (code x =? 120) || (code x =? 88) then Some r else None
  | _ => None
  end.

(** [parseInt(s, radix)]: leading white space is skipped, a sign is read,
    without a radix a [0x]/[0X] prefix selects base 16, and the longest
    prefix of digits is the value; NaN when there is no digit.  The
    handlers pass no radix or the radix 10. *)
Definition parseInt (s : string) (radix : option Z) : number :=
  let s1 := trimStart s in
  let '(sign, s2) :=
    match s1 with
    | String "-" r => (-1, r)
    | String "+" r => (1, r)
    | _ => (1, s1)
    end in
  let '(rdx, s3) :=
    match radix with
    | Some r => (r, s2)
    | None => match stripHexPrefix s2 with
              | Some r => (16, r)
              | None => (10, s2)
              end
    end in
  match parseDigits rdx None s3 with
  | Some v => Some (sign * v)
  | None => None
  end.

(** [data.split('_')[1]]: the text between the first and the second
    underscore; [undefined] ([None]) when there is no underscore. *)
Fixpoint upToUnderscore (s : string) : string :=
  match s with
  | EmptyString => EmptyString
  | String c r => if (code c =? 95) then EmptyString else String c (upToUnderscore r)
  end.

Fixpoint splitSecond (s : string) : option string :=
  match s with
  | EmptyString => None
  | String c r => if (code c =? 95) then Some (upToUnderscore r) else splitSecond r
  end.

(** A value used as a condition: [null] and the empty string are falsy. *)
Definition truthy (o : option string) : bool :=
  match o with
  | Some s => negb (String.eqb s "")
  | None => false
  end.

End JS.

(** ** Data model

    The rows of the tables behind [storage].  Display names and free-text
    descriptions only feed reply texts and are left out. *)

Inductive TxType := daily_reward | referral | raffle_entry | shop_purchase.

Record User := mkUser {
  u_id : Z;
  u_telegramId : string;
  u_referralCode : string;
  u_referredBy : option string;
  u_coins : Z;
  u_streak : Z;
  u_lastDailyReward : option Z      (* milliseconds since the epoch *)
}.

Record Transaction := mkTransaction {
  tx_userId : Z;
  tx_type : TxType;
  tx_amount : Z
}.

Record Raffle := mkRaffle {
  r_id : Z;
  r_entryCost : Z;
  r_currentEntries : Z;
  r_maxEntries : option Z;
  r_endDate : Z;
  r_isActive : bool
}.

Record RaffleEntry := mkRaffleEntry {
  re_raffleId : Z;
  re_userId : Z;
  re_entries : Z
}.

Record ShopItem := mkShopItem {
  i_id : Z;
  i_cost : Z;
  i_stock : option Z;               (* [None] is null: unlimited *)
  i_isActive : bool
}.

Record Purchase := mkPurchase {
  p_userId : Z;
  p_itemId : Z;
  p_quantity : Z;
  p_totalCost : Z;
  p_status : string
}.

Record Store := mkStore {
  users : list User;
  transactions : list Transaction;
  raffles : list Raffle;
  raffleEntries : list RaffleEntry;
  shopItems : list ShopItem;
  purchases : list Purchase;
  botSettings : gmap string string
}.

(** The object literal passed to [storage.updateUser]: the fields it names. *)
Record UserPatch := mkPatch {
  patch_coins : option Z;
  patch_referredBy : option string;
  patch_lastDailyReward : option Z
}.

Definition coinsPatch (c : Z) : UserPatch := mkPatch (Some c) None None.
Definition referredByPatch (c : string) : UserPatch := mkPatch None (Some c) None.
Definition lastDailyRewardPatch (t : Z) : UserPatch := mkPatch None None (Some t).

(** The object literal passed to [storage.createUser]. *)
Record NewUser := mkNewUser {
  nu_telegramId : string;
  nu_referralCode : string;
  nu_referredBy : option string;
  nu_coins : Z
}.

(** ** The storage interface

    [server/storage.ts] is not part of the sources at hand; its operations
    are modelled from the specification's description of the storage
    interface (section 6) and of the engine contracts (section 4). *)

Module storage.

(** Modelled from the spec: the user table replaced, the other tables kept. *)
Definition setUsers (s : Store) (us : list User) : Store :=
  mkStore us (transactions s) (raffles s) (raffleEntries s) (shopItems s)
          (purchases s) (botSettings s).

(** Modelled from the spec: [storage.getUserByTelegramId], "get user by
    external identifier". *)
Definition getUserByTelegramId (s : Store) (telegramId : string) : option User :=
  List.find (fun u => String.eqb (u_telegramId u) telegramId) (users s).

(** Modelled from the spec: [storage.getUserByReferralCode], "get user by
    referral code": the owner of exactly that code. *)
Definition getUserByReferralCode (s : Store) (c : string) : option User :=
  List.find (fun u => String.eqb (u_referralCode u) c) (users s).

(** Modelled from the spec: the serial id a new row gets, above every id in
    the table. *)
Definition nextUserId (s : Store) : Z :=
  1 + fold_right Z.max 0 (map u_id (users s)).

(** Modelled from the spec: [storage.createUser], "create user": the row is
    stored with the fields given, a fresh serial id, no streak and no
    daily claim. *)
Definition createUser (s : Store) (n : NewUser) : Store * User :=
  let u := mkUser (nextUserId s) (nu_telegramId n) (nu_referralCode n)
                  (nu_referredBy n) (nu_coins n) 0 None in
  (setUsers s (users s ++ [u]), u).

(** Modelled from the spec: a row with the fields named by the patch
    overwritten. *)
Definition applyPatch (p : UserPatch) (u : User) : User :=
  mkUser (u_id u) (u_telegramId u) (u_referralCode u)
         (match patch_referredBy p with Some c => Some c | None => u_referredBy u end)
         (default (u_coins u) (patch_coins p))
         (u_streak u)
         (match patch_lastDailyReward p with Some t => Some t | None => u_lastDailyReward u end).

(** Modelled from the spec: [storage.updateUser], "update user by external
    identifier": the named fields of that user's row are overwritten. *)
Definition updateUser (s : Store) (telegramId : string) (p : UserPatch) : Store :=
  setUsers s (map (fun u => if String.eqb (u_telegramId u) telegramId
                            then applyPatch p u else u) (users s)).

(** Modelled from the spec: [storage.createTransaction], "create
    transaction record": the log is append-only. *)
Definition createTransaction (s : Store) (t : Transaction) : Store :=
  mkStore (users s) (transactions s ++ [t]) (raffles s) (raffleEntries s)
          (shopItems s) (purchases s) (botSettings s).

(** Modelled from the spec: a row with its balance raised by [a]. *)
Definition credit (a : Z) (u : User) : User :=
  mkUser (u_id u) (u_telegramId u) (u_referralCode u) (u_referredBy u)
         (u_coins u + a) (u_streak u) (u_lastDailyReward u).

(** Modelled from the spec: [storage.awardReward(telegramId, amount, type,
    description)], the credit of the reward engine: the balance grows by the
    amount and one Transaction of that type and amount is appended, as one
    unit; the updated row is returned.  It throws ([None]) for an unknown
    user and for an amount that is not a number. *)
Definition awardReward (s : Store) (telegramId : string) (amount : JS.number)
    (ty : TxType) : option (Store * User) :=
  match amount, getUserByTelegramId s telegramId with
  | Some a, Some u =>
      let s1 := setUsers s (map (fun v => if String.eqb (u_telegramId v) telegramId
                                          then credit a v else v) (users s)) in
      Some (createTransaction s1 (mkTransaction (u_id u) ty a), credit a u)
  | _, _ => None
  end.

(** Modelled from the spec: a row after a daily claim of [a] coins at [now]. *)
Definition claimed (a now : Z) (u : User) : User :=
  mkUser (u_id u) (u_telegramId u) (u_referralCode u) (u_referredBy u)
         (u_coins u + a) (u_streak u + 1) (Some now).

(** Modelled from the spec: [storage.claimDaily(telegramId, amount)], the
    contract of section 4.1: "increments coins by the configured daily
    amount, increments streak, sets lastDailyReward to now, appends a
    Transaction of type daily_reward", as one unit. *)
Definition claimDaily (s : Store) (telegramId : string) (amount : JS.number)
    (now : Z) : option (Store * User) :=
  match amount, getUserByTelegramId s telegramId with
  | Some a, Some u =>
      let s1 := setUsers s (map (fun v => if String.eqb (u_telegramId v) telegramId
                                          then claimed a now v else v) (users s)) in
      Some (createTransaction s1 (mkTransaction (u_id u) daily_reward a), claimed a now u)
  | _, _ => None
  end.

(** Modelled from the spec: [storage.getActiveRaffles], "list active
    raffles": the rows whose active flag is set, in table order. *)
Definition getActiveRaffles (s : Store) : list Raffle :=
  List.filter r_isActive (raffles s).

(** Modelled from the spec: [storage.getRaffleById], "get raffle by id";
    no row has NaN as id. *)
Definition getRaffleById (s : Store) (raffleId : JS.number) : option Raffle :=
  match raffleId with
  | Some n => List.find (fun r => r_id r =? n) (raffles s)
  | None => None
  end.

(** Modelled from the spec: [storage.enterRaffle], "create raffle entry". *)
Definition enterRaffle (s : Store) (e : RaffleEntry) : Store :=
  mkStore (users s) (transactions s) (raffles s) (raffleEntries s ++ [e])
          (shopItems s) (purchases s) (botSettings s).

(** Modelled from the spec: a raffle row with its entry counter set. *)
Definition setCurrentEntries (n : Z) (r : Raffle) : Raffle :=
  mkRaffle (r_id r) (r_entryCost r) n (r_maxEntries r) (r_endDate r) (r_isActive r).

(** Modelled from the spec: [storage.updateRaffle(id, {currentEntries})],
    "update raffle mutable counters". *)
Definition updateRaffle (s : Store) (raffleId : Z) (currentEntries : Z) : Store :=
  mkStore (users s) (transactions s)
          (map (fun r => if r_id r =? raffleId then setCurrentEntries currentEntries r else r)
               (raffles s))
          (raffleEntries s) (shopItems s) (purchases s) (botSettings s).

(** Modelled from the spec: [storage.getActiveShopItems], "list active shop
    items": the rows whose active flag is set, in table order. *)
Definition getActiveShopItems (s : Store) : list ShopItem :=
  List.filter i_isActive (shopItems s).

(** Modelled from the spec: [storage.getAllShopItems]: every row. *)
Definition getAllShopItems (s : Store) : list ShopItem := shopItems s.

(** Modelled from the spec: [storage.createPurchase], "create purchase". *)
Definition createPurchase (s : Store) (p : Purchase) : Store :=
  mkStore (users s) (transactions s) (raffles s) (raffleEntries s)
          (shopItems s) (purchases s ++ [p]) (botSettings s).

(** Modelled from the spec: an item row with its stock set. *)
Definition setStock (n : Z) (i : ShopItem) : ShopItem :=
  mkShopItem (i_id i) (i_cost i) (Some n) (i_isActive i).

(** Modelled from the spec: [storage.updateShopItem(id, {stock})], "update
    item mutable counters". *)
Definition updateShopItem (s : Store) (itemId : Z) (stock : Z) : Store :=
  mkStore (users s) (transactions s) (raffles s) (raffleEntries s)
          (map (fun i => if i_id i =? itemId then setStock stock i else i) (shopItems s))
          (purchases s) (botSettings s).

(** Modelled from the spec: [storage.getBotSetting(key)?.value], "get bot
    setting by key". *)
Definition getBotSetting (s : Store) (key : string) : option string :=
  botSettings s !! key.

End storage.

(** ** Bot state and replies *)

(** [userStates]: the in-memory [Map] from telegram id to the expected input
    and the time it was asked for. *)
Record Bot := mkBot {
  db : Store;
  userStates : gmap string (string * Z)
}.

Definition setDb (b : Bot) (s : Store) : Bot := mkBot s (userStates b).

(** What a handler sends: [sendMessage], [editMessageText] and
    [answerCallbackQuery] calls, tagged by the text they carry. *)
Inductive Reply :=
  | SomethingWentWrong
  | PleaseStartFirst
  | WelcomeReferral (reward : JS.number)
  | MainMenu (isNewUser : bool) (coins streak : Z)
  | AlreadyClaimedToday
  | DailyClaimed (amount : JS.number) (streak coins : Z)
  | DailyCheckinMenu (coins : Z)
  | DailyClaimedAlert (amount : JS.number)
  | ReferralInfo (referralCode : string)
  | NoActiveRaffles
  | RaffleList (shown : list Raffle) (coins : Z)
  | ShopEmpty
  | ShopList (shown : list ShopItem) (coins : Z)
  | MyInfo (coins : Z) (canClaim : bool)
  | UserNotFound
  | EnterCodePrompt
  | BackMenu (coins : Z) (canClaim : bool)
  | Acknowledge
  | InvalidInvitationCode
  | OwnInvitationCode
  | AlreadyUsedInvitationCode
  | InvitationAccepted (inviteCode : string) (reward : JS.number) (coins : Z)
  | NotEnoughCoins (cost : Z)
  | RaffleNotFound
  | RaffleEntered (raffleId remaining : Z)
  | ItemNotFound
  | OutOfStock
  | Purchased (itemId remaining : Z).

(** ** Helpers of [bot.ts] *)

(** [generateReferralCode]: [nanoid(8).toUpperCase()]; the random draw of
    [nanoid(8)] is an input. *)
Definition generateReferralCode (nanoid8 : string) : string :=
  JS.toUpperCase nanoid8.


Fixpoint allChars (p : ascii -> bool) (s : string) : bool :=
  match s with
  | EmptyString => true
  | String c r => p c && allChars p r
  end.

Definition msPerDay : Z := 24 * 60 * 60 * 1000.

(** [toPST]: PST is UTC-8. *)
Definition toPST (date : Z) : Z :=
  let pstOffset := -8 * 60 * 60 * 1000 in
  date + pstOffset.

(** [parseInt((await storage.getBotSetting(key))?.value || '1', 10)] *)
Definition rewardSetting (s : Store) (key : string) : JS.number :=
  let str := match storage.getBotSetting s key with
             | Some v => if String.eqb v "" then "1" else v
             | None => "1"
             end in
  JS.parseInt str (Some 10).

Section Handlers.

(** Offset of the server's local time zone from UTC, in milliseconds: the
    getters [getFullYear], [getMonth] and [getDate] and the constructor
    [new Date(y, m, d)] work in local time.  The offset is taken as fixed. *)
Variable localOffset : Z.

(** [new Date(d.getFullYear(), d.getMonth(), d.getDate()).getTime()]: local
    midnight of the local day of [d] (for years from 100 on, where the
    constructor takes the year as it is). *)
Definition dateOnly (d : Z) : Z :=
  (d + localOffset) `div` msPerDay * msPerDay - localOffset.

(** [canClaimDailyReward]; [now] is [new Date()]. *)
Definition canClaimDailyReward (now : Z) (lastReward : option Z) : bool :=
  match lastReward with
  | None => true
  | Some last =>
      let pstNow := toPST now in
      let pstLastReward := toPST last in
      let todayPST := dateOnly pstNow in
      let lastRewardPST := dateOnly pstLastReward in
      todayPST >? lastRewardPST
  end.

(** [bot.onText(/\/start(?:\s+(.+))?/, ...)]; [referralCode] is the captured
    group, when there is one.  The sync of the display names of a returning
    user writes none of the modelled fields and is left out. *)
Definition onStart (b : Bot) (telegramId : string) (referralCode : option string)
    (nanoid8 : string) : Bot * list Reply :=
  let '(s1, user) :=
    match storage.getUserByTelegramId (db b) telegramId with
    | None =>
        storage.createUser (db b)
          (mkNewUser telegramId (generateReferralCode nanoid8)
                     (if JS.truthy referralCode then referralCode else None) 0)
    | Some u => (db b, u)
    end in
  let mainMenu (u : User) :=
    MainMenu (negb (bool_decide (is_Some (u_lastDailyReward u))) && (u_coins u =? 0))
             (u_coins u) (u_streak u) in
  match referralCode with
  | Some rc =>
      if negb (JS.truthy (u_referredBy user)) && JS.truthy referralCode then
        match storage.getUserByReferralCode s1 rc with
        | Some referrer =>
            let referralReward := rewardSetting s1 "referral_reward_amount" in
            match storage.awardReward s1 (u_telegramId referrer) referralReward referral with
            | None => (setDb b s1, [SomethingWentWrong])
            | Some (s2, _) =>
                match storage.awardReward s2 (u_telegramId user) referralReward referral with
                | None => (setDb b s2, [SomethingWentWrong])
                | Some (s3, updatedUser) =>
                    let s4 := storage.updateUser s3 (u_telegramId user) (referredByPatch rc) in
                    (setDb b s4, [WelcomeReferral referralReward; mainMenu updatedUser])
                end
            end
        | None => (setDb b s1, [mainMenu user])
        end
      else (setDb b s1, [mainMenu user])
  | None => (setDb b s1, [mainMenu user])
  end.

(** [bot.onText(/\/daily/, ...)] *)
Definition onDaily (b : Bot) (telegramId : string) (now : Z) : Bot * list Reply :=
  match storage.getUserByTelegramId (db b) telegramId with
  | None => (b, [PleaseStartFirst])
  | Some user =>
      if negb (canClaimDailyReward now (u_lastDailyReward user)) then
        (b, [AlreadyClaimedToday])
      else
        let dailyRewardAmount := rewardSetting (db b) "daily_reward_amount" in
        match storage.claimDaily (db b) telegramId dailyRewardAmount now with
        | None => (b, [SomethingWentWrong])
        | Some (s1, updatedUser) =>
            (setDb b s1,
             [DailyClaimed dailyRewardAmount (u_streak updatedUser) (u_coins updatedUser)])
        end
  end.

(** The commands that only read: [/referral], [/raffle], [/shop], [/myinfo]. *)
Inductive ReadCommand := CmdReferral | CmdRaffle | CmdShop | CmdMyInfo.

Definition onReadCommand (b : Bot) (c : ReadCommand) (telegramId : string) (now : Z)
    : Bot * list Reply :=
  match storage.getUserByTelegramId (db b) telegramId with
  | None => (b, [PleaseStartFirst])
  | Some user =>
      match c with
      | CmdReferral => (b, [ReferralInfo (u_referralCode user)])
      | CmdRaffle =>
          let activeRaffles := storage.getActiveRaffles (db b) in
          if Z.of_nat (length activeRaffles) =? 0 then (b, [NoActiveRaffles])
          else (b, [RaffleList activeRaffles (u_coins user)])
      | CmdShop =>
          let shopItems := storage.getActiveShopItems (db b) in
          if Z.of_nat (length shopItems) =? 0 then (b, [ShopEmpty])
          else (b, [ShopList shopItems (u_coins user)])
      | CmdMyInfo =>
          (b, [MyInfo (u_coins user) (canClaimDailyReward now (u_lastDailyReward user))])
      end
  end.

(** [bot.on('message', ...)]: invitation codes, then raffle entries and
    shop purchases by number.  An absent text is the empty string. *)
Definition onMessage (b : Bot) (telegramId text : string) : Bot * list Reply :=
  if String.eqb text "" || JS.startsWith "/" text then (b, []) else
  match storage.getUserByTelegramId (db b) telegramId with
  | None => (b, [])
  | Some user =>
      let userState := userStates b !! telegramId in
      let expecting :=
        match userState with
        | Some st => String.eqb (fst st) "expecting_invite_code"
        | None => false
        end in
      if expecting then
        let b1 := mkBot (db b) (delete telegramId (userStates b)) in
        let inviteCode := JS.toUpperCase (JS.trim text) in
        match storage.getUserByReferralCode (db b1) inviteCode with
        | None => (b1, [InvalidInvitationCode])
        | Some codeOwner =>
            if u_id codeOwner =? u_id user then (b1, [OwnInvitationCode])
            else if JS.truthy (u_referredBy user) then (b1, [AlreadyUsedInvitationCode])
            else
              let referralReward := rewardSetting (db b1) "referral_reward_amount" in
              match storage.awardReward (db b1) (u_telegramId codeOwner) referralReward referral with
              | None => (b1, [])
              | Some (s1, _) =>
                  match storage.awardReward s1 (u_telegramId user) referralReward referral with
                  | None => (setDb b1 s1, [])
                  | Some (s2, updatedUser) =>
                      let s3 := storage.updateUser s2 (u_telegramId user) (referredByPatch inviteCode) in
                      (setDb b1 s3,
                       [InvitationAccepted inviteCode referralReward (u_coins updatedUser)])
                  end
              end
        end
      else
        match JS.parseInt (JS.trim text) None with
        | None => (b, [])
        | Some number =>
            let activeRaffles := storage.getActiveRaffles (db b) in
            if (number >? 0) && (number <=? Z.of_nat (length activeRaffles)) then
              match activeRaffles !! Z.to_nat (number - 1) with
              | None => (b, [])
              | Some raffle =>
                  if u_coins user <? r_entryCost raffle then
                    (b, [NotEnoughCoins (r_entryCost raffle)])
                  else
                    let s1 := storage.updateUser (db b) telegramId
                                (coinsPatch (u_coins user - r_entryCost raffle)) in
                    let s2 := storage.enterRaffle s1 (mkRaffleEntry (r_id raffle) (u_id user) 1) in
                    let s3 := storage.updateRaffle s2 (r_id raffle) (r_currentEntries raffle + 1) in
                    let s4 := storage.createTransaction s3
                                (mkTransaction (u_id user) raffle_entry (- r_entryCost raffle)) in
                    (setDb b s4,
                     [RaffleEntered (r_id raffle) (u_coins user - r_entryCost raffle)])
              end
            else
              let shopItems := storage.getActiveShopItems (db b) in
              if (number >? 0) && (number <=? Z.of_nat (length shopItems)) then
                match shopItems !! Z.to_nat (number - 1) with
                | None => (b, [])
                | Some item =>
                    if u_coins user <? i_cost item then
                      (b, [NotEnoughCoins (i_cost item)])
                    else if match i_stock item with Some st => st <=? 0 | None => false end then
                      (b, [OutOfStock])
                    else
                      let s1 := storage.updateUser (db b) telegramId
                                  (coinsPatch (u_coins user - i_cost item)) in
                      let s2 := storage.createPurchase s1
                                  (mkPurchase (u_id user) (i_id item) 1 (i_cost item) "completed") in
                      let s3 := match i_stock item with
                                | Some st => storage.updateShopItem s2 (i_id item) (st - 1)
                                | None => s2
                                end in
                      let s4 := storage.createTransaction s3
                                  (mkTransaction (u_id user) shop_purchase (- i_cost item)) in
                      (setDb b s4, [Purchased (i_id item) (u_coins user - i_cost item)])
                end
              else (b, [])
        end
  end.

(** [handleDailyCheckin]; [None] in place of the replies stands for an
    exception, which the caller catches. *)
Definition handleDailyCheckin (b : Bot) (telegramId : string) (user : User) (now : Z)
    : Bot * option (list Reply) :=
  if negb (canClaimDailyReward now (u_lastDailyReward user)) then
    (b, Some [AlreadyClaimedToday])
  else
    let dailyRewardAmount := rewardSetting (db b) "daily_reward_amount" in
    match storage.awardReward (db b) telegramId dailyRewardAmount daily_reward with
    | None => (b, None)
    | Some (s1, updatedUser) =>
        let s2 := storage.updateUser s1 telegramId (lastDailyRewardPatch now) in
        (setDb b s2,
         Some [DailyCheckinMenu (u_coins updatedUser); DailyClaimedAlert dailyRewardAmount])
    end.

Definition handleViewRaffles (b : Bot) (user : User) : Bot * option (list Reply) :=
  let activeRaffles := storage.getActiveRaffles (db b) in
  if Z.of_nat (length activeRaffles) =? 0 then (b, Some [NoActiveRaffles])
  else (b, Some [RaffleList activeRaffles (u_coins user); Acknowledge]).

Definition handleViewShop (b : Bot) (user : User) : Bot * option (list Reply) :=
  let shopItems := storage.getActiveShopItems (db b) in
  if Z.of_nat (length shopItems) =? 0 then (b, Some [ShopEmpty])
  else (b, Some [ShopList shopItems (u_coins user); Acknowledge]).

Definition handleReferralLink (b : Bot) (user : User) : Bot * option (list Reply) :=
  (b, Some [ReferralInfo (u_referralCode user); Acknowledge]).

Definition handleMyInfo (b : Bot) (telegramId : string) (now : Z)
    : Bot * option (list Reply) :=
  match storage.getUserByTelegramId (db b) telegramId with
  | None => (b, Some [UserNotFound])
  | Some updatedUser =>
      (b, Some [MyInfo (u_coins updatedUser)
                       (canClaimDailyReward now (u_lastDailyReward updatedUser));
                Acknowledge])
  end.

(** [handleEnterCode]; [now] is [Date.now()]. *)
Definition handleEnterCode (b : Bot) (telegramId : string) (now : Z)
    : Bot * option (list Reply) :=
  (mkBot (db b) (<[telegramId := ("expecting_invite_code", now)]> (userStates b)),
   Some [EnterCodePrompt; Acknowledge]).

Definition handleRaffleEntry (b : Bot) (telegramId : string) (user : User)
    (raffleId : JS.number) : Bot * option (list Reply) :=
  match storage.getRaffleById (db b) raffleId with
  | None => (b, Some [RaffleNotFound])
  | Some raffle =>
      if u_coins user <? r_entryCost raffle then
        (b, Some [NotEnoughCoins (r_entryCost raffle)])
      else
        let s1 := storage.updateUser (db b) telegramId
                    (coinsPatch (u_coins user - r_entryCost raffle)) in
        let s2 := storage.enterRaffle s1 (mkRaffleEntry (r_id raffle) (u_id user) 1) in
        let s3 := storage.updateRaffle s2 (r_id raffle) (r_currentEntries raffle + 1) in
        let s4 := storage.createTransaction s3
                    (mkTransaction (u_id user) raffle_entry (- r_entryCost raffle)) in
        (setDb b s4, Some [RaffleEntered (r_id raffle) (u_coins user - r_entryCost raffle)])
  end.

Definition handleShopPurchase (b : Bot) (telegramId : string) (user : User)
    (itemId : JS.number) : Bot * option (list Reply) :=
  let found :=
    match itemId with
    | Some n => List.find (fun i => i_id i =? n) (storage.getAllShopItems (db b))
    | None => None
    end in
  match found with
  | None => (b, Some [ItemNotFound])
  | Some item =>
      if u_coins user <? i_cost item then
        (b, Some [NotEnoughCoins (i_cost item)])
      else if match i_stock item with Some st => st <=? 0 | None => false end then
        (b, Some [OutOfStock])
      else
        let s1 := storage.updateUser (db b) telegramId
                    (coinsPatch (u_coins user - i_cost item)) in
        let s2 := storage.createPurchase s1
                    (mkPurchase (u_id user) (i_id item) 1 (i_cost item) "completed") in
        let s3 := match i_stock item with
                  | Some st => storage.updateShopItem s2 (i_id item) (st - 1)
                  | None => s2
                  end in
        let s4 := storage.createTransaction s3
                    (mkTransaction (u_id user) shop_purchase (- i_cost item)) in
        (setDb b s4, Some [Purchased (i_id item) (u_coins user - i_cost item)])
  end.

Definition handleBackToMenu (b : Bot) (telegramId : string) (now : Z)
    : Bot * option (list Reply) :=
  let b1 := mkBot (db b) (delete telegramId (userStates b)) in
  match storage.getUserByTelegramId (db b1) telegramId with
  | None => (b1, Some [UserNotFound])
  | Some updatedUser =>
      (b1, Some [BackMenu (u_coins updatedUser)
                          (canClaimDailyReward now (u_lastDailyReward updatedUser));
                 Acknowledge])
  end.

(** [parseInt(data.split('_')[1])] *)
Definition trailingId (data : string) : JS.number :=
  match JS.splitSecond data with
  | Some t => JS.parseInt t None
  | None => None
  end.

(** [bot.on('callback_query', ...)]: dispatch on the action tag. *)
Definition onCallbackQuery (b : Bot) (telegramId data : string) (now : Z)
    : Bot * list Reply :=
  if String.eqb data "" then (b, []) else
  match storage.getUserByTelegramId (db b) telegramId with
  | None => (b, [PleaseStartFirst])
  | Some user =>
      let '(b', r) :=
        if String.eqb data "daily_checkin" then handleDailyCheckin b telegramId user now
        else if String.eqb data "view_raffles" then handleViewRaffles b user
        else if String.eqb data "view_shop" then handleViewShop b user
        else if String.eqb data "referral_link" then handleReferralLink b user
        else if String.eqb data "my_info" then handleMyInfo b telegramId now
        else if String.eqb data "enter_code" then handleEnterCode b telegramId now
        else if String.eqb data "back_to_menu" then handleBackToMenu b telegramId now
        else if JS.startsWith "raffle_" data then
          handleRaffleEntry b telegramId user (trailingId data)
        else if JS.startsWith "shop_" data then
          handleShopPurchase b telegramId user (trailingId data)
        else (b, Some [])
      in
      match r with
      | Some replies => (b', replies)
      | None => (b', [SomethingWentWrong])
      end
  end.

(** ** Events

    One event is one run of one handler, from its first line to its last;
    [handle] runs it on the state the previous handler left. *)
Inductive Event :=
  | Start (telegramId : string) (referralCode : option string) (nanoid8 : string)
  | Daily (telegramId : string) (now : Z)
  | ReadOnly (c : ReadCommand) (telegramId : string) (now : Z)
  | Message (telegramId text : string)
  | CallbackQuery (telegramId data : string) (now : Z).

Definition handle (b : Bot) (e : Event) : Bot * list Reply :=
  match e with
  | Start t rc n => onStart b t rc n
  | Daily t now => onDaily b t now
  | ReadOnly c t now => onReadCommand b c t now
  | Message t text => onMessage b t text
  | CallbackQuery t data now => onCallbackQuery b t data now
  end.

Fixpoint run (b : Bot) (es : list Event) : Bot :=
  match es with
  | [] => b
  | e :: es' => run (fst (handle b e)) es'
  end.

End Handlers.

(** ** Handlers in flight together

    Each [await] hands control back to the event loop, so the handlers of
    two updates interleave at their storage calls.  A purchase by button
    ([callback_query] with a [shop_<id>] tag, then [handleShopPurchase]) is
    cut at its awaits: a task names the storage call it is waiting for and
    holds the handler's local variables; a step performs that call and runs
    the handler up to its next call. *)
Module Interleaved.

Inductive PurchaseTask :=
  | AwaitUser (telegramId : string) (itemId : JS.number)
  | AwaitAllShopItems (telegramId : string) (user : User) (itemId : JS.number)
  | AwaitUpdateUser (telegramId : string) (user : User) (item : ShopItem)
  | AwaitCreatePurchase (telegramId : string) (user : User) (item : ShopItem)
  | AwaitUpdateShopItem (telegramId : string) (user : User) (item : ShopItem) (stock : Z)
  | AwaitCreateTransaction (telegramId : string) (user : User) (item : ShopItem)
  | Finished (replies : list Reply).

Definition step (s : Store) (t : PurchaseTask) : Store * PurchaseTask :=
  match t with
  | AwaitUser telegramId itemId =>
      match storage.getUserByTelegramId s telegramId with
      | None => (s, Finished [PleaseStartFirst])
      | Some user => (s, AwaitAllShopItems telegramId user itemId)
      end
  | AwaitAllShopItems telegramId user itemId =>
      let found :=
        match itemId with
        | Some n => List.find (fun i => i_id i =? n) (storage.getAllShopItems s)
        | None => None
        end in
      match found with
      | None => (s, Finished [ItemNotFound])
      | Some item =>
          if u_coins user <? i_cost item then
            (s, Finished [NotEnoughCoins (i_cost item)])
          else if match i_stock item with Some st => st <=? 0 | None => false end then
            (s, Finished [OutOfStock])
          else (s, AwaitUpdateUser telegramId user item)
      end
  | AwaitUpdateUser telegramId user item =>
      (storage.updateUser s telegramId (coinsPatch (u_coins user - i_cost item)),
       AwaitCreatePurchase telegramId user item)
  | AwaitCreatePurchase telegramId user item =>
      (storage.createPurchase s
         (mkPurchase (u_id user) (i_id item) 1 (i_cost item) "completed"),
       match i_stock item with
       | Some st => AwaitUpdateShopItem telegramId user item st
       | None => AwaitCreateTransaction telegramId user item
       end)
  | AwaitUpdateShopItem telegramId user item st =>
      (storage.updateShopItem s (i_id item) (st - 1),
       AwaitCreateTransaction telegramId user item)
  | AwaitCreateTransaction telegramId user item =>
      (storage.createTransaction s
         (mkTransaction (u_id user) shop_purchase (- i_cost item)),
       Finished [Purchased (i_id item) (u_coins user - i_cost item)])
  | Finished r => (s, Finished r)
  end.

(** The event loop resumes the tasks in the order of the schedule. *)
Fixpoint interleave (s : Store) (tasks : list PurchaseTask) (schedule : list nat)
    : Store * list PurchaseTask :=
  match schedule with
  | [] => (s, tasks)
  | i :: rest =>
      match tasks !! i with
      | Some t =>
          let '(s', t') := step s t in
          interleave s' (<[i := t']> tasks) rest
      | None => interleave s tasks rest
      end
  end.

(** One task run on its own, for at most [n] steps. *)
Fixpoint runTask (n : nat) (s : Store) (t : PurchaseTask) : Store * PurchaseTask :=
  match n with
  | O => (s, t)
  | S n' => let '(s', t') := step s t in runTask n' s' t'
  end.

Definition succeeded (t : PurchaseTask) : bool :=
  match t with
  | Finished [Purchased _ _] => true
  | _ => false
  end.

End Interleaved.

(** ** Broadcast *)

(** What [broadcastMessage] does on the transport: a [sendMessage] that
    resolves or rejects, and the [setTimeout] pauses it awaits. *)
Inductive Outbound :=
  | Send (telegramId : string) (resolved : bool)
  | Pause (ms : Z).

Record BroadcastCount := mkCount { success : Z; failed : Z }.

(** The [for ... of] loop of [broadcastMessage]; [sendMessage] tells whether
    the send to a chat resolves. *)
Fixpoint broadcastLoop (sendMessage : string -> bool) (activeUsers : list User)
    (success failed : Z) : BroadcastCount * list Outbound :=
  match activeUsers with
  | [] => (mkCount success failed, [])
  | user :: rest =>
      if sendMessage (u_telegramId user) then
        let '(c, tr) := broadcastLoop sendMessage rest (success + 1) failed in
        (c, Send (u_telegramId user) true :: Pause 50 :: tr)
      else
        let '(c, tr) := broadcastLoop sendMessage rest success (failed + 1) in
        (c, Send (u_telegramId user) false :: tr)
  end.

(** [broadcastMessage]; [botReady] is [bot !== null], [activeUsers] is what
    [storage.getActiveUsers()] returns.  [None] is the thrown
    ['Bot is not initialized']. *)
Definition broadcastMessage (botReady : bool) (sendMessage : string -> bool)
    (activeUsers : list User) : option (BroadcastCount * list Outbound) :=
  if negb botReady then None
  else Some (broadcastLoop sendMessage activeUsers 0 0).

(** ** Ledger predicates *)

(** Sum of the amounts of the Transactions of one user. *)
Definition txSum (uid : Z) (txs : list Transaction) : Z :=
  fold_right (fun t acc => if tx_userId t =? uid then tx_amount t + acc else acc) 0 txs.

(** Every user's balance is the sum of that user's Transactions. *)
Definition ledgerBalanced (s : Store) : Prop :=
  Forall (fun u => txSum (u_id u) (transactions s) = u_coins u) (users s).

(** The keys of the user table are keys, and the log refers to rows of it. *)
Record wellFormed (s : Store) : Prop := mkWellFormed {
  wf_ids : NoDup (map u_id (users s));
  wf_telegramIds : NoDup (map u_telegramId (users s));
  wf_log : Forall (fun t => tx_userId t ∈ map u_id (users s)) (transactions s)
}.

Definition coinsOf (s : Store) (telegramId : string) : option Z :=
  u_coins <$> storage.getUserByTelegramId s telegramId.

(** The civil day of section 4.1: the day number of an instant on a clock
    fixed at UTC minus 8 hours. *)
Definition civilDayUTCminus8 (t : Z) : Z := (t - 8 * 60 * 60 * 1000) `div` msPerDay.

(** The decimal notation of an integer, as a user types it: the digits, with
    a minus sign in front of a negative one. *)
Definition decimalText (n : Z) : string := NilZero.string_of_int (Z.to_int n).

(** What every handler keeps, when it runs alone. *)
Definition ledgerInvariant (s : Store) : Prop := wellFormed s /\ ledgerBalanced s.

(** What the purchase code answers for an item whose stock is used up. *)
Definition noStockRejection (user : User) (item : ShopItem) : Reply :=
  if u_coins user <? i_cost item then NotEnoughCoins (i_cost item) else OutOfStock.


(** ** Sample data

    Two users, a raffle that is closed in every way and one that is open,
    an item with no stock and an item with one piece left. *)

Definition referrerR : User := mkUser 1 "100" "AB3_-XYZ" None 10 0 None.
Definition newcomerN : User := mkUser 2 "200" "QQQQ1111" None 0 0 None.

Definition closedRaffle : Raffle := mkRaffle 1 3 5 (Some 5) 1000 false.
Definition openRaffle : Raffle := mkRaffle 2 4 0 None 9000000000000 true.

Definition soldOutItem : ShopItem := mkShopItem 1 8 (Some 0) true.
Definition lastPieceItem : ShopItem := mkShopItem 2 10 (Some 1) true.

Definition sampleStore : Store :=
  mkStore [referrerR; newcomerN]
          [mkTransaction 1 daily_reward 10]
          [closedRaffle; openRaffle] []
          [lastPieceItem; soldOutItem] []
          (<["referral_reward_amount" := "5"]> (<["daily_reward_amount" := "2"]> ∅)).

Definition sampleBot : Bot := mkBot sampleStore ∅.

(** The newcomer has pressed the invitation-code button. *)
Definition promptedBot : Bot :=
  mkBot sampleStore (<["200" := ("expecting_invite_code", 0)]> ∅).

(** The referrer presses the buy button of the last piece twice; the event
    loop resumes the two handlers in alternation. *)
Definition buyLastPiece : Interleaved.PurchaseTask :=
  Interleaved.AwaitUser "100" (Some 2).

Definition alternating : list nat :=
  [0; 1; 0; 1; 0; 1; 0; 1; 0; 1; 0; 1]%nat.

Definition sampleEvents : list Event :=
  [Start "300" (Some "AB3_-XYZ") "abcdefgh";
   CallbackQuery "100" "daily_checkin" 1700000000000;
   Message "100" "1";
   CallbackQuery "100" "raffle_1" 1700000000000;
   CallbackQuery "200" "enter_code" 1700000000000;
   Message "200" " ab3_-xyz ";
   Daily "200" 1700000000000;
   CallbackQuery "200" "shop_1" 1700000000000].

(** ** Further notions: what a run keeps, keyboards, start-up *)

(** The telegram id an event comes from. *)
Definition eventUser (e : Event) : string :=
  match e with
  | Start t _ _ => t
  | Daily t _ => t
  | ReadOnly _ t _ => t
  | Message t _ => t
  | CallbackQuery t _ _ => t
  end.

(** The fields of a row that identify it or state its terms; the bot is
    not meant to write them after creation. *)
Definition userKey (u : User) : Z * string * string :=
  (u_id u, u_telegramId u, u_referralCode u).

Definition raffleTerms (r : Raffle) : Z * Z * option Z * Z * bool :=
  (r_id r, r_entryCost r, r_maxEntries r, r_endDate r, r_isActive r).

Definition itemTerms (i : ShopItem) : Z * Z * bool :=
  (i_id i, i_cost i, i_isActive i).

Definition balancesNonNegative (s : Store) : Prop :=
  Forall (fun u => 0 <= u_coins u) (users s).

(** The two reward settings the handlers read, when they are numbers, are
    not negative. *)
Definition rewardsNonNegative (s : Store) : Prop :=
  (forall a, rewardSetting s "referral_reward_amount" = Some a -> 0 <= a)
  /\ (forall a, rewardSetting s "daily_reward_amount" = Some a -> 0 <= a).

Definition stockNonNegative (s : Store) : Prop :=
  Forall (fun i => match i_stock i with Some st => 0 <= st | None => True end)
         (shopItems s).

(** A raffle row later on: the same terms, and at least as many entries. *)
Definition raffleGrew (r r' : Raffle) : Prop :=
  raffleTerms r' = raffleTerms r /\ r_currentEntries r <= r_currentEntries r'.

Definition referredByOf (s : Store) (telegramId : string) : option (option string) :=
  u_referredBy <$> storage.getUserByTelegramId s telegramId.

(** The day the eligibility test compares: the server's local day of the
    instant moved back by 8 hours. *)
Definition localDay (localOffset t : Z) : Z :=
  (toPST t + localOffset) `div` msPerDay.

(** A user row with one more day on its streak. *)
Definition countStreak (u : User) : User :=
  mkUser (u_id u) (u_telegramId u) (u_referralCode u) (u_referredBy u)
         (u_coins u) (u_streak u + 1) (u_lastDailyReward u).

(** The replies of the invitation-code branch of the message handler. *)
Definition isInvitationReply (r : Reply) : Prop :=
  match r with
  | InvalidInvitationCode | OwnInvitationCode | AlreadyUsedInvitationCode
  | InvitationAccepted _ _ _ => True
  | _ => False
  end.

(** The conversation states are in order: each one is the prompt for an
    invitation code and is held for a registered user. *)
Definition statesInOrder (b : Bot) : Prop :=
  forall t st, userStates b !! t = Some st ->
    fst st = "expecting_invite_code"
    /\ is_Some (storage.getUserByTelegramId (db b) t).

(** The tags of the buttons whose handlers write to the tables: the
    check-in, a raffle and a shop item. *)
Definition writingTag (data : string) : bool :=
  String.eqb data "daily_checkin" || JS.startsWith "raffle_" data
  || JS.startsWith "shop_" data.

(** What the handler of an event answers to a telegram id it does not
    know. *)
Definition unknownUserReplies (e : Event) : list Reply :=
  match e with
  | Message _ _ => []
  | CallbackQuery _ data _ => if String.eqb data "" then [] else [PleaseStartFirst]
  | _ => [PleaseStartFirst]
  end.

(** An event of [/start]. *)
Definition isStart (e : Event) : bool :=
  match e with Start _ _ _ => true | _ => false end.

(** *** Keyboards

    The [callback_data] of the buttons the handlers attach to their
    messages.  An id is interpolated in decimal notation (ids beyond 1e21,
    which [String] prints with an exponent, are not modelled). *)

(** The main menu of [/start] and of [handleBackToMenu]. *)
Definition mainMenuKeyboard : list string :=
  ["daily_checkin"; "view_raffles"; "view_shop"; "referral_link"; "my_info"; "enter_code"].

(** The menu [handleDailyCheckin] shows after a granted claim. *)
Definition checkedInKeyboard : list string :=
  ["daily_completed"; "view_raffles"; "view_shop"; "referral_link"; "my_info"; "enter_code"].

(** [`raffle_${raffle.id}`] *)
Definition raffleCallbackData (raffle : Raffle) : string :=
  "raffle_" ++ decimalText (r_id raffle).

(** [`shop_${item.id}`] *)
Definition shopCallbackData (item : ShopItem) : string :=
  "shop_" ++ decimalText (i_id item).

(** The keyboard of [handleViewRaffles]. *)
Definition rafflesKeyboard (s : Store) : list string :=
  (map raffleCallbackData (storage.getActiveRaffles s) ++ ["back_to_menu"])%list.

(** The keyboard of [handleViewShop]. *)
Definition shopKeyboard (s : Store) : list string :=
  (map shopCallbackData (storage.getActiveShopItems s) ++ ["back_to_menu"])%list.

(** The time a broadcast spends in its pauses, in milliseconds. *)
Definition pauseTotal (tr : list Outbound) : Z :=
  fold_right (fun o acc => match o with Pause ms => ms + acc | Send _ _ => acc end) 0 tr.

(** *** Start-up *)

Module Init.

(** What [initializeBot] finds around it: the two environment variables,
    and whether the calls it awaits resolve.  The constructor of
    [TelegramBot] and [removeAllListeners] are taken not to throw. *)
Record Env := mkEnv {
  BOT_TOKEN : option string;
  TELEGRAM_BOT_TOKEN : option string;
  stopPollingOk : bool;
  fetchOk : bool;
  setWebHookOk : bool
}.

(** A [TelegramBot] object: the token it was built with and whether
    [setupBotHandlers] has registered the handlers on it. *)
Record Instance := mkInstance {
  token : string;
  handlers : bool
}.

Inductive Action :=
  | StopPolling
  | RemoveAllListeners
  | Wait (ms : Z)
  | ClearUpdates (token : string)
  | NewBot (token : string)
  | SetWebHook
  | SetupBotHandlers.

(** [a || b] on values that are strings or absent. *)
Definition orElse (a b : option string) : option string :=
  if JS.truthy a then a else b.

(** [initializeBot]: the module variable [bot] before, and after it the
    variable, the value returned and the calls made. *)
Definition initializeBot (env : Env) (s : Store) (bot : option Instance)
    : option Instance * option Instance * list Action :=
  let '(bot1, stopped) :=
    match bot with
    | Some old =>
        if stopPollingOk env
        then (None, [StopPolling; RemoveAllListeners; Wait 1000])
        else (Some old, [StopPolling])
    | None => (None, [])
    end in
  let botToken :=
    orElse (storage.getBotSetting s "bot_token")
           (orElse (BOT_TOKEN env) (TELEGRAM_BOT_TOKEN env)) in
  if negb (JS.truthy botToken) then (bot1, None, stopped)
  else
    let tok := default "" botToken in
    if negb (fetchOk env) then
      (bot1, bot1, (stopped ++ [ClearUpdates tok])%list)
    else if negb (setWebHookOk env) then
      (Some (mkInstance tok false), Some (mkInstance tok false),
       (stopped ++ [ClearUpdates tok; NewBot tok; SetWebHook])%list)
    else
      (Some (mkInstance tok true), Some (mkInstance tok true),
       (stopped ++ [ClearUpdates tok; NewBot tok; SetWebHook; SetupBotHandlers])%list).

(** [getBot] *)
Definition getBot (bot : option Instance) : option Instance := bot.

(** A value that is a non-empty string. *)
Definition nonEmpty (o : option string) : option string :=
  match o with
  | Some x => if String.eqb x "" then None else Some x
  | None => None
  end.

(** The first of three values that is a non-empty string. *)
Definition firstNonEmpty (a b c : option string) : option string :=
  match nonEmpty a with
  | Some x => Some x
  | None => match nonEmpty b with
            | Some y => Some y
            | None => nonEmpty c
            end
  end.

End Init.

(** *** Further sample data *)

(** The sample bot after a third user has joined through the referrer's
    link. *)
Definition joinedBot : Bot :=
  fst (onStart sampleBot "300" (Some "AB3_-XYZ") "abcdefgh").

(** The sample bot with the two items of the shop listed the other way
    round. *)
Definition reshelvedBot : Bot :=
  mkBot (mkStore (users sampleStore) (transactions sampleStore) (raffles sampleStore)
                 (raffleEntries sampleStore) [soldOutItem; lastPieceItem]
                 (purchases sampleStore) (botSettings sampleStore)) ∅.

(** * Properties *)

(** ** The built-ins on sample inputs *)

Example parseInt_prefix : JS.parseInt " 12abc" None = Some 12.
Proof. reflexivity. Qed.
Example parseInt_hex : JS.parseInt "0x1F" None = Some 31.
Proof. reflexivity. Qed.
Example parseInt_radix10 : JS.parseInt "0x1F" (Some 10) = Some 0.
Proof. reflexivity. Qed.
Example parseInt_negative : JS.parseInt "-7" None = Some (-7).
Proof. reflexivity. Qed.
Example parseInt_nan : JS.parseInt "abc" None = None.
Proof. reflexivity. Qed.
Example trim_both_ends : JS.trim "  a b  " = "a b".
Proof. reflexivity. Qed.
Example toUpperCase_mixed : JS.toUpperCase "aZ_-9x" = "AZ_-9X".
Proof. reflexivity. Qed.
Example splitSecond_tag : JS.splitSecond "raffle_12_3" = Some "12".
Proof. reflexivity. Qed.

(** ** Strings: trimming and upper-casing *)

Ltac each_char c := destruct c as [[] [] [] [] [] [] [] []]; vm_compute; try done.









Lemma trimStart_spaces pre v :
  allChars JS.isSpace pre = true ->
  JS.trimStart (pre ++ v) = JS.trimStart v.
Proof.
  induction pre as [|c r IH]; simpl; [done|].
  intros [Hc Hr]%andb_prop. rewrite Hc. auto.
Qed.

Lemma trimStart_no_space v :
  allChars (fun c => negb (JS.isSpace c)) v = true -> JS.trimStart v = v.
Proof.
  destruct v as [|c r]; simpl; [done|].
  intros [Hc _]%andb_prop. by destruct (JS.isSpace c).
Qed.

Lemma trimEnd_spaces post :
  allChars JS.isSpace post = true -> JS.trimEnd post = "".
Proof.
  induction post as [|c r IH]; simpl; [done|].
  intros [Hc Hr]%andb_prop. by rewrite (IH Hr), Hc.
Qed.

Lemma trimEnd_no_space v post :
  allChars (fun c => negb (JS.isSpace c)) v = true ->
  allChars JS.isSpace post = true ->
  JS.trimEnd (v ++ post) = v.
Proof.
  intros Hv Hpost. induction v as [|c r IH]; simpl.
  - by apply trimEnd_spaces.
  - simpl in Hv. apply andb_prop in Hv as [Hc Hr]. rewrite (IH Hr).
    destruct r; [|done]. by destruct (JS.isSpace c).
Qed.

Lemma trimEnd_cons c w :
  JS.trimEnd w <> "" -> JS.trimEnd (String c w) = String c (JS.trimEnd w).
Proof. intros H. simpl. by destruct (JS.trimEnd w). Qed.

Lemma append_cons c (r w : string) : String c r ++ w = String c (r ++ w).
Proof. reflexivity. Qed.

Lemma append_nonempty (r w : string) : w <> "" -> r ++ w <> "".
Proof. by destruct r. Qed.

(** Trimming removes the white space around a word that has none inside. *)
Lemma trim_padded pre v post :
  v <> "" ->
  allChars (fun c => negb (JS.isSpace c)) v = true ->
  allChars JS.isSpace pre = true ->
  allChars JS.isSpace post = true ->
  JS.trim (pre ++ v ++ post) = v.
Proof.
  intros Hne Hv Hpre Hpost. unfold JS.trim.
  assert (Hend : JS.trimEnd (v ++ post) = v) by by apply trimEnd_no_space.
  assert (E : JS.trimEnd (pre ++ v ++ post) = pre ++ v).
  { clear Hpre. induction pre as [|c r IH]; [done|].
    rewrite !append_cons, trimEnd_cons; rewrite IH; [done|].
    by apply append_nonempty. }
  rewrite E, trimStart_spaces by done. by apply trimStart_no_space.
Qed.



(** The guard of the message handler lets a text through when it is not
    empty and does not begin with a slash. *)
Lemma message_guard c r :
  c <> "/"%char ->
  (String.eqb (String c r) "" || JS.startsWith "/" (String c r)) = false.
Proof.
  intros Hc. cbn [String.eqb JS.startsWith orb].
  destruct (Ascii.eqb_spec "/" c) as [E|E]; [by subst c|done].
Qed.

Lemma upperChar_slash c : JS.upperChar c = "/"%char -> c = "/"%char.
Proof. each_char c. Qed.




(** ** Reading a number *)

Lemma parseDigits_step radix acc c r d :
  JS.digitVal radix c = Some d ->
  JS.parseDigits radix acc (String c r)
  = JS.parseDigits radix (Some (radix * default 0 acc + d)) r.
Proof. intros H. simpl. by rewrite H. Qed.

Ltac digit_case IH c k :=
  rewrite (parseDigits_step 10 _ c _ k eq_refl);
  cbn [default from_option id Pos.of_uint_acc]; rewrite <- IH; do 2 f_equal; lia.

Lemma parseDigits_acc d (acc : positive) :
  JS.parseDigits 10 (Some (Z.pos acc)) (NilEmpty.string_of_uint d)
  = Some (Z.pos (Pos.of_uint_acc d acc)).
Proof.
  revert acc. induction d as [|d IH|d IH|d IH|d IH|d IH|d IH|d IH|d IH|d IH|d IH];
    intros acc; cbn [NilEmpty.string_of_uint];
    [done|digit_case IH "0"%char 0|digit_case IH "1"%char 1|digit_case IH "2"%char 2|digit_case IH "3"%char 3
    |digit_case IH "4"%char 4|digit_case IH "5"%char 5|digit_case IH "6"%char 6|digit_case IH "7"%char 7
    |digit_case IH "8"%char 8|digit_case IH "9"%char 9].
Qed.

Ltac first_digit c k :=
  rewrite (parseDigits_step 10 _ c _ k eq_refl); cbn [default from_option id];
  apply (parseDigits_acc _ (Z.to_pos k)).

Lemma parseDigits_zero d :
  JS.parseDigits 10 (Some 0) (NilEmpty.string_of_uint d) = Some (Z.of_N (Pos.of_uint d)).
Proof.
  induction d as [|d IH|d IH|d IH|d IH|d IH|d IH|d IH|d IH|d IH|d IH];
    cbn [NilEmpty.string_of_uint Pos.of_uint];
    [done
    |rewrite (parseDigits_step 10 _ "0"%char _ 0 eq_refl); exact IH
    |first_digit "1"%char 1|first_digit "2"%char 2|first_digit "3"%char 3|first_digit "4"%char 4|first_digit "5"%char 5
    |first_digit "6"%char 6|first_digit "7"%char 7|first_digit "8"%char 8|first_digit "9"%char 9].
Qed.

Lemma parseDigits_uint d :
  d <> Nil ->
  JS.parseDigits 10 None (NilEmpty.string_of_uint d) = Some (Z.of_N (Pos.of_uint d)).
Proof.
  intros Hd. destruct d; cbn [NilEmpty.string_of_uint Pos.of_uint];
    [done
    |rewrite (parseDigits_step 10 _ "0"%char _ 0 eq_refl); apply parseDigits_zero
    |first_digit "1"%char 1|first_digit "2"%char 2|first_digit "3"%char 3|first_digit "4"%char 4|first_digit "5"%char 5
    |first_digit "6"%char 6|first_digit "7"%char 7|first_digit "8"%char 8|first_digit "9"%char 9].
Qed.

Lemma digits_no_hex_prefix d : JS.stripHexPrefix (NilEmpty.string_of_uint d) = None.
Proof. destruct d as [|d|d|d|d|d|d|d|d|d|d]; try done; by destruct d. Qed.

Lemma digits_no_space d :
  allChars (fun c => negb (JS.isSpace c)) (NilEmpty.string_of_uint d) = true.
Proof. induction d; simpl; try done. Qed.

Lemma decimalText_no_space n :
  decimalText n <> "" /\ allChars (fun c => negb (JS.isSpace c)) (decimalText n) = true.
Proof.
  pose proof (Unsigned.to_uint_nonnil) as Hnn.
  destruct n as [|p|p]; unfold decimalText; simpl; [done|..].
  - specialize (Hnn p). unfold NilZero.string_of_uint.
    destruct (Pos.to_uint p) eqn:E; [done|..]; rewrite <- E;
      (split; [rewrite E; done|apply digits_no_space]).
  - split; [done|]. specialize (Hnn p). unfold NilZero.string_of_uint.
    destruct (Pos.to_uint p) eqn:E; [done|..]; rewrite <- E; apply digits_no_space.
Qed.

(** [parseInt] reads the decimal notation of an integer back as that
    integer. *)
Lemma parseInt_decimalText n : JS.parseInt (decimalText n) None = Some n.
Proof.
  destruct n as [|p|p]; [reflexivity|..]; unfold decimalText; simpl Z.to_int;
    pose proof (Unsigned.to_uint_nonnil p) as Hnn;
    pose proof (Unsigned.of_to p) as Hval;
    unfold NilZero.string_of_int, NilZero.string_of_uint.
  - assert (E : (match Pos.to_uint p with Nil => "0" | _ => NilEmpty.string_of_uint (Pos.to_uint p) end)
                = NilEmpty.string_of_uint (Pos.to_uint p)) by (by destruct (Pos.to_uint p)).
    rewrite E. unfold JS.parseInt.
    rewrite (trimStart_no_space _ (digits_no_space _)).
    assert (Hs : match NilEmpty.string_of_uint (Pos.to_uint p) with
                 | String "-" r => (-1, r)
                 | String "+" r => (1, r)
                 | _ => (1, NilEmpty.string_of_uint (Pos.to_uint p))
                 end = (1, NilEmpty.string_of_uint (Pos.to_uint p)))
      by (by destruct (Pos.to_uint p)).
    rewrite Hs, digits_no_hex_prefix, parseDigits_uint, Hval by done.
    f_equal.
  - assert (E : (match Pos.to_uint p with Nil => "0" | _ => NilEmpty.string_of_uint (Pos.to_uint p) end)
                = NilEmpty.string_of_uint (Pos.to_uint p)) by (by destruct (Pos.to_uint p)).
    rewrite E. unfold JS.parseInt. cbn [JS.trimStart].
    change (JS.isSpace "-") with false. cbv iota.
    rewrite digits_no_hex_prefix, parseDigits_uint, Hval by done.
    f_equal.
Qed.

(** A number typed with white space around it is read as that number. *)
Lemma bare_integer_parses n pre post :
  allChars JS.isSpace pre = true ->
  allChars JS.isSpace post = true ->
  JS.parseInt (JS.trim (pre ++ decimalText n ++ post)) None = Some n.
Proof.
  intros Hpre Hpost. destruct (decimalText_no_space n) as [Hne Hns].
  rewrite trim_padded by done. apply parseInt_decimalText.
Qed.

(** ** Conversation state *)

Lemma trimEnd_first c r : exists r', JS.trimEnd (String c r) = String c r' \/
  (JS.trimEnd (String c r) = "" /\ JS.isSpace c = true).
Proof.
  simpl. destruct (JS.trimEnd r) as [|d r'].
  - destruct (JS.isSpace c); [exists ""; by right|exists ""; by left].
  - exists (String d r'). by left.
Qed.

(** A text that [parseInt] reads a number from, once trimmed, is not empty
    and is not a slash command. *)
Lemma parsed_text_passes_guard text n :
  JS.parseInt (JS.trim text) None = Some n ->
  (String.eqb text "" || JS.startsWith "/" text) = false.
Proof.
  destruct text as [|c r]; [done|].
  intros H. apply message_guard. intros ->.
  destruct (trimEnd_first "/" r) as [r' [E|[_ E]]]; [|done].
  unfold JS.trim in H. rewrite E in H. by vm_compute in H.
Qed.

(** C8: a registered user's pending invitation-code state is deleted by
    that user's next text message that is not a slash command, whichever
    way the code lookup goes; a slash command leaves it (the message
    handler returns at once and the command handlers never touch the map);
    and the back-to-menu button deletes it. *)
Theorem invite_state_consumed
    (localOffset : Z) (b : Bot) (telegramId text : string) (user : User) (asked now : Z) :
  storage.getUserByTelegramId (db b) telegramId = Some user ->
  userStates b !! telegramId = Some ("expecting_invite_code", asked) ->
  ((String.eqb text "" || JS.startsWith "/" text) = false ->
     userStates (fst (onMessage b telegramId text)) = delete telegramId (userStates b))
  /\ (JS.startsWith "/" text = true ->
        onMessage b telegramId text = (b, [])
        /\ (forall rc nanoid8, userStates (fst (onStart b telegramId rc nanoid8)) = userStates b)
        /\ userStates (fst (onDaily localOffset b telegramId now)) = userStates b
        /\ (forall c, userStates (fst (onReadCommand localOffset b c telegramId now)) = userStates b))
  /\ userStates (fst (onCallbackQuery localOffset b telegramId "back_to_menu" now))
     = delete telegramId (userStates b).
Proof.
  intros Huser Hstate. split; [|split].
  - intros Hguard. unfold onMessage. rewrite Hguard, Huser, Hstate. simpl.
    repeat case_match; reflexivity.
  - intros Hslash. split; [|split; [|split]].
    + unfold onMessage. rewrite Hslash, orb_true_r. reflexivity.
    + intros rc nanoid8. unfold onStart. rewrite Huser.
      repeat case_match; reflexivity.
    + unfold onDaily. rewrite Huser. repeat case_match; reflexivity.
    + intros c. unfold onReadCommand. rewrite Huser.
      repeat case_match; reflexivity.
  - unfold onCallbackQuery. rewrite Huser. simpl.
    unfold handleBackToMenu. simpl. rewrite Huser. reflexivity.
Qed.

(** ** Numbered selection *)

(** C7: with no pending conversation state, a text that reads as the
    integer [n] is taken first as a 1-based position in the list of active
    raffles and, when it is out of that range, in the list of active shop
    items; a number out of both ranges changes nothing and sends nothing,
    and so does every number when both lists are empty. *)
Theorem numbered_selection (b : Bot) (telegramId text : string) (n : Z) :
  userStates b !! telegramId = None ->
  JS.parseInt (JS.trim text) None = Some n ->
  let activeRaffles := storage.getActiveRaffles (db b) in
  let shopItems := storage.getActiveShopItems (db b) in
  let inRaffles := 1 <= n <= Z.of_nat (length activeRaffles) in
  let inShop := 1 <= n <= Z.of_nat (length shopItems) in
  (forall user, storage.getUserByTelegramId (db b) telegramId = Some user ->
     inRaffles ->
     exists raffle, activeRaffles !! Z.to_nat (n - 1) = Some raffle
       /\ (onMessage b telegramId text = (b, [NotEnoughCoins (r_entryCost raffle)])
           \/ snd (onMessage b telegramId text)
              = [RaffleEntered (r_id raffle) (u_coins user - r_entryCost raffle)]))
  /\ (forall user, storage.getUserByTelegramId (db b) telegramId = Some user ->
     ~ inRaffles -> inShop ->
     exists item, shopItems !! Z.to_nat (n - 1) = Some item
       /\ (onMessage b telegramId text = (b, [NotEnoughCoins (i_cost item)])
           \/ onMessage b telegramId text = (b, [OutOfStock])
           \/ snd (onMessage b telegramId text)
              = [Purchased (i_id item) (u_coins user - i_cost item)]))
  /\ (~ inRaffles -> ~ inShop -> onMessage b telegramId text = (b, []))
  /\ (activeRaffles = [] -> shopItems = [] -> onMessage b telegramId text = (b, [])).
Proof.
  intros Hstate Hparse activeRaffles shopItems inRaffles inShop.
  pose proof (parsed_text_passes_guard _ _ Hparse) as Hguard.
  assert (Hout : ~ inRaffles -> ~ inShop -> onMessage b telegramId text = (b, [])).
  { intros H1 H2. unfold onMessage. rewrite Hguard.
    destruct (storage.getUserByTelegramId (db b) telegramId) as [user|]; [|done].
    rewrite Hstate, Hparse. simpl. fold activeRaffles shopItems.
    replace ((n >? 0) && (n <=? Z.of_nat (length activeRaffles))) with false
      by (symmetry; apply andb_false_iff; unfold inRaffles in H1; lia).
    replace ((n >? 0) && (n <=? Z.of_nat (length shopItems))) with false
      by (symmetry; apply andb_false_iff; unfold inShop in H2; lia).
    reflexivity. }
  split; [|split; [|split]].
  - intros user Huser Hin. unfold inRaffles in Hin.
    destruct (lookup_lt_is_Some_2 activeRaffles (Z.to_nat (n - 1))) as [raffle Hr]; [lia|].
    exists raffle. split; [done|].
    unfold onMessage. rewrite Hguard, Huser, Hstate, Hparse. simpl.
    fold activeRaffles.
    replace ((n >? 0) && (n <=? Z.of_nat (length activeRaffles))) with true
      by (symmetry; apply andb_true_iff; lia).
    rewrite Hr. destruct (u_coins user <? r_entryCost raffle); [by left|by right].
  - intros user Huser Hnot Hin. unfold inShop in Hin.
    destruct (lookup_lt_is_Some_2 shopItems (Z.to_nat (n - 1))) as [item Hi]; [lia|].
    exists item. split; [done|].
    unfold onMessage. rewrite Hguard, Huser, Hstate, Hparse. simpl.
    fold activeRaffles shopItems.
    replace ((n >? 0) && (n <=? Z.of_nat (length activeRaffles))) with false
      by (symmetry; apply andb_false_iff; unfold inRaffles in Hnot; lia).
    replace ((n >? 0) && (n <=? Z.of_nat (length shopItems))) with true
      by (symmetry; apply andb_true_iff; lia).
    rewrite Hi. destruct (u_coins user <? i_cost item); [by left|].
    destruct (i_stock item) as [st|]; [destruct (st <=? 0)|]; auto.
  - exact Hout.
  - intros E1 E2. apply Hout; unfold inRaffles, inShop; rewrite ?E1, ?E2; simpl; lia.
Qed.

(** ** Storage lookups *)

Lemma find_map_key {A K} (key : A -> K) (test : K -> bool) (g : A -> A) (l : list A) :
  (forall x, key (g x) = key x) ->
  List.find (fun x => test (key x)) (map g l) = g <$> List.find (fun x => test (key x)) l.
Proof.
  intros Hg. induction l as [|x l IH]; simpl; [done|].
  rewrite Hg. by destruct (test (key x)).
Qed.

Lemma getUser_found s telegramId u :
  storage.getUserByTelegramId s telegramId = Some u ->
  In u (users s) /\ u_telegramId u = telegramId.
Proof.
  intros H. apply find_some in H as [Hin Heq]. split; [done|].
  by apply String.eqb_eq.
Qed.

Lemma getUser_mapped s telegramId t (g : User -> User) :
  (forall v, u_telegramId (g v) = u_telegramId v) ->
  storage.getUserByTelegramId
    (storage.setUsers s (map (fun v => if String.eqb (u_telegramId v) t then g v else v) (users s)))
    telegramId
  = (fun v => if String.eqb (u_telegramId v) t then g v else v)
      <$> storage.getUserByTelegramId s telegramId.
Proof.
  intros Hg. unfold storage.getUserByTelegramId. simpl.
  apply (find_map_key u_telegramId (fun k => String.eqb k telegramId)).
  intros v. by destruct (String.eqb (u_telegramId v) t).
Qed.

Lemma getUser_updateUser s telegramId t p :
  storage.getUserByTelegramId (storage.updateUser s t p) telegramId
  = (fun v => if String.eqb (u_telegramId v) t then storage.applyPatch p v else v)
      <$> storage.getUserByTelegramId s telegramId.
Proof. unfold storage.updateUser. by apply getUser_mapped. Qed.

Lemma getUser_createTransaction s t telegramId :
  storage.getUserByTelegramId (storage.createTransaction s t) telegramId
  = storage.getUserByTelegramId s telegramId.
Proof. reflexivity. Qed.

Lemma coinsOf_debited s telegramId u c :
  storage.getUserByTelegramId s telegramId = Some u ->
  coinsOf (storage.updateUser s telegramId (coinsPatch c)) telegramId = Some c.
Proof.
  intros H. unfold coinsOf. rewrite getUser_updateUser, H. simpl.
  apply getUser_found in H as [_ ->]. by rewrite String.eqb_refl.
Qed.

(** ** Shop purchase with no stock *)

(** C5, as the code has it: for an item whose tracked stock is 0 (or
    below) the purchase is rejected and nothing is written: no debit, no
    Purchase, no stock change, no Transaction.  The balance is checked
    first, so the rejection is InsufficientBalance when user.coins <
    item.cost and OutOfStock otherwise; this holds for the button and for
    the purchase by number. *)
Theorem no_stock_purchase_rejected
    (b : Bot) (telegramId : string) (user : User) (item : ShopItem) (st : Z) :
  i_stock item = Some st ->
  st <= 0 ->
  (forall itemId,
     List.find (fun i => i_id i =? itemId) (storage.getAllShopItems (db b)) = Some item ->
     handleShopPurchase b telegramId user (Some itemId)
     = (b, Some [noStockRejection user item]))
  /\ (forall text n,
        storage.getUserByTelegramId (db b) telegramId = Some user ->
        userStates b !! telegramId = None ->
        JS.parseInt (JS.trim text) None = Some n ->
        ~ 1 <= n <= Z.of_nat (length (storage.getActiveRaffles (db b))) ->
        1 <= n <= Z.of_nat (length (storage.getActiveShopItems (db b))) ->
        storage.getActiveShopItems (db b) !! Z.to_nat (n - 1) = Some item ->
        onMessage b telegramId text = (b, [noStockRejection user item])).
Proof.
  intros Hstock Hst. split.
  - intros itemId Hfind. unfold handleShopPurchase, noStockRejection.
    rewrite Hfind, Hstock.
    destruct (u_coins user <? i_cost item); [done|].
    by replace (st <=? 0) with true by (symmetry; apply Z.leb_le; lia).
  - intros text n Huser Hstate Hparse Hnot Hin Hitem.
    pose proof (parsed_text_passes_guard _ _ Hparse) as Hguard.
    unfold onMessage, noStockRejection.
    rewrite Hguard, Huser, Hstate, Hparse. simpl.
    replace ((n >? 0) && (n <=? Z.of_nat (length (storage.getActiveRaffles (db b)))))
      with false by (symmetry; apply andb_false_iff; lia).
    replace ((n >? 0) && (n <=? Z.of_nat (length (storage.getActiveShopItems (db b)))))
      with true by (symmetry; apply andb_true_iff; lia).
    rewrite Hitem, Hstock.
    destruct (u_coins user <? i_cost item); [done|].
    by replace (st <=? 0) with true by (symmetry; apply Z.leb_le; lia).
Qed.

(** ** Raffle entry *)

(** C6, as the code has it: the raffle entry has no RaffleClosed rejection.
    By button, a raffle that is not found or that costs more than the
    balance is rejected and nothing is written; any other raffle found by
    id is entered, whatever its active flag, its end time and its entry
    count: the user is debited, a RaffleEntry and a Transaction are
    appended. *)
Theorem raffle_entry_by_button
    (b : Bot) (telegramId : string) (user : User) (raffleId : JS.number) :
  storage.getUserByTelegramId (db b) telegramId = Some user ->
  (storage.getRaffleById (db b) raffleId = None ->
     handleRaffleEntry b telegramId user raffleId = (b, Some [RaffleNotFound]))
  /\ (forall raffle,
        storage.getRaffleById (db b) raffleId = Some raffle ->
        u_coins user < r_entryCost raffle ->
        handleRaffleEntry b telegramId user raffleId
        = (b, Some [NotEnoughCoins (r_entryCost raffle)]))
  /\ (forall raffle,
        storage.getRaffleById (db b) raffleId = Some raffle ->
        r_entryCost raffle <= u_coins user ->
        let '(b', replies) := handleRaffleEntry b telegramId user raffleId in
        replies = Some [RaffleEntered (r_id raffle) (u_coins user - r_entryCost raffle)]
        /\ coinsOf (db b') telegramId = Some (u_coins user - r_entryCost raffle)
        /\ raffleEntries (db b')
           = (raffleEntries (db b) ++ [mkRaffleEntry (r_id raffle) (u_id user) 1])%list
        /\ transactions (db b')
           = (transactions (db b)
              ++ [mkTransaction (u_id user) raffle_entry (- r_entryCost raffle)])%list)
  /\ (forall text n raffle,
        userStates b !! telegramId = None ->
        JS.parseInt (JS.trim text) None = Some n ->
        1 <= n <= Z.of_nat (length (storage.getActiveRaffles (db b))) ->
        storage.getActiveRaffles (db b) !! Z.to_nat (n - 1) = Some raffle ->
        r_entryCost raffle <= u_coins user ->
        r_isActive raffle = true
        /\ snd (onMessage b telegramId text)
           = [RaffleEntered (r_id raffle) (u_coins user - r_entryCost raffle)]).
Proof.
  intros Huser. split; [|split; [|split]]; cycle 3.
  { intros text n raffle Hstate Hparse Hin Hr Hge. split.
    - apply list_elem_of_lookup_2, list_elem_of_In in Hr.
      unfold storage.getActiveRaffles in Hr. by apply filter_In in Hr as [_ ?].
    - pose proof (parsed_text_passes_guard _ _ Hparse) as Hguard.
      unfold onMessage. rewrite Hguard, Huser, Hstate, Hparse. simpl.
      replace ((n >? 0) && (n <=? Z.of_nat (length (storage.getActiveRaffles (db b)))))
        with true by (symmetry; apply andb_true_iff; lia).
      rewrite Hr.
      by replace (u_coins user <? r_entryCost raffle) with false
        by (symmetry; apply Z.ltb_ge; lia). }
  - intros Hnone. unfold handleRaffleEntry. by rewrite Hnone.
  - intros raffle Hsome Hlt. unfold handleRaffleEntry. rewrite Hsome.
    by replace (u_coins user <? r_entryCost raffle) with true
      by (symmetry; apply Z.ltb_lt; lia).
  - intros raffle Hsome Hge. unfold handleRaffleEntry. rewrite Hsome.
    replace (u_coins user <? r_entryCost raffle) with false
      by (symmetry; apply Z.ltb_ge; lia).
    split; [done|]. split; [|done]. simpl.
    by apply (coinsOf_debited (db b) telegramId user).
Qed.

(** ** Broadcast *)

Lemma broadcastLoop_counts sendMessage activeUsers s0 f0 :
  let '(c, tr) := broadcastLoop sendMessage activeUsers s0 f0 in
  success c + failed c = s0 + f0 + Z.of_nat (length activeUsers)
  /\ success c
     = s0 + Z.of_nat (length (List.filter (fun u => sendMessage (u_telegramId u)) activeUsers))
  /\ omap (fun o => match o with Send t r => Some (t, r) | Pause _ => None end) tr
     = map (fun u => (u_telegramId u, sendMessage (u_telegramId u))) activeUsers
  /\ (forall i t, tr !! i = Some (Send t true) -> tr !! S i = Some (Pause 50))
  /\ (forall i ms, tr !! i = Some (Pause ms) -> ms = 50).
Proof.
  revert s0 f0. induction activeUsers as [|user rest IH]; intros s0 f0; simpl.
  - repeat split; try lia; intros i ?; by rewrite lookup_nil.
  - destruct (sendMessage (u_telegramId user)) eqn:Hsend.
    + specialize (IH (s0 + 1) f0).
      destruct (broadcastLoop sendMessage rest (s0 + 1) f0) as [c tr].
      destruct IH as (H1 & H2 & H3 & H4 & H5).
      repeat split.
      * lia.
      * simpl. lia.
      * rewrite <- H3. reflexivity.
      * intros [|[|i]] t; simpl; [done|done|]. apply H4.
      * intros [|[|i]] ms; simpl; [done|congruence|]. apply H5.
    + specialize (IH s0 (f0 + 1)).
      destruct (broadcastLoop sendMessage rest s0 (f0 + 1)) as [c tr].
      destruct IH as (H1 & H2 & H3 & H4 & H5).
      repeat split.
      * lia.
      * done.
      * rewrite <- H3. reflexivity.
      * intros [|i] t; simpl; [congruence|]. apply H4.
      * intros [|i] ms; simpl; [done|]. apply H5.
Qed.


(** ** The ledger under one handler at a time *)

Lemma txSum_app uid l t :
  txSum uid (l ++ [t]) = txSum uid l + (if tx_userId t =? uid then tx_amount t else 0).
Proof.
  induction l as [|x l IH]; simpl.
  - destruct (tx_userId t =? uid); lia.
  - rewrite IH. destruct (tx_userId x =? uid); lia.
Qed.

Lemma txSum_absent uid l :
  Forall (fun t => tx_userId t <> uid) l -> txSum uid l = 0.
Proof.
  induction 1 as [|x l Hx _ IH]; simpl; [done|].
  destruct (Z.eqb_spec (tx_userId x) uid); [done|exact IH].
Qed.

Lemma NoDup_map_injective {A B} (f : A -> B) (l : list A) x y :
  NoDup (map f l) -> In x l -> In y l -> f x = f y -> x = y.
Proof.
  induction l as [|z l IH]; simpl; [done|].
  intros [Hz Hl]%NoDup_cons [->|Hx] [->|Hy] E; auto.
  - exfalso. apply Hz. rewrite E. apply list_elem_of_In. by apply in_map.
  - exfalso. apply Hz. rewrite <- E. apply list_elem_of_In. by apply in_map.
Qed.

Lemma map_key_preserved {A K} (key : A -> K) (k : A -> A) (l : list A) :
  (forall v, key (k v) = key v) -> map key (map k l) = map key l.
Proof. intros H. rewrite map_map. apply map_ext. exact H. Qed.

(** A step that leaves keys, balances and the log as they are keeps the
    invariant. *)
Lemma ledger_unchanged s s' (k : User -> User) :
  (forall v, u_id (k v) = u_id v) ->
  (forall v, u_telegramId (k v) = u_telegramId v) ->
  (forall v, u_coins (k v) = u_coins v) ->
  users s' = map k (users s) ->
  transactions s' = transactions s ->
  ledgerInvariant s -> ledgerInvariant s'.
Proof.
  intros Hid Htid Hcoins Hu Ht [[W1 W2 W3] Hbal]. split.
  - split; rewrite Hu, ?Ht.
    + by rewrite map_key_preserved.
    + by rewrite map_key_preserved.
    + by rewrite map_key_preserved.
  - unfold ledgerBalanced in *. rewrite Hu, Ht.
    apply List.Forall_forall. intros v (v0 & <- & Hin)%in_map_iff.
    rewrite Hid, Hcoins. by apply (proj1 (List.Forall_forall _ _) Hbal).
Qed.

(** A step that changes the balance of the user with the given telegram id
    by [a] and appends one Transaction of amount [a] for that user keeps
    the invariant. *)
Lemma ledger_credit s s' telegramId u a ty (g : User -> User) :
  storage.getUserByTelegramId s telegramId = Some u ->
  (forall v, u_id (g v) = u_id v) ->
  (forall v, u_telegramId (g v) = u_telegramId v) ->
  u_coins (g u) = u_coins u + a ->
  users s' = map (fun v => if String.eqb (u_telegramId v) telegramId then g v else v) (users s) ->
  transactions s' = (transactions s ++ [mkTransaction (u_id u) ty a])%list ->
  ledgerInvariant s -> ledgerInvariant s'.
Proof.
  intros Hu Hid Htid Hcoins Husers Htx [[W1 W2 W3] Hbal].
  apply getUser_found in Hu as [Hin Hkey].
  set (k := fun v => if String.eqb (u_telegramId v) telegramId then g v else v) in *.
  assert (Kid : forall v, u_id (k v) = u_id v)
    by (intros v; unfold k; by destruct (String.eqb _ _)).
  assert (Ktid : forall v, u_telegramId (k v) = u_telegramId v)
    by (intros v; unfold k; by destruct (String.eqb _ _)).
  split.
  - split; rewrite Husers, ?Htx.
    + by rewrite map_key_preserved.
    + by rewrite map_key_preserved.
    + rewrite map_key_preserved by done. apply Forall_app. split; [done|].
      apply Forall_singleton. simpl. apply list_elem_of_In. by apply in_map.
  - unfold ledgerBalanced in *. rewrite Husers, Htx.
    apply List.Forall_forall. intros v (v0 & <- & Hin0)%in_map_iff.
    rewrite txSum_app, Kid. simpl.
    pose proof (proj1 (List.Forall_forall _ _) Hbal v0 Hin0) as Hv0. simpl in Hv0.
    unfold k. destruct (String.eqb_spec (u_telegramId v0) telegramId) as [E|E].
    + assert (v0 = u) as -> by (apply (NoDup_map_injective u_telegramId (users s)); congruence).
      rewrite Z.eqb_refl, Hcoins. lia.
    + destruct (Z.eqb_spec (u_id u) (u_id v0)) as [E'|E'].
      * exfalso. apply E. rewrite <- Hkey. f_equal.
        by apply (NoDup_map_injective u_id (users s)).
      * lia.
Qed.

Lemma awardReward_ledger s telegramId amount ty s' u' :
  storage.awardReward s telegramId amount ty = Some (s', u') ->
  ledgerInvariant s -> ledgerInvariant s'.
Proof.
  unfold storage.awardReward. destruct amount as [a|]; [|done].
  destruct (storage.getUserByTelegramId s telegramId) as [u|] eqn:Hu; [|done].
  intros [= <- <-]. by apply (ledger_credit s _ telegramId u a ty (storage.credit a)).
Qed.

Lemma claimDaily_ledger s telegramId amount now s' u' :
  storage.claimDaily s telegramId amount now = Some (s', u') ->
  ledgerInvariant s -> ledgerInvariant s'.
Proof.
  unfold storage.claimDaily. destruct amount as [a|]; [|done].
  destruct (storage.getUserByTelegramId s telegramId) as [u|] eqn:Hu; [|done].
  intros [= <- <-].
  by apply (ledger_credit s _ telegramId u a daily_reward (storage.claimed a now)).
Qed.

Lemma updateUser_ledger s telegramId p :
  patch_coins p = None ->
  ledgerInvariant s -> ledgerInvariant (storage.updateUser s telegramId p).
Proof.
  intros Hp.
  apply (ledger_unchanged s _
           (fun v => if String.eqb (u_telegramId v) telegramId
                     then storage.applyPatch p v else v));
    try done; intros v; destruct (String.eqb _ _); try done.
  simpl. by rewrite Hp.
Qed.

Lemma debit_ledger s s' telegramId u cost ty :
  storage.getUserByTelegramId s telegramId = Some u ->
  users s' = users (storage.updateUser s telegramId (coinsPatch (u_coins u - cost))) ->
  transactions s' = (transactions s ++ [mkTransaction (u_id u) ty (- cost)])%list ->
  ledgerInvariant s -> ledgerInvariant s'.
Proof.
  intros Hu Husers Htx.
  apply (ledger_credit s s' telegramId u (- cost) ty
           (storage.applyPatch (coinsPatch (u_coins u - cost)))); try done.
  all: simpl; lia.
Qed.

Lemma nextUserId_above s v : In v (users s) -> u_id v < storage.nextUserId s.
Proof.
  unfold storage.nextUserId. induction (users s) as [|x l IH]; simpl; [done|].
  intros [->|Hin]; [lia|]. specialize (IH Hin). lia.
Qed.

Lemma createUser_ledger s n s' u :
  storage.getUserByTelegramId s (nu_telegramId n) = None ->
  nu_coins n = 0 ->
  storage.createUser s n = (s', u) ->
  ledgerInvariant s -> ledgerInvariant s'.
Proof.
  intros Hnone Hzero [= <- <-] [[W1 W2 W3] Hbal].
  assert (Hfresh : ~ In (storage.nextUserId s) (map u_id (users s))).
  { intros (v & E & Hin)%in_map_iff. apply nextUserId_above in Hin. lia. }
  split.
  - split; simpl; rewrite ?map_app; simpl.
    + apply NoDup_app. split; [done|]. split; [|apply NoDup_singleton].
      intros x Hx [->|[]%elem_of_nil]%elem_of_cons.
      by apply Hfresh, list_elem_of_In.
    + apply NoDup_app. split; [done|]. split; [|apply NoDup_singleton].
      intros x Hx [->|[]%elem_of_nil]%elem_of_cons.
      apply list_elem_of_In, in_map_iff in Hx as (v & E & Hin).
      pose proof (find_none _ _ Hnone v Hin) as Hne. simpl in Hne.
      apply String.eqb_neq in Hne. congruence.
    + eapply Forall_impl; [exact W3|]. intros t Ht. simpl in Ht.
      apply list_elem_of_In, in_or_app. left. by apply list_elem_of_In.
  - unfold ledgerBalanced. simpl. apply Forall_app. split; [done|].
    apply Forall_singleton. simpl. rewrite Hzero. apply txSum_absent.
    eapply Forall_impl; [exact W3|]. intros t Ht E. simpl in Ht.
    apply Hfresh. rewrite <- E. by apply list_elem_of_In.
Qed.

Lemma onStart_ledger b telegramId referralCode nanoid8 :
  ledgerInvariant (db b) ->
  ledgerInvariant (db (fst (onStart b telegramId referralCode nanoid8))).
Proof.
  intros Hinv. unfold onStart.
  destruct (storage.getUserByTelegramId (db b) telegramId) as [u0|] eqn:Hu0.
  - repeat case_match; simpl; try done;
      repeat match goal with
      | H : storage.awardReward _ _ _ _ = Some _ |- _ =>
          apply awardReward_ledger in H; [|done]
      end; try done.
    by apply updateUser_ledger.
  - destruct (storage.createUser (db b) _) as [s1 user] eqn:Hc.
    apply createUser_ledger in Hc; [|done..].
    repeat case_match; simpl; try done;
      repeat match goal with
      | H : storage.awardReward _ _ _ _ = Some _ |- _ =>
          apply awardReward_ledger in H; [|done]
      end; try done.
    by apply updateUser_ledger.
Qed.

Lemma onDaily_ledger localOffset b telegramId now :
  ledgerInvariant (db b) ->
  ledgerInvariant (db (fst (onDaily localOffset b telegramId now))).
Proof.
  intros Hinv. unfold onDaily. repeat case_match; simpl; try done.
  by eapply claimDaily_ledger.
Qed.

Lemma onReadCommand_unchanged localOffset b c telegramId now :
  fst (onReadCommand localOffset b c telegramId now) = b.
Proof. unfold onReadCommand. by repeat case_match. Qed.

Lemma onMessage_ledger b telegramId text :
  ledgerInvariant (db b) -> ledgerInvariant (db (fst (onMessage b telegramId text))).
Proof.
  intros Hinv. unfold onMessage.
  destruct (String.eqb text "" || JS.startsWith "/" text); [done|].
  destruct (storage.getUserByTelegramId (db b) telegramId) as [user|] eqn:Hu; [|done].
  repeat case_match; simpl; try done.
  all: try (apply updateUser_ledger; [done|]).
  all: repeat match goal with
         | H : storage.awardReward _ _ _ _ = Some _ |- _ =>
             apply awardReward_ledger in H; [|done]
         end; try done.
  all: try by eapply (debit_ledger (db b) _ telegramId user _ raffle_entry).
  all: try by eapply (debit_ledger (db b) _ telegramId user _ shop_purchase).
Qed.

Lemma onCallbackQuery_ledger localOffset b telegramId data now :
  ledgerInvariant (db b) ->
  ledgerInvariant (db (fst (onCallbackQuery localOffset b telegramId data now))).
Proof.
  intros Hinv. unfold onCallbackQuery.
  destruct (String.eqb data ""); [done|].
  destruct (storage.getUserByTelegramId (db b) telegramId) as [user|] eqn:Hu; [|done].
  unfold handleDailyCheckin, handleViewRaffles, handleViewShop, handleReferralLink,
    handleMyInfo, handleEnterCode, handleBackToMenu, handleRaffleEntry, handleShopPurchase.
  repeat case_match; simplify_eq; simpl; try done.
  all: try (apply updateUser_ledger; [done|]; by eapply awardReward_ledger).
  all: try by eapply (debit_ledger (db b) _ telegramId user _ raffle_entry).
  all: try by eapply (debit_ledger (db b) _ telegramId user _ shop_purchase).
Qed.

Lemma handle_ledger localOffset b e :
  ledgerInvariant (db b) -> ledgerInvariant (db (fst (handle localOffset b e))).
Proof.
  destruct e; simpl.
  - apply onStart_ledger.
  - apply onDaily_ledger.
  - by rewrite onReadCommand_unchanged.
  - apply onMessage_ledger.
  - apply onCallbackQuery_ledger.
Qed.

(** C1, as the code has it: when the handlers run one at a time, each from
    its first line to its last on the state the previous one left, the sum
    of the amounts of every user's Transactions equals that user's balance
    after every handler, provided it did before the first (and the table
    keys are keys); and whatever a handler does to a user's balance, the
    amounts of the Transactions it appends for that user add up to that
    change. *)
Theorem ledger_balanced_after_every_handler
    (localOffset : Z) (b : Bot) (events : list Event) :
  wellFormed (db b) ->
  ledgerBalanced (db b) ->
  wellFormed (db (run localOffset b events))
  /\ ledgerBalanced (db (run localOffset b events))
  /\ (forall e u u',
        let b' := fst (handle localOffset b e) in
        In u (users (db b)) -> In u' (users (db b')) -> u_id u' = u_id u ->
        txSum (u_id u) (transactions (db b')) - txSum (u_id u) (transactions (db b))
        = u_coins u' - u_coins u).
Proof.
  intros Hwf Hbal. assert (Hinv : ledgerInvariant (db b)) by done.
  split; [|split].
  - clear Hwf Hbal. revert b Hinv.
    induction events as [|e es IH]; intros b [? ?]; simpl; [done|].
    apply IH. by apply handle_ledger.
  - clear Hwf Hbal. revert b Hinv.
    induction events as [|e es IH]; intros b [? ?]; simpl; [done|].
    apply IH. by apply handle_ledger.
  - intros e u u' b' Hu Hu' Hid.
    destruct (handle_ledger localOffset b e Hinv) as [_ Hbal'].
    pose proof (proj1 (List.Forall_forall _ _) Hbal u Hu) as H1.
    pose proof (proj1 (List.Forall_forall _ _) Hbal' u' Hu') as H2.
    simpl in H1, H2. fold b' in H2. rewrite Hid in H2. lia.
Qed.

(** ** Referral by invitation code *)

Lemma getUser_of_member s u :
  wellFormed s -> In u (users s) ->
  storage.getUserByTelegramId s (u_telegramId u) = Some u.
Proof.
  intros [_ W2 _] Hin. unfold storage.getUserByTelegramId.
  destruct (List.find _ (users s)) as [v|] eqn:Hf.
  - apply find_some in Hf as [Hv E]. apply String.eqb_eq in E.
    f_equal. by apply (NoDup_map_injective u_telegramId (users s)).
  - pose proof (find_none _ _ Hf u Hin) as E. simpl in E.
    by rewrite String.eqb_refl in E.
Qed.

Lemma awardReward_some s telegramId a ty u :
  storage.getUserByTelegramId s telegramId = Some u ->
  exists s',
    storage.awardReward s telegramId (Some a) ty = Some (s', storage.credit a u)
    /\ transactions s' = (transactions s ++ [mkTransaction (u_id u) ty a])%list
    /\ botSettings s' = botSettings s
    /\ forall t, storage.getUserByTelegramId s' t
                 = (fun v => if String.eqb (u_telegramId v) telegramId
                             then storage.credit a v else v)
                     <$> storage.getUserByTelegramId s t.
Proof.
  intros Hu. unfold storage.awardReward. rewrite Hu. eexists. split; [done|].
  split; [done|]. split; [done|]. intros t.
  by apply (getUser_mapped s t telegramId (storage.credit a)).
Qed.


(** ** Daily check-in *)

Lemma msPerDay_pos : 0 < msPerDay.
Proof. by vm_compute. Qed.

(** The day the eligibility test looks at: the local day, on the server,
    of the instant moved back by 8 hours. *)
Lemma canClaimDailyReward_days localOffset now last :
  canClaimDailyReward localOffset now (Some last) = true
  <-> (toPST last + localOffset) `div` msPerDay < (toPST now + localOffset) `div` msPerDay.
Proof.
  unfold canClaimDailyReward, dateOnly. pose proof msPerDay_pos as Hm.
  rewrite Z.gtb_ltb, Z.ltb_lt. split; intros H.
  - apply (Z.mul_lt_mono_pos_r msPerDay); lia.
  - apply (Z.mul_lt_mono_pos_r msPerDay) in H; lia.
Qed.

(** On a server whose local time is UTC, a claim is refused exactly when
    the last claim and now fall on the same UTC-minus-8 civil day (the last
    claim being in the past). *)
Lemma refused_iff_same_civil_day now last :
  last <= now ->
  canClaimDailyReward 0 now (Some last) = false
  <-> civilDayUTCminus8 last = civilDayUTCminus8 now.
Proof.
  intros Hle. pose proof msPerDay_pos as Hm.
  pose proof (canClaimDailyReward_days 0 now last) as H.
  unfold civilDayUTCminus8. unfold toPST in H. rewrite !Z.add_0_r in H.
  replace (last + -8 * 60 * 60 * 1000) with (last - 8 * 60 * 60 * 1000) in H by lia.
  replace (now + -8 * 60 * 60 * 1000) with (now - 8 * 60 * 60 * 1000) in H by lia.
  assert (Hmono : (last - 8 * 60 * 60 * 1000) `div` msPerDay
                  <= (now - 8 * 60 * 60 * 1000) `div` msPerDay)
    by (apply Z.div_le_mono; lia).
  destruct (canClaimDailyReward 0 now (Some last)); split; intros; try done.
  - destruct H as [H _]. specialize (H eq_refl). lia.
  - destruct (Z.eq_dec ((last - 8 * 60 * 60 * 1000) `div` msPerDay)
                       ((now - 8 * 60 * 60 * 1000) `div` msPerDay)); [done|].
    destruct H as [_ H]. assert (true = false) by (symmetry; apply H; lia). done.
Qed.

(** The [/daily] command: a refused claim changes nothing; a granted one
    credits the daily amount, counts the streak, stamps the claim and logs
    one Transaction. *)
Lemma onDaily_effect localOffset b telegramId now user amount :
  storage.getUserByTelegramId (db b) telegramId = Some user ->
  rewardSetting (db b) "daily_reward_amount" = Some amount ->
  (canClaimDailyReward localOffset now (u_lastDailyReward user) = false ->
     onDaily localOffset b telegramId now = (b, [AlreadyClaimedToday]))
  /\ (canClaimDailyReward localOffset now (u_lastDailyReward user) = true ->
      let b' := fst (onDaily localOffset b telegramId now) in
      storage.getUserByTelegramId (db b') telegramId
      = Some (mkUser (u_id user) (u_telegramId user) (u_referralCode user)
                     (u_referredBy user) (u_coins user + amount)
                     (u_streak user + 1) (Some now))
      /\ transactions (db b')
         = (transactions (db b) ++ [mkTransaction (u_id user) daily_reward amount])%list).
Proof.
  intros Huser Hamount. split; intros Hcan; unfold onDaily;
    rewrite Huser, Hcan; simpl; [done|].
  rewrite Hamount. unfold storage.claimDaily. rewrite Huser. simpl.
  split; [|done]. rewrite getUser_createTransaction.
  rewrite (getUser_mapped (db b) telegramId telegramId (storage.claimed amount now)) by done.
  rewrite Huser. simpl. apply getUser_found in Huser as [_ <-].
  by rewrite String.eqb_refl.
Qed.

(** The check-in button: a refused claim changes nothing; a granted one
    credits the daily amount, stamps the claim and logs one Transaction,
    and leaves the streak as it was. *)
Lemma handleDailyCheckin_effect localOffset b telegramId now user amount :
  storage.getUserByTelegramId (db b) telegramId = Some user ->
  rewardSetting (db b) "daily_reward_amount" = Some amount ->
  (canClaimDailyReward localOffset now (u_lastDailyReward user) = false ->
     onCallbackQuery localOffset b telegramId "daily_checkin" now
     = (b, [AlreadyClaimedToday]))
  /\ (canClaimDailyReward localOffset now (u_lastDailyReward user) = true ->
      let b' := fst (onCallbackQuery localOffset b telegramId "daily_checkin" now) in
      storage.getUserByTelegramId (db b') telegramId
      = Some (mkUser (u_id user) (u_telegramId user) (u_referralCode user)
                     (u_referredBy user) (u_coins user + amount)
                     (u_streak user) (Some now))
      /\ transactions (db b')
         = (transactions (db b) ++ [mkTransaction (u_id user) daily_reward amount])%list).
Proof.
  intros Huser Hamount.
  split; intros Hcan; unfold onCallbackQuery; rewrite Huser; simpl;
    unfold handleDailyCheckin; rewrite Hcan; simpl; [done|].
  rewrite Hamount. unfold storage.awardReward. rewrite Huser. simpl.
  split; [|done].
  rewrite getUser_updateUser, getUser_createTransaction.
  rewrite (getUser_mapped (db b) telegramId telegramId (storage.credit amount)) by done.
  rewrite Huser. simpl. apply getUser_found in Huser as [_ <-].
  by rewrite !String.eqb_refl.
Qed.

(** After a granted claim, by command or by button, a second claim on the
    same civil day is refused and the balance stays: the claim has stamped
    [lastDailyReward] with its own time. *)
Lemma second_claim_same_day_refused localOffset last now :
  (toPST last + localOffset) `div` msPerDay = (toPST now + localOffset) `div` msPerDay ->
  canClaimDailyReward localOffset now (Some last) = false.
Proof.
  intros E. destruct (canClaimDailyReward localOffset now (Some last)) eqn:H; [|done].
  apply canClaimDailyReward_days in H. lia.
Qed.

(** ** Purchases in flight together *)

Lemma interleave_first n s t1 t2 schedule :
  Interleaved.interleave s [t1; t2] (replicate n 0%nat ++ schedule)
  = let '(s1, t1') := Interleaved.runTask n s t1 in
    Interleaved.interleave s1 [t1'; t2] schedule.
Proof.
  revert s t1. induction n as [|n IH]; intros s t1; simpl.
  - reflexivity.
  - destruct (Interleaved.step s t1) as [s' t']. simpl. apply IH.
Qed.

Lemma interleave_second n s t1 t2 :
  Interleaved.interleave s [t1; t2] (replicate n 1%nat)
  = let '(s2, t2') := Interleaved.runTask n s t2 in (s2, [t1; t2']).
Proof.
  revert s t2. induction n as [|n IH]; intros s t2; simpl.
  - reflexivity.
  - destruct (Interleaved.step s t2) as [s' t']. simpl. apply IH.
Qed.

(** A task run alone does what the handler does. *)
Lemma task_alone_is_handler b telegramId itemId :
  Interleaved.runTask 6 (db b) (Interleaved.AwaitUser telegramId itemId)
  = match storage.getUserByTelegramId (db b) telegramId with
    | None => (db b, Interleaved.Finished [PleaseStartFirst])
    | Some user =>
        let '(b', r) := handleShopPurchase b telegramId user itemId in
        (db b', Interleaved.Finished (default [] r))
    end.
Proof.
  unfold handleShopPurchase. simpl.
  destruct (storage.getUserByTelegramId (db b) telegramId) as [user|]; [|done].
  simpl. destruct itemId as [n|]; [|done].
  destruct (List.find _ (storage.getAllShopItems (db b))) as [item|]; [|done].
  destruct (u_coins user <? i_cost item); [done|].
  destruct (i_stock item) as [st|] eqn:Hst; simpl.
  - destruct (st <=? 0); [done|]. simpl. by rewrite Hst.
  - by rewrite Hst.
Qed.

Lemma findItem_updateUser s telegramId p n :
  List.find (fun i => i_id i =? n) (storage.getAllShopItems (storage.updateUser s telegramId p))
  = List.find (fun i => i_id i =? n) (storage.getAllShopItems s).
Proof. reflexivity. Qed.

Lemma findItem_updateShopItem s itemId st n :
  List.find (fun i => i_id i =? n) (storage.getAllShopItems (storage.updateShopItem s itemId st))
  = (fun i => if i_id i =? itemId then storage.setStock st i else i)
      <$> List.find (fun i => i_id i =? n) (storage.getAllShopItems s).
Proof.
  unfold storage.getAllShopItems, storage.updateShopItem. simpl.
  apply (find_map_key i_id (fun k => k =? n)).
  intros i. by destruct (i_id i =? itemId).
Qed.

(** C4, as the code has it: the handlers take no lock, so the guarantee
    holds for requests handled one after the other: when two purchases by
    one user of an item that costs the user's whole (positive) balance are
    run in turn, the first succeeds and the second is rejected with
    InsufficientBalance, the balance ends at 0 and one Transaction is
    logged.  The net effect of requests handled in turn is that of this
    serial order. *)
Theorem purchases_in_turn_one_success
    (s : Store) (telegramId : string) (user : User) (item : ShopItem) (itemId : Z) :
  storage.getUserByTelegramId s telegramId = Some user ->
  List.find (fun i => i_id i =? itemId) (storage.getAllShopItems s) = Some item ->
  i_cost item = u_coins user ->
  0 < i_cost item ->
  match i_stock item with Some st => 0 < st | None => True end ->
  let request := Interleaved.AwaitUser telegramId (Some itemId) in
  let '(s', tasks) :=
    Interleaved.interleave s [request; request] (replicate 6 0%nat ++ replicate 6 1%nat) in
  tasks = [Interleaved.Finished [Purchased (i_id item) 0];
           Interleaved.Finished [NotEnoughCoins (i_cost item)]]
  /\ coinsOf s' telegramId = Some 0
  /\ transactions s'
     = (transactions s ++ [mkTransaction (u_id user) shop_purchase (- i_cost item)])%list.
Proof.
  intros Huser Hfind Hcost Hpos Hstock request.
  rewrite interleave_first.
  pose proof (task_alone_is_handler (mkBot s ∅) telegramId (Some itemId)) as H1.
  simpl db in H1. fold request in H1. rewrite H1, Huser. clear H1.
  unfold handleShopPurchase. simpl db. rewrite Hfind.
  replace (u_coins user <? i_cost item) with false by (symmetry; apply Z.ltb_ge; lia).
  assert (Hdebit : forall s0,
    storage.getUserByTelegramId s0 telegramId = Some user ->
    storage.getUserByTelegramId
      (storage.updateUser s0 telegramId (coinsPatch (u_coins user - i_cost item))) telegramId
    = Some (storage.applyPatch (coinsPatch 0) user)).
  { intros s0 H0. rewrite getUser_updateUser, H0. simpl.
    apply getUser_found in H0 as [_ E]. rewrite E, String.eqb_refl.
    by replace (u_coins user - i_cost item) with 0 by lia. }
  destruct (i_stock item) as [st|] eqn:Hst.
  - replace (st <=? 0) with false by (symmetry; apply Z.leb_gt; lia).
    rewrite interleave_second.
    match goal with
    | |- context [Interleaved.runTask 6 ?s1 _] =>
        pose proof (task_alone_is_handler (mkBot s1 ∅) telegramId (Some itemId)) as H2
    end.
    simpl db in H2. fold request in H2. simpl db. rewrite H2. clear H2.
    rewrite getUser_createTransaction.
    assert (Hu : forall s0 i n, storage.getUserByTelegramId (storage.updateShopItem s0 i n) telegramId
                  = storage.getUserByTelegramId s0 telegramId) by reflexivity.
    assert (Hp : forall s0 p, storage.getUserByTelegramId (storage.createPurchase s0 p) telegramId
                  = storage.getUserByTelegramId s0 telegramId) by reflexivity.
    rewrite Hu, Hp, (Hdebit s Huser).
    unfold handleShopPurchase. simpl db.
    assert (Hf : List.find (fun i => i_id i =? itemId)
                   (storage.getAllShopItems
                      (storage.createTransaction
                         (storage.updateShopItem
                            (storage.createPurchase
                               (storage.updateUser s telegramId
                                  (coinsPatch (u_coins user - i_cost item)))
                               (mkPurchase (u_id user) (i_id item) 1 (i_cost item) "completed"))
                            (i_id item) (st - 1))
                         (mkTransaction (u_id user) shop_purchase (- i_cost item))))
                 = Some (if i_id item =? i_id item
                         then storage.setStock (st - 1) item else item)).
    { change (storage.getAllShopItems (storage.createTransaction ?a ?t))
        with (storage.getAllShopItems a).
      rewrite findItem_updateShopItem.
      change (storage.getAllShopItems (storage.createPurchase ?a ?t))
        with (storage.getAllShopItems a).
      by rewrite findItem_updateUser, Hfind. }
    rewrite Hf, Z.eqb_refl. simpl.
    replace (0 <? i_cost item) with true by (symmetry; apply Z.ltb_lt; lia).
    simpl. replace (u_coins user - i_cost item) with 0 by lia.
    split; [done|]. split; [|done].
    unfold coinsOf. rewrite getUser_createTransaction, Hu, Hp.
    pose proof (Hdebit s Huser) as Hd.
    replace (u_coins user - i_cost item) with 0 in Hd by lia.
    by rewrite Hd.
  - rewrite interleave_second.
    match goal with
    | |- context [Interleaved.runTask 6 ?s1 _] =>
        pose proof (task_alone_is_handler (mkBot s1 ∅) telegramId (Some itemId)) as H2
    end.
    simpl db in H2. fold request in H2. simpl db. rewrite H2. clear H2.
    rewrite getUser_createTransaction.
    assert (Hp : forall s0 p, storage.getUserByTelegramId (storage.createPurchase s0 p) telegramId
                  = storage.getUserByTelegramId s0 telegramId) by reflexivity.
    rewrite Hp, (Hdebit s Huser).
    unfold handleShopPurchase. simpl db.
    change (storage.getAllShopItems (storage.createTransaction ?a ?t))
      with (storage.getAllShopItems a).
    change (storage.getAllShopItems (storage.createPurchase ?a ?t))
      with (storage.getAllShopItems a).
    rewrite findItem_updateUser, Hfind. simpl.
    replace (0 <? i_cost item) with true by (symmetry; apply Z.ltb_lt; lia).
    simpl. replace (u_coins user - i_cost item) with 0 by lia.
    split; [done|]. split; [|done].
    unfold coinsOf. rewrite getUser_createTransaction, Hp.
    pose proof (Hdebit s Huser) as Hd.
    replace (u_coins user - i_cost item) with 0 in Hd by lia.
    by rewrite Hd.
Qed.

(** ** The sample data, run *)

Example sample_run_balances :
  map (fun u => (u_telegramId u, u_coins u, u_streak u, u_referredBy u))
      (users (db (run 0 sampleBot sampleEvents)))
  = [("100", 10, 0, None); ("200", 7, 1, Some "AB3_-XYZ"); ("300", 0, 0, Some "AB3_-XYZ")].
Proof. vm_compute. reflexivity. Qed.

Lemma sampleStore_wellFormed : wellFormed sampleStore.
Proof.
  split; simpl.
  - apply NoDup_ListNoDup. repeat constructor; simpl; intuition lia.
  - apply NoDup_ListNoDup. repeat constructor; simpl; intuition discriminate.
  - repeat constructor.
Qed.

Lemma sampleStore_balanced : ledgerBalanced sampleStore.
Proof. repeat constructor. Qed.

(** *** Witnesses and counterexamples *)

(** C1: the ledger stays balanced along the sample run. *)
Lemma ledger_balanced_witness :
  wellFormed (db (run 0 sampleBot sampleEvents))
  /\ ledgerBalanced (db (run 0 sampleBot sampleEvents)).
Proof.
  destruct (ledger_balanced_after_every_handler 0 sampleBot sampleEvents
              sampleStore_wellFormed sampleStore_balanced) as (H1 & H2 & _).
  by split.
Defined.

(** C1 as stated fails when two handlers interleave: both purchases read
    the balance 10 and write 0, and both log -10; at the end, with no
    handler in flight, the balance is 0 and the Transactions add up to
    -10. *)
Lemma interleaved_purchases_unbalance_ledger :
  wellFormed sampleStore /\ ledgerBalanced sampleStore
  /\ let s' := fst (Interleaved.interleave sampleStore [buyLastPiece; buyLastPiece] alternating) in
     coinsOf s' "100" = Some 0
     /\ txSum 1 (transactions s') = -10
     /\ ~ ledgerBalanced s'.
Proof.
  split; [exact sampleStore_wellFormed|]. split; [exact sampleStore_balanced|].
  split; [by vm_compute|]. split; [by vm_compute|].
  intros H. apply Forall_inv in H. by vm_compute in H.
Qed.

(** C4 as stated fails: interleaved, the two purchases of the last piece by
    a user whose balance is exactly its cost both succeed. *)
Lemma interleaved_purchases_both_succeed :
  i_cost lastPieceItem = u_coins referrerR
  /\ snd (Interleaved.interleave sampleStore [buyLastPiece; buyLastPiece] alternating)
     = [Interleaved.Finished [Purchased 2 0]; Interleaved.Finished [Purchased 2 0]]
  /\ length (purchases (fst (Interleaved.interleave sampleStore
                               [buyLastPiece; buyLastPiece] alternating))) = 2%nat.
Proof. by vm_compute. Qed.

(** C4: the same two purchases, handled in turn. *)
Lemma purchases_in_turn_witness :
  let '(s', tasks) :=
    Interleaved.interleave sampleStore [buyLastPiece; buyLastPiece]
                           (replicate 6 0%nat ++ replicate 6 1%nat) in
  tasks = [Interleaved.Finished [Purchased 2 0];
           Interleaved.Finished [NotEnoughCoins 10]]
  /\ coinsOf s' "100" = Some 0
  /\ transactions s'
     = (transactions sampleStore ++ [mkTransaction 1 shop_purchase (- 10)])%list.
Proof.
  apply (purchases_in_turn_one_success sampleStore "100" referrerR lastPieceItem 2);
    vm_compute; done.
Defined.



(** A new user who joins through a referral link is created with
    [referredBy] already set, so the referral block of the [/start] handler
    does not run for that user: nobody is credited. *)
Lemma start_with_code_creates_referred_user :
  let '(b', replies) := onStart sampleBot "300" (Some "AB3_-XYZ") "abcdefgh" in
  replies = [MainMenu true 0 0]
  /\ storage.getUserByTelegramId (db b') "300"
     = Some (mkUser 3 "300" "ABCDEFGH" (Some "AB3_-XYZ") 0 0 None)
  /\ coinsOf (db b') "100" = Some 10
  /\ transactions (db b') = transactions sampleStore.
Proof. by vm_compute. Qed.

(** C3: the check-in button on the sample data.  The claim is granted:
    the newcomer gets the 2 coins and the claim is stamped, but the streak
    stays at 0; the [/daily] command at the same instant counts it. *)
Lemma daily_checkin_button_leaves_streak :
  let now := 1700000000000 in
  let byButton := onCallbackQuery 0 sampleBot "200" "daily_checkin" now in
  let byCommand := onDaily 0 sampleBot "200" now in
  snd byButton = [DailyCheckinMenu 2; DailyClaimedAlert (Some 2)]
  /\ storage.getUserByTelegramId (db (fst byButton)) "200"
     = Some (mkUser 2 "200" "QQQQ1111" None 2 0 (Some now))
  /\ snd byCommand = [DailyClaimed (Some 2) 1 2]
  /\ storage.getUserByTelegramId (db (fst byCommand)) "200"
     = Some (mkUser 2 "200" "QQQQ1111" None 2 1 (Some now)).
Proof. by vm_compute. Qed.

(** A second press on the same civil day is refused, and one a day later
    is granted. *)
Example daily_checkin_twice :
  let now := 1700000000000 in
  let b1 := fst (onCallbackQuery 0 sampleBot "200" "daily_checkin" now) in
  onCallbackQuery 0 b1 "200" "daily_checkin" (now + 3600000) = (b1, [AlreadyClaimedToday])
  /\ snd (onCallbackQuery 0 b1 "200" "daily_checkin" (now + msPerDay))
     = [DailyCheckinMenu 4; DailyClaimedAlert (Some 2)].
Proof. by vm_compute. Qed.

(** C5: the sold-out item, by button and by number. *)
Lemma no_stock_purchase_witness :
  handleShopPurchase sampleBot "100" referrerR (Some 1) = (sampleBot, Some [OutOfStock])
  /\ onMessage sampleBot "100" "2" = (sampleBot, [OutOfStock]).
Proof.
  destruct (no_stock_purchase_rejected sampleBot "100" referrerR soldOutItem 0
              eq_refl ltac:(lia)) as [H1 H2].
  split.
  - apply (H1 1). reflexivity.
  - apply (H2 "2" 2); vm_compute; try done. intros [_ H]. by apply H.
Defined.

(** C5 as stated fails for a user who cannot afford the item: the stock is
    0 and the rejection is InsufficientBalance, not OutOfStock. *)
Lemma no_stock_poor_user_insufficient_balance :
  i_stock soldOutItem = Some 0
  /\ u_coins newcomerN < i_cost soldOutItem
  /\ onCallbackQuery 0 sampleBot "200" "shop_1" 1700000000000
     = (sampleBot, [NotEnoughCoins 8])
  /\ NotEnoughCoins 8 <> OutOfStock.
Proof. by vm_compute. Qed.

(** C6: the referrer and the closed raffle, by button; the open raffle, by
    number. *)
Lemma raffle_entry_by_button_witness :
  (let '(b', replies) := handleRaffleEntry sampleBot "100" referrerR (Some 1) in
   replies = Some [RaffleEntered 1 7]
   /\ coinsOf (db b') "100" = Some 7
   /\ raffleEntries (db b') = [mkRaffleEntry 1 1 1]
   /\ transactions (db b')
      = [mkTransaction 1 daily_reward 10; mkTransaction 1 raffle_entry (- 3)])
  /\ handleRaffleEntry sampleBot "100" referrerR (Some 7) = (sampleBot, Some [RaffleNotFound])
  /\ snd (onMessage sampleBot "100" "1") = [RaffleEntered 2 6].
Proof.
  destruct (raffle_entry_by_button sampleBot "100" referrerR (Some 1) eq_refl)
    as (_ & _ & H3 & H4).
  destruct (raffle_entry_by_button sampleBot "100" referrerR (Some 7) eq_refl)
    as (H1 & _).
  split; [|split].
  - apply (H3 closedRaffle); [reflexivity|vm_compute; discriminate].
  - apply H1. reflexivity.
  - apply (H4 "1" 1 openRaffle); vm_compute; done.
Defined.

(** C6 as stated fails: a raffle that is inactive, past its end time and at
    its maxEntries limit is entered by its button; the user is debited, a
    RaffleEntry and a Transaction are written and currentEntries grows
    past the limit. *)
Lemma closed_raffle_entered_by_button :
  let now := 1700000000000 in
  r_isActive closedRaffle = false
  /\ r_endDate closedRaffle < now
  /\ r_maxEntries closedRaffle = Some (r_currentEntries closedRaffle)
  /\ let '(b', replies) := onCallbackQuery 0 sampleBot "100" "raffle_1" now in
     replies = [RaffleEntered 1 7]
     /\ coinsOf (db b') "100" = Some 7
     /\ raffleEntries (db b') = [mkRaffleEntry 1 1 1]
     /\ transactions (db b')
        = [mkTransaction 1 daily_reward 10; mkTransaction 1 raffle_entry (- 3)]
     /\ r_currentEntries <$> storage.getRaffleById (db b') (Some 1) = Some 6.
Proof. by vm_compute. Qed.

(** C7: on the sample data (one active raffle, two active items) the
    number 1 is the raffle, 2 is the second item, and 3, 0 and -1 are
    ignored; with empty lists every number is ignored. *)
Lemma numbered_selection_witness :
  snd (onMessage sampleBot "100" " 1 ") = [RaffleEntered 2 6]
  /\ onMessage sampleBot "100" "2" = (sampleBot, [OutOfStock])
  /\ onMessage sampleBot "100" "3" = (sampleBot, [])
  /\ onMessage sampleBot "100" "-1" = (sampleBot, []).
Proof.
  split; [|split; [|split]].
  - destruct (numbered_selection sampleBot "100" " 1 " 1 eq_refl eq_refl) as (H & _).
    destruct (H referrerR eq_refl) as (raffle & Hr & [E|E]).
    + cbn. lia.
    + injection Hr as <-. by vm_compute in E.
    + injection Hr as <-. exact E.
  - destruct (numbered_selection sampleBot "100" "2" 2 eq_refl eq_refl) as (_ & H & _).
    destruct (H referrerR eq_refl) as (item & Hi & [E|[E|E]]).
    + cbn. lia.
    + cbn. lia.
    + injection Hi as <-. by vm_compute in E.
    + exact E.
    + injection Hi as <-. by vm_compute in E.
  - destruct (numbered_selection sampleBot "100" "3" 3 eq_refl eq_refl) as (_ & _ & H & _).
    apply H; cbn; lia.
  - destruct (numbered_selection sampleBot "100" "-1" (-1) eq_refl eq_refl) as (_ & _ & H & _).
    apply H; cbn; lia.
Defined.

(** C8: the newcomer at the prompt: any text that is not a command uses the
    state up, a command does not, and the menu button clears it. *)
Lemma invite_state_consumed_witness :
  userStates (fst (onMessage promptedBot "200" "no such code")) = ∅
  /\ onMessage promptedBot "200" "/daily" = (promptedBot, [])
  /\ userStates (fst (onDaily 0 promptedBot "200" 1700000000000)) = userStates promptedBot
  /\ userStates (fst (onCallbackQuery 0 promptedBot "200" "back_to_menu" 1700000000000)) = ∅.
Proof.
  destruct (invite_state_consumed 0 promptedBot "200" "no such code" newcomerN 0
              1700000000000 eq_refl eq_refl) as (H1 & _ & H3).
  destruct (invite_state_consumed 0 promptedBot "200" "/daily" newcomerN 0
              1700000000000 eq_refl eq_refl) as (_ & H2 & _).
  destruct (H2 eq_refl) as (H2a & _ & H2c & _).
  split; [|split; [|split]].
  - rewrite (H1 eq_refl). by vm_compute.
  - exact H2a.
  - exact H2c.
  - rewrite H3. by vm_compute.
Defined.


(** * Further properties of the handlers *)

(** ** What the storage calls return *)

Lemma awardReward_inv s telegramId amount ty s' u' :
  storage.awardReward s telegramId amount ty = Some (s', u') ->
  exists a u,
    amount = Some a
    /\ storage.getUserByTelegramId s telegramId = Some u
    /\ u' = storage.credit a u
    /\ s' = storage.createTransaction
              (storage.setUsers s
                 (map (fun v => if String.eqb (u_telegramId v) telegramId
                                then storage.credit a v else v) (users s)))
              (mkTransaction (u_id u) ty a).
Proof.
  unfold storage.awardReward. destruct amount as [a|]; [|done].
  destruct (storage.getUserByTelegramId s telegramId) as [u|]; [|done].
  intros [= <- <-]. by exists a, u.
Qed.

Lemma claimDaily_inv s telegramId amount now s' u' :
  storage.claimDaily s telegramId amount now = Some (s', u') ->
  exists a u,
    amount = Some a
    /\ storage.getUserByTelegramId s telegramId = Some u
    /\ u' = storage.claimed a now u
    /\ s' = storage.createTransaction
              (storage.setUsers s
                 (map (fun v => if String.eqb (u_telegramId v) telegramId
                                then storage.claimed a now v else v) (users s)))
              (mkTransaction (u_id u) daily_reward a).
Proof.
  unfold storage.claimDaily. destruct amount as [a|]; [|done].
  destruct (storage.getUserByTelegramId s telegramId) as [u|]; [|done].
  intros [= <- <-]. by exists a, u.
Qed.

(** Opens the successful storage calls met in the hypotheses. *)
Ltac storage_inv :=
  repeat match goal with
    | H : storage.awardReward _ _ _ _ = Some _ |- _ =>
        apply awardReward_inv in H as (? & ? & ? & ? & -> & ->)
    | H : storage.claimDaily _ _ _ _ = Some _ |- _ =>
        apply claimDaily_inv in H as (? & ? & ? & ? & -> & ->)
    | H : storage.createUser _ _ = (_, _) |- _ =>
        unfold storage.createUser in H; injection H as <- <-
    end.

(** Unfolds a handler into its branches. *)
Ltac handler_cases :=
  unfold handle, onStart, onDaily, onReadCommand, onMessage, onCallbackQuery,
    handleDailyCheckin, handleViewRaffles, handleViewShop, handleReferralLink,
    handleMyInfo, handleEnterCode, handleBackToMenu, handleRaffleEntry,
    handleShopPurchase;
  repeat case_match; simplify_eq; storage_inv.

Lemma run_invariant (P : Bot -> Prop) localOffset :
  (forall b e, P b -> P (fst (handle localOffset b e))) ->
  forall events b, P b -> P (run localOffset b events).
Proof.
  intros Hstep events. induction events as [|e es IH]; intros b Hb; simpl; [done|].
  apply IH. by apply Hstep.
Qed.

(** ** Rows keep their identity, logs only grow *)

Lemma map_cond_key {K} (key : User -> K) (t : string) (g : User -> User) (l : list User) :
  (forall v, key (g v) = key v) ->
  map key (map (fun v => if String.eqb (u_telegramId v) t then g v else v) l) = map key l.
Proof.
  intros Hg. apply map_key_preserved. intros v. by destruct (String.eqb _ _).
Qed.

Lemma map_condZ_key {A K} (key : A -> K) (test : A -> bool) (g : A -> A) (l : list A) :
  (forall v, key (g v) = key v) ->
  map key (map (fun v => if test v then g v else v) l) = map key l.
Proof.
  intros Hg. apply map_key_preserved. intros v. by destruct (test v).
Qed.

Ltac frame_solve :=
  simpl;
  rewrite ?map_app, ?(map_cond_key userKey) by done;
  rewrite ?(map_condZ_key raffleTerms) by done;
  rewrite ?(map_condZ_key itemTerms) by done;
  first [ done
        | by apply prefix_app_r
        | eexists; rewrite <- ?app_assoc; reflexivity ].

Lemma handle_keeps_identity localOffset b e :
  let b' := fst (handle localOffset b e) in
  botSettings (db b') = botSettings (db b)
  /\ map userKey (users (db b)) `prefix_of` map userKey (users (db b'))
  /\ map raffleTerms (raffles (db b')) = map raffleTerms (raffles (db b))
  /\ map itemTerms (shopItems (db b')) = map itemTerms (shopItems (db b)).
Proof.
  destruct e; handler_cases; repeat split; frame_solve.
Qed.

(** X1: along any run of handlers the settings are not written, no user
    row is removed or reordered, and no row changes the fields that
    identify it or state its terms: a user's id, telegram id and referral
    code, a raffle's id, cost, limit, end and active flag, an item's id,
    cost and active flag.  The user table only grows at its end. *)
Theorem rows_keep_identity (localOffset : Z) (b : Bot) (events : list Event) :
  let b' := run localOffset b events in
  botSettings (db b') = botSettings (db b)
  /\ map userKey (users (db b)) `prefix_of` map userKey (users (db b'))
  /\ map raffleTerms (raffles (db b')) = map raffleTerms (raffles (db b))
  /\ map itemTerms (shopItems (db b')) = map itemTerms (shopItems (db b)).
Proof.
  apply (run_invariant (fun b' =>
    botSettings (db b') = botSettings (db b)
    /\ map userKey (users (db b)) `prefix_of` map userKey (users (db b'))
    /\ map raffleTerms (raffles (db b')) = map raffleTerms (raffles (db b))
    /\ map itemTerms (shopItems (db b')) = map itemTerms (shopItems (db b)))).
  - intros b0 e (H1 & H2 & H3 & H4).
    destruct (handle_keeps_identity localOffset b0 e) as (K1 & K2 & K3 & K4).
    repeat split; [congruence|by etrans|congruence|congruence].
  - done.
Qed.

Lemma handle_appends localOffset b e :
  let b' := fst (handle localOffset b e) in
  transactions (db b) `prefix_of` transactions (db b')
  /\ purchases (db b) `prefix_of` purchases (db b')
  /\ raffleEntries (db b) `prefix_of` raffleEntries (db b').
Proof.
  destruct e; handler_cases; repeat split; frame_solve.
Qed.

(** X2: the Transaction log, the purchases and the raffle entries are
    append-only: after any run of handlers each table starts with the rows
    it had, unchanged and in the same order. *)
Theorem logs_append_only (localOffset : Z) (b : Bot) (events : list Event) :
  let b' := run localOffset b events in
  transactions (db b) `prefix_of` transactions (db b')
  /\ purchases (db b) `prefix_of` purchases (db b')
  /\ raffleEntries (db b) `prefix_of` raffleEntries (db b').
Proof.
  apply (run_invariant (fun b' =>
    transactions (db b) `prefix_of` transactions (db b')
    /\ purchases (db b) `prefix_of` purchases (db b')
    /\ raffleEntries (db b) `prefix_of` raffleEntries (db b'))).
  - intros b0 e (H1 & H2 & H3).
    destruct (handle_appends localOffset b0 e) as (K1 & K2 & K3).
    repeat split; by etrans.
  - done.
Qed.

(** ** Balances, stock and entry counters *)

Lemma Forall_map_cond {A} (P : A -> Prop) (test : A -> bool) (g : A -> A) (l : list A) :
  (forall v, test v = true -> P v -> P (g v)) ->
  Forall P l ->
  Forall P (map (fun v => if test v then g v else v) l).
Proof.
  intros Hg. induction 1 as [|x l Hx _ IH]; simpl; constructor; [|done].
  destruct (test x) eqn:E; auto.
Qed.

Ltac reward_bounds Hr :=
  destruct Hr as [?Hr1 ?Hr2];
  repeat match goal with
    | H : rewardSetting _ "referral_reward_amount" = Some ?a |- _ =>
        apply Hr1 in H
    | H : rewardSetting _ "daily_reward_amount" = Some ?a |- _ =>
        apply Hr2 in H
    | H : (_ <? _) = false |- _ => apply Z.ltb_ge in H
    | H : (_ <=? _) = false |- _ => apply Z.leb_gt in H
    end.

Ltac forall_rows :=
  simpl;
  repeat first
    [ assumption
    | apply Forall_app; split
    | apply Forall_singleton; simpl; lia
    | apply Forall_map_cond; [intros ? _ ?; simpl; lia|] ].

Lemma handle_balances localOffset b e :
  rewardsNonNegative (db b) ->
  balancesNonNegative (db b) ->
  balancesNonNegative (db (fst (handle localOffset b e))).
Proof.
  unfold balancesNonNegative. intros Hr Hb.
  destruct e; handler_cases; reward_bounds Hr; forall_rows.
Qed.

Lemma rewardSetting_settings s s' key :
  botSettings s' = botSettings s -> rewardSetting s' key = rewardSetting s key.
Proof. intros E. unfold rewardSetting, storage.getBotSetting. by rewrite E. Qed.

(** X3: no balance goes below zero.  When the two reward settings are not
    negative numbers and no balance is negative, no balance is negative
    after any run of handlers: a raffle entry or a purchase is only
    written when the balance covers the cost. *)
Theorem balances_stay_non_negative (localOffset : Z) (b : Bot) (events : list Event) :
  rewardsNonNegative (db b) ->
  balancesNonNegative (db b) ->
  balancesNonNegative (db (run localOffset b events)).
Proof.
  intros Hr Hb.
  apply (run_invariant (fun b' =>
           rewardsNonNegative (db b') /\ balancesNonNegative (db b')) localOffset);
    [|done].
  intros b0 e [Hr0 Hb0]. split; [|by apply handle_balances].
  destruct (handle_keeps_identity localOffset b0 e) as (E & _).
  destruct Hr0 as [H1 H2]. split; intros a; rewrite (rewardSetting_settings _ _ _ E); auto.
Qed.

Lemma handle_stock localOffset b e :
  stockNonNegative (db b) ->
  stockNonNegative (db (fst (handle localOffset b e))).
Proof.
  unfold stockNonNegative. intros Hs.
  destruct e; handler_cases;
    repeat match goal with
      | H : (_ <=? _) = false |- _ => apply Z.leb_gt in H
      end;
    forall_rows.
Qed.

(** X4: no tracked stock goes below zero: when no stock is negative, none
    is after any run of handlers, since a purchase is only written for an
    item with stock left. *)
Theorem stock_stays_non_negative (localOffset : Z) (b : Bot) (events : list Event) :
  stockNonNegative (db b) ->
  stockNonNegative (db (run localOffset b events)).
Proof.
  intros Hs.
  apply (run_invariant (fun b' => stockNonNegative (db b')) localOffset); [|done].
  intros b0 e. apply handle_stock.
Qed.

Lemma raffleGrew_refl l : Forall2 raffleGrew l l.
Proof. apply Forall2_same_length_lookup_2; [done|]. intros i x y ? ?. by simplify_eq. Qed.

Lemma raffleGrew_entered (l : list Raffle) (r0 : Raffle) :
  NoDup (map r_id l) -> In r0 l ->
  Forall2 raffleGrew l
    (map (fun r => if r_id r =? r_id r0
                   then storage.setCurrentEntries (r_currentEntries r0 + 1) r else r) l).
Proof.
  intros Hnd Hin.
  assert (H : forall r, In r l ->
            raffleGrew r (if r_id r =? r_id r0
                          then storage.setCurrentEntries (r_currentEntries r0 + 1) r else r)).
  { intros r Hr. destruct (Z.eqb_spec (r_id r) (r_id r0)) as [E|E]; [|done].
    assert (r = r0) as -> by by apply (NoDup_map_injective r_id l).
    split; [done|]. simpl. lia. }
  clear Hnd Hin. induction l as [|x l IH]; simpl; constructor.
  - apply H. by left.
  - apply IH. intros r Hr. apply H. by right.
Qed.

Lemma getRaffleById_found s n r :
  storage.getRaffleById s n = Some r -> In r (raffles s).
Proof.
  unfold storage.getRaffleById. destruct n; [|done].
  intros H. by apply find_some in H as [? _].
Qed.

Lemma activeRaffle_found s (i : nat) r :
  storage.getActiveRaffles s !! i = Some r -> In r (raffles s).
Proof.
  intros H. apply list_elem_of_lookup_2, list_elem_of_In in H.
  unfold storage.getActiveRaffles in H. by apply filter_In in H as [? _].
Qed.

Lemma handle_entries localOffset b e :
  NoDup (map r_id (raffles (db b))) ->
  Forall2 raffleGrew (raffles (db b)) (raffles (db (fst (handle localOffset b e)))).
Proof.
  intros Hnd.
  destruct e; handler_cases; simpl; try apply raffleGrew_refl;
    apply raffleGrew_entered; try done;
    first [ by eapply getRaffleById_found | by eapply activeRaffle_found ].
Qed.

Lemma raffleGrew_ids l l' : Forall2 raffleGrew l l' -> map r_id l' = map r_id l.
Proof.
  induction 1 as [|r r' l l' [Ht _] _ IH]; simpl; [done|].
  rewrite IH. f_equal. unfold raffleTerms in Ht. congruence.
Qed.

Lemma raffleGrew_trans l1 l2 l3 :
  Forall2 raffleGrew l1 l2 -> Forall2 raffleGrew l2 l3 -> Forall2 raffleGrew l1 l3.
Proof.
  intros H12. revert l3. induction H12 as [|a b l1 l2 [Ha1 Ha2] _ IH]; intros l3 H23.
  - by inversion H23.
  - inversion H23 as [|? c ? l3' [Hb1 Hb2] Hrest]; subst. constructor; [|by apply IH].
    split; [congruence|lia].
Qed.

(** X5: entry counters never go down.  When raffle ids are unique, after
    any run of handlers every raffle is still there, in place, with the
    same terms and with at least as many [currentEntries] as before. *)
Theorem entries_never_decrease (localOffset : Z) (b : Bot) (events : list Event) :
  NoDup (map r_id (raffles (db b))) ->
  Forall2 raffleGrew (raffles (db b)) (raffles (db (run localOffset b events))).
Proof.
  intros Hnd.
  apply (run_invariant (fun b' => Forall2 raffleGrew (raffles (db b)) (raffles (db b')))
           localOffset); [|apply raffleGrew_refl].
  intros b0 e H0. eapply raffleGrew_trans; [exact H0|].
  apply handle_entries. by rewrite (raffleGrew_ids _ _ H0).
Qed.

(** ** A referral is recorded once *)

Lemma find_app {A} (f : A -> bool) (l k : list A) :
  List.find f (l ++ k) = match List.find f l with
                         | Some x => Some x
                         | None => List.find f k
                         end.
Proof. induction l as [|x l IH]; simpl; [done|]. by destruct (f x). Qed.

Lemma getUser_created s us telegramId u :
  storage.getUserByTelegramId s telegramId = Some u ->
  storage.getUserByTelegramId (storage.setUsers s (users s ++ us)) telegramId = Some u.
Proof.
  unfold storage.getUserByTelegramId. simpl. intros H. by rewrite find_app, H.
Qed.

Lemma getUser_enterRaffle s x t :
  storage.getUserByTelegramId (storage.enterRaffle s x) t = storage.getUserByTelegramId s t.
Proof. reflexivity. Qed.

Lemma getUser_updateRaffle s i n t :
  storage.getUserByTelegramId (storage.updateRaffle s i n) t = storage.getUserByTelegramId s t.
Proof. reflexivity. Qed.

Lemma getUser_createPurchase s x t :
  storage.getUserByTelegramId (storage.createPurchase s x) t = storage.getUserByTelegramId s t.
Proof. reflexivity. Qed.

Lemma getUser_updateShopItem s i n t :
  storage.getUserByTelegramId (storage.updateShopItem s i n) t = storage.getUserByTelegramId s t.
Proof. reflexivity. Qed.

(** Pushes a user lookup through the writes of a handler. *)
Ltac lookup_through :=
  simpl db;
  repeat first
    [ rewrite getUser_updateUser
    | rewrite getUser_createTransaction
    | rewrite getUser_enterRaffle
    | rewrite getUser_updateRaffle
    | rewrite getUser_createPurchase
    | rewrite getUser_updateShopItem
    | rewrite getUser_mapped by done ].

(** Two lookups that hit rows with the same telegram id hit the same row. *)
Ltac same_user :=
  match goal with
  | Hu : storage.getUserByTelegramId ?s _ = Some ?u,
    H0 : storage.getUserByTelegramId ?s _ = Some ?u0,
    Hc : String.eqb (u_telegramId ?u) (u_telegramId ?u0) = true |- _ =>
      apply String.eqb_eq in Hc;
      pose proof (getUser_found _ _ _ Hu) as [_ ?];
      pose proof (getUser_found _ _ _ H0) as [_ ?];
      assert (u = u0) by congruence; subst
  end.

Lemma telegramId_cond (c : bool) (g : User -> User) (v : User) :
  (forall w, u_telegramId (g w) = u_telegramId w) ->
  u_telegramId (if c then g v else v) = u_telegramId v.
Proof. intros H. by destruct c. Qed.

Ltac goal_ifs :=
  repeat (rewrite !telegramId_cond by done);
  repeat match goal with
    | |- context [if ?c then _ else _] => destruct c eqn:?; simpl
    end.

Lemma handle_referredBy localOffset b e t r :
  referredByOf (db b) t = Some r ->
  JS.truthy r = true ->
  referredByOf (db (fst (handle localOffset b e))) t = Some r.
Proof.
  unfold referredByOf. intros Hr Htrue.
  destruct (storage.getUserByTelegramId (db b) t) as [u|] eqn:Hu; [|done].
  simpl in Hr. injection Hr as <-.
  destruct e; handler_cases; lookup_through;
    rewrite ?(getUser_created _ _ _ _ Hu), ?Hu; simpl; try done.
  all: goal_ifs; try done.
  all: try (match goal with
            | Ht : JS.truthy ?x = true, H : negb (JS.truthy _) && _ = true |- _ =>
                cbn [u_referredBy] in H; rewrite Ht in H; discriminate
            end).
  all: same_user; simpl in *;
    first [ congruence
          | match goal with
            | Ht : JS.truthy ?x = true, H : negb (JS.truthy ?x) && _ = true |- _ =>
                rewrite Ht in H; discriminate
            end ].
Qed.

(** X6: a referral is recorded once.  A user whose [referredBy] holds a
    non-empty code keeps exactly that code through any run of handlers:
    both places that write the field check first that it is not set. *)
Theorem referredBy_never_changes
    (localOffset : Z) (b : Bot) (events : list Event) (t c : string) :
  referredByOf (db b) t = Some (Some c) ->
  c <> "" ->
  referredByOf (db (run localOffset b events)) t = Some (Some c).
Proof.
  intros H Hc.
  apply (run_invariant (fun b' => referredByOf (db b') t = Some (Some c)) localOffset);
    [|done].
  intros b0 e H0. apply handle_referredBy; [done|].
  simpl. by destruct (String.eqb_spec c "").
Qed.

(** ** Conversation state of the other users, and the prompt *)

(** X7: a handler reads and writes the conversation state of the user it
    runs for and of nobody else: the entry of every other telegram id is
    after the handler what it was before. *)
Theorem handler_leaves_other_states
    (localOffset : Z) (b : Bot) (e : Event) (other : string) :
  other <> eventUser e ->
  userStates (fst (handle localOffset b e)) !! other = userStates b !! other.
Proof.
  intros Hne. destruct e; simpl in Hne; handler_cases; simpl;
    rewrite ?lookup_delete_ne, ?lookup_insert_ne by done; done.
Qed.

(** X8: while an invitation code is awaited the next text is taken as a
    code and as nothing else: whatever the text, also a number that would
    select a raffle or an item, the handler writes no raffle, raffle entry,
    item or purchase, and every reply it sends is one of the four answers
    to a code. *)
Theorem prompt_takes_precedence (b : Bot) (telegramId text : string) (asked : Z) :
  userStates b !! telegramId = Some ("expecting_invite_code", asked) ->
  let b' := fst (onMessage b telegramId text) in
  raffles (db b') = raffles (db b)
  /\ raffleEntries (db b') = raffleEntries (db b)
  /\ shopItems (db b') = shopItems (db b)
  /\ purchases (db b') = purchases (db b)
  /\ Forall isInvitationReply (snd (onMessage b telegramId text)).
Proof.
  intros Hstate. unfold onMessage. rewrite Hstate. cbn [fst].
  rewrite String.eqb_refl. cbv iota.
  repeat case_match; simplify_eq; storage_inv; simpl; repeat split; try done;
    repeat constructor.
Qed.

(** X9: at the prompt, a code nobody owns and the user's own code are
    rejected and nothing is written: the tables stay as they are and only
    the conversation state is used up. *)
Theorem prompt_rejections_write_nothing
    (b : Bot) (telegramId text : string) (user : User) (asked : Z) :
  storage.getUserByTelegramId (db b) telegramId = Some user ->
  userStates b !! telegramId = Some ("expecting_invite_code", asked) ->
  (String.eqb text "" || JS.startsWith "/" text) = false ->
  let inviteCode := JS.toUpperCase (JS.trim text) in
  let consumed := mkBot (db b) (delete telegramId (userStates b)) in
  (storage.getUserByReferralCode (db b) inviteCode = None ->
     onMessage b telegramId text = (consumed, [InvalidInvitationCode]))
  /\ (forall owner,
        storage.getUserByReferralCode (db b) inviteCode = Some owner ->
        u_id owner = u_id user ->
        onMessage b telegramId text = (consumed, [OwnInvitationCode])).
Proof.
  intros Huser Hstate Hguard inviteCode consumed. split.
  - intros Hnone. unfold onMessage. rewrite Hguard, Huser, Hstate. simpl.
    fold inviteCode. by rewrite Hnone.
  - intros owner Howner Hid. unfold onMessage. rewrite Hguard, Huser, Hstate. simpl.
    fold inviteCode. by rewrite Howner, Hid, Z.eqb_refl.
Qed.

(** ** Registration by [/start] *)


(** X11: a registered user who has not been referred and sends [/start]
    with the code of some user gets the referral recorded: the owner of the
    code and the user are each credited the referral amount by a
    Transaction of their own and [referredBy] is set.  This path has no
    self-referral check: with the user's own code the user is the owner,
    and is credited twice. *)
Theorem start_with_code_when_registered
    (b : Bot) (telegramId code nanoid8 : string) (user owner : User) (amount : Z) :
  wellFormed (db b) ->
  storage.getUserByTelegramId (db b) telegramId = Some user ->
  JS.truthy (u_referredBy user) = false ->
  code <> "" ->
  storage.getUserByReferralCode (db b) code = Some owner ->
  rewardSetting (db b) "referral_reward_amount" = Some amount ->
  let b' := fst (onStart b telegramId (Some code) nanoid8) in
  transactions (db b')
  = (transactions (db b)
     ++ [mkTransaction (u_id owner) referral amount;
         mkTransaction (u_id user) referral amount])%list
  /\ referredByOf (db b') telegramId = Some (Some code)
  /\ coinsOf (db b') telegramId
     = Some (if u_id owner =? u_id user
             then u_coins user + amount + amount else u_coins user + amount)
  /\ (u_id owner <> u_id user ->
      coinsOf (db b') (u_telegramId owner) = Some (u_coins owner + amount)).
Proof.
  intros Hwf Huser Hfresh Hcode Howner Hamount b'.
  assert (Hin : In owner (users (db b))) by (by apply find_some in Howner as [? _]).
  pose proof (getUser_of_member _ _ Hwf Hin) as Hown.
  pose proof (getUser_found _ _ _ Huser) as [HinU Htid].
  assert (Hsame : u_telegramId owner = telegramId <-> u_id owner = u_id user).
  { destruct Hwf as [W1 W2 _]. split; intros E.
    - f_equal. apply (NoDup_map_injective u_telegramId (users (db b))); try done. congruence.
    - rewrite <- Htid. f_equal.
      by apply (NoDup_map_injective u_id (users (db b))). }
  destruct (awardReward_some (db b) _ amount referral _ Hown)
    as (s1 & Ha1 & Htx1 & _ & Hget1).
  assert (Hu1 : storage.getUserByTelegramId s1 telegramId
                = Some (if String.eqb telegramId (u_telegramId owner)
                        then storage.credit amount user else user)).
  { rewrite Hget1, Huser. simpl. by rewrite Htid. }
  destruct (awardReward_some s1 _ amount referral _ Hu1)
    as (s2 & Ha2 & Htx2 & _ & Hget2).
  assert (Htruthy : JS.truthy (Some code) = true)
    by (simpl; by destruct (String.eqb_spec code "")).
  assert (E : onStart b telegramId (Some code) nanoid8
              = (setDb b (storage.updateUser s2 telegramId (referredByPatch code)),
                 snd (onStart b telegramId (Some code) nanoid8))).
  { unfold onStart. rewrite Huser, Hfresh, Htruthy. cbn [negb andb].
    rewrite Howner, Hamount, Ha1, Htid, Ha2. reflexivity. }
  unfold b'. rewrite E. cbn [fst db setDb].
  assert (Hids : u_id (if String.eqb telegramId (u_telegramId owner)
                       then storage.credit amount user else user) = u_id user)
    by (by destruct (String.eqb _ _)).
  split; [|split; [|split]].
  - simpl. rewrite Htx2, Htx1, <- app_assoc, Hids. reflexivity.
  - unfold referredByOf. rewrite getUser_updateUser, Hget2, Hu1. simpl.
    destruct (String.eqb_spec telegramId (u_telegramId owner)); simpl;
      rewrite Htid, String.eqb_refl; simpl; by rewrite Htid, String.eqb_refl.
  - unfold coinsOf. rewrite getUser_updateUser, Hget2, Hu1. simpl.
    destruct (String.eqb_spec telegramId (u_telegramId owner)) as [E1|E1]; simpl;
      rewrite Htid, String.eqb_refl; simpl; rewrite Htid, String.eqb_refl; simpl.
    + by rewrite (proj2 (Z.eqb_eq _ _) (proj1 Hsame (eq_sym E1))).
    + destruct (Z.eqb_spec (u_id owner) (u_id user)) as [E2|E2]; [|done].
      exfalso. apply E1. symmetry. by apply Hsame.
  - intros Hne. unfold coinsOf. rewrite getUser_updateUser, Hget2, Hget1, Hown. simpl.
    assert (E1 : String.eqb (u_telegramId owner) telegramId = false).
    { apply String.eqb_neq. intros E1. by apply Hne, Hsame. }
    rewrite String.eqb_refl. simpl. rewrite E1. simpl. by rewrite E1.
Qed.

(** ** Daily claims over time *)

Lemma canClaim_localDay localOffset now last :
  canClaimDailyReward localOffset now (Some last) = true
  <-> localDay localOffset last < localDay localOffset now.
Proof. apply canClaimDailyReward_days. Qed.




Lemma claim_stamps localOffset b telegramId now user amount e1 :
  storage.getUserByTelegramId (db b) telegramId = Some user ->
  rewardSetting (db b) "daily_reward_amount" = Some amount ->
  canClaimDailyReward localOffset now (u_lastDailyReward user) = true ->
  e1 = Daily telegramId now \/ e1 = CallbackQuery telegramId "daily_checkin" now ->
  exists user1,
    storage.getUserByTelegramId (db (fst (handle localOffset b e1))) telegramId = Some user1
    /\ u_lastDailyReward user1 = Some now
    /\ u_coins user1 = u_coins user + amount
    /\ rewardSetting (db (fst (handle localOffset b e1))) "daily_reward_amount" = Some amount.
Proof.
  intros Huser Hamount Hcan He1.
  assert (Hset : rewardSetting (db (fst (handle localOffset b e1))) "daily_reward_amount"
                 = Some amount).
  { destruct (handle_keeps_identity localOffset b e1) as (E & _).
    by rewrite (rewardSetting_settings _ _ _ E). }
  destruct He1 as [->| ->]; simpl in *.
  - destruct (onDaily_effect localOffset b telegramId now user amount Huser Hamount)
      as [_ H]. destruct (H Hcan) as [Hget _]. eexists. by split.
  - destruct (handleDailyCheckin_effect localOffset b telegramId now user amount Huser Hamount)
      as [_ H]. destruct (H Hcan) as [Hget _]. eexists. by split.
Qed.

(** X13: one claim per day, whichever way it is made.  After a claim
    granted by the [/daily] command or by the check-in button, a claim by
    either of them on the same local day (or before) is refused and writes
    nothing; on a later local day it is granted and the balance has grown by
    twice the daily amount. *)
Theorem granted_claim_blocks_the_day
    (localOffset : Z) (b : Bot) (telegramId : string) (user : User)
    (amount now now' : Z) (e1 e2 : Event) :
  storage.getUserByTelegramId (db b) telegramId = Some user ->
  rewardSetting (db b) "daily_reward_amount" = Some amount ->
  canClaimDailyReward localOffset now (u_lastDailyReward user) = true ->
  e1 = Daily telegramId now \/ e1 = CallbackQuery telegramId "daily_checkin" now ->
  e2 = Daily telegramId now' \/ e2 = CallbackQuery telegramId "daily_checkin" now' ->
  let b1 := fst (handle localOffset b e1) in
  (localDay localOffset now' <= localDay localOffset now ->
     handle localOffset b1 e2 = (b1, [AlreadyClaimedToday]))
  /\ (localDay localOffset now < localDay localOffset now' ->
      coinsOf (db (fst (handle localOffset b1 e2))) telegramId
      = Some (u_coins user + amount + amount)).
Proof.
  intros Huser Hamount Hcan He1 He2 b1.
  destruct (claim_stamps localOffset b telegramId now user amount e1 Huser Hamount Hcan He1)
    as (user1 & Hget & Hlast & Hcoins & Hset).
  fold b1 in Hget, Hset. split.
  - intros Hday.
    assert (Hno : canClaimDailyReward localOffset now' (u_lastDailyReward user1) = false).
    { rewrite Hlast.
      destruct (canClaimDailyReward localOffset now' (Some now)) eqn:E; [|done].
      apply canClaim_localDay in E. lia. }
    destruct He2 as [->| ->]; simpl.
    + by destruct (onDaily_effect localOffset b1 telegramId now' user1 amount Hget Hset)
        as [H _]; apply H.
    + by destruct (handleDailyCheckin_effect localOffset b1 telegramId now' user1 amount
                     Hget Hset) as [H _]; apply H.
  - intros Hday.
    assert (Hyes : canClaimDailyReward localOffset now' (u_lastDailyReward user1) = true)
      by (rewrite Hlast; by apply canClaim_localDay).
    unfold coinsOf. destruct He2 as [->| ->]; simpl.
    + destruct (onDaily_effect localOffset b1 telegramId now' user1 amount Hget Hset)
        as [_ H]. destruct (H Hyes) as [-> _]. simpl. by rewrite Hcoins.
    + destruct (handleDailyCheckin_effect localOffset b1 telegramId now' user1 amount
                  Hget Hset) as [_ H]. destruct (H Hyes) as [-> _]. simpl. by rewrite Hcoins.
Qed.

(** X14: the check-in button and the [/daily] command write the same
    claim but for the streak: for a claim that is granted, the tables after
    the command are the tables after the button with one more day on the
    user's streak.  The button leaves the streak as it was. *)
Theorem checkin_button_differs_in_streak_only
    (localOffset : Z) (b : Bot) (telegramId : string) (user : User) (amount now : Z) :
  storage.getUserByTelegramId (db b) telegramId = Some user ->
  rewardSetting (db b) "daily_reward_amount" = Some amount ->
  canClaimDailyReward localOffset now (u_lastDailyReward user) = true ->
  let button := db (fst (onCallbackQuery localOffset b telegramId "daily_checkin" now)) in
  let command := db (fst (onDaily localOffset b telegramId now)) in
  users command
  = map (fun v => if String.eqb (u_telegramId v) telegramId then countStreak v else v)
        (users button)
  /\ transactions command = transactions button
  /\ raffles command = raffles button
  /\ raffleEntries command = raffleEntries button
  /\ shopItems command = shopItems button
  /\ purchases command = purchases button
  /\ botSettings command = botSettings button
  /\ u_streak <$> storage.getUserByTelegramId button telegramId = Some (u_streak user).
Proof.
  intros Huser Hamount Hcan button command.
  assert (Eb : button
    = storage.updateUser
        (storage.createTransaction
           (storage.setUsers (db b)
              (map (fun v => if String.eqb (u_telegramId v) telegramId
                             then storage.credit amount v else v) (users (db b))))
           (mkTransaction (u_id user) daily_reward amount))
        telegramId (lastDailyRewardPatch now)).
  { unfold button, onCallbackQuery. rewrite Huser. simpl.
    unfold handleDailyCheckin. rewrite Hcan. simpl. rewrite Hamount.
    unfold storage.awardReward. rewrite Huser. reflexivity. }
  assert (Ec : command
    = storage.createTransaction
        (storage.setUsers (db b)
           (map (fun v => if String.eqb (u_telegramId v) telegramId
                          then storage.claimed amount now v else v) (users (db b))))
        (mkTransaction (u_id user) daily_reward amount)).
  { unfold command, onDaily. rewrite Huser, Hcan. simpl. rewrite Hamount.
    unfold storage.claimDaily. rewrite Huser. reflexivity. }
  rewrite Eb, Ec. repeat split.
  - simpl. rewrite !map_map. apply map_ext. intros v.
    destruct (String.eqb (u_telegramId v) telegramId) eqn:E; simpl; rewrite ?E; simpl;
      rewrite ?E; done.
  - rewrite getUser_updateUser, getUser_createTransaction.
    rewrite (getUser_mapped (db b) telegramId telegramId (storage.credit amount)) by done.
    rewrite Huser. simpl. apply getUser_found in Huser as [_ <-].
    by rewrite !String.eqb_refl.
Qed.

(** ** Buttons *)

Lemma digits_no_underscore d :
  JS.upToUnderscore (NilEmpty.string_of_uint d) = NilEmpty.string_of_uint d.
Proof. induction d; simpl; try done; by rewrite IHd. Qed.

Lemma decimalText_no_underscore n : JS.upToUnderscore (decimalText n) = decimalText n.
Proof.
  destruct n as [|p|p]; unfold decimalText; simpl; [done|..];
    unfold NilZero.string_of_uint.
  - destruct (Pos.to_uint p) eqn:E; [done|..]; rewrite <- E; apply digits_no_underscore.
  - change (JS.code "-" =? 95) with false. cbv iota. f_equal.
    destruct (Pos.to_uint p) eqn:E; [done|..]; rewrite <- E; apply digits_no_underscore.
Qed.

Lemma trailingId_raffle n : trailingId ("raffle_" ++ decimalText n) = Some n.
Proof.
  unfold trailingId.
  change (JS.splitSecond ("raffle_" ++ decimalText n))
    with (Some (JS.upToUnderscore (decimalText n))).
  rewrite decimalText_no_underscore. apply parseInt_decimalText.
Qed.

Lemma trailingId_shop n : trailingId ("shop_" ++ decimalText n) = Some n.
Proof.
  unfold trailingId.
  change (JS.splitSecond ("shop_" ++ decimalText n))
    with (Some (JS.upToUnderscore (decimalText n))).
  rewrite decimalText_no_underscore. apply parseInt_decimalText.
Qed.

Lemma dispatch_raffle_tag localOffset b telegramId user now n :
  storage.getUserByTelegramId (db b) telegramId = Some user ->
  let r := handleRaffleEntry b telegramId user (Some n) in
  onCallbackQuery localOffset b telegramId ("raffle_" ++ decimalText n) now
  = (fst r, default [SomethingWentWrong] (snd r)).
Proof.
  intros Huser r. unfold onCallbackQuery. rewrite Huser.
  rewrite trailingId_raffle. fold r.
  change (String.eqb ("raffle_" ++ decimalText n) "") with false.
  change (String.eqb ("raffle_" ++ decimalText n) "daily_checkin") with false.
  change (String.eqb ("raffle_" ++ decimalText n) "view_raffles") with false.
  change (String.eqb ("raffle_" ++ decimalText n) "view_shop") with false.
  change (String.eqb ("raffle_" ++ decimalText n) "referral_link") with false.
  change (String.eqb ("raffle_" ++ decimalText n) "my_info") with false.
  change (String.eqb ("raffle_" ++ decimalText n) "enter_code") with false.
  change (String.eqb ("raffle_" ++ decimalText n) "back_to_menu") with false.
  change (JS.startsWith "raffle_" ("raffle_" ++ decimalText n)) with true.
  cbv iota. destruct r as [b' [replies|]]; reflexivity.
Qed.

Lemma dispatch_shop_tag localOffset b telegramId user now n :
  storage.getUserByTelegramId (db b) telegramId = Some user ->
  let r := handleShopPurchase b telegramId user (Some n) in
  onCallbackQuery localOffset b telegramId ("shop_" ++ decimalText n) now
  = (fst r, default [SomethingWentWrong] (snd r)).
Proof.
  intros Huser r. unfold onCallbackQuery. rewrite Huser.
  rewrite trailingId_shop. fold r.
  change (String.eqb ("shop_" ++ decimalText n) "") with false.
  change (String.eqb ("shop_" ++ decimalText n) "daily_checkin") with false.
  change (String.eqb ("shop_" ++ decimalText n) "view_raffles") with false.
  change (String.eqb ("shop_" ++ decimalText n) "view_shop") with false.
  change (String.eqb ("shop_" ++ decimalText n) "referral_link") with false.
  change (String.eqb ("shop_" ++ decimalText n) "my_info") with false.
  change (String.eqb ("shop_" ++ decimalText n) "enter_code") with false.
  change (String.eqb ("shop_" ++ decimalText n) "back_to_menu") with false.
  change (JS.startsWith "raffle_" ("shop_" ++ decimalText n)) with false.
  change (JS.startsWith "shop_" ("shop_" ++ decimalText n)) with true.
  cbv iota. destruct r as [b' [replies|]]; reflexivity.
Qed.

(** X15: the tag on a raffle button leads back to that raffle, and the tag
    on a shop button to that item: pressed by a registered user, the button
    [raffle_<id>] runs [handleRaffleEntry] with that id and the button
    [shop_<id>] runs [handleShopPurchase] with that id, for every id,
    negative ones included. *)
Theorem button_tag_round_trip
    (localOffset : Z) (b : Bot) (telegramId : string) (user : User) (now : Z) :
  storage.getUserByTelegramId (db b) telegramId = Some user ->
  (forall raffle,
     let r := handleRaffleEntry b telegramId user (Some (r_id raffle)) in
     onCallbackQuery localOffset b telegramId (raffleCallbackData raffle) now
     = (fst r, default [SomethingWentWrong] (snd r)))
  /\ (forall item,
        let r := handleShopPurchase b telegramId user (Some (i_id item)) in
        onCallbackQuery localOffset b telegramId (shopCallbackData item) now
        = (fst r, default [SomethingWentWrong] (snd r))).
Proof.
  intros Huser. split.
  - intros raffle. by apply dispatch_raffle_tag.
  - intros item. by apply dispatch_shop_tag.
Qed.

Lemma fixed_tag_dispatch localOffset b telegramId user now :
  storage.getUserByTelegramId (db b) telegramId = Some user ->
  let answer (r : Bot * option (list Reply)) :=
    (fst r, default [SomethingWentWrong] (snd r)) in
  onCallbackQuery localOffset b telegramId "daily_checkin" now
  = answer (handleDailyCheckin localOffset b telegramId user now)
  /\ onCallbackQuery localOffset b telegramId "view_raffles" now
     = answer (handleViewRaffles b user)
  /\ onCallbackQuery localOffset b telegramId "view_shop" now
     = answer (handleViewShop b user)
  /\ onCallbackQuery localOffset b telegramId "referral_link" now
     = answer (handleReferralLink b user)
  /\ onCallbackQuery localOffset b telegramId "my_info" now
     = answer (handleMyInfo localOffset b telegramId now)
  /\ onCallbackQuery localOffset b telegramId "enter_code" now
     = answer (handleEnterCode b telegramId now)
  /\ onCallbackQuery localOffset b telegramId "back_to_menu" now
     = answer (handleBackToMenu localOffset b telegramId now)
  /\ onCallbackQuery localOffset b telegramId "daily_completed" now = (b, []).
Proof.
  intros Huser answer. unfold onCallbackQuery. rewrite Huser.
  cbn [String.eqb Ascii.eqb Bool.eqb andb JS.startsWith].
  repeat split;
    match goal with
    | |- (let '(_, _) := ?h in _) = _ => destruct h as [b' [replies|]]; reflexivity
    | |- _ => reflexivity
    end.
Qed.

Lemma handlers_answer localOffset b telegramId user now n :
  snd (handleDailyCheckin localOffset b telegramId user now) <> Some []
  /\ snd (handleViewRaffles b user) <> Some []
  /\ snd (handleViewShop b user) <> Some []
  /\ snd (handleReferralLink b user) <> Some []
  /\ snd (handleMyInfo localOffset b telegramId now) <> Some []
  /\ snd (handleEnterCode b telegramId now) <> Some []
  /\ snd (handleBackToMenu localOffset b telegramId now) <> Some []
  /\ snd (handleRaffleEntry b telegramId user n) <> Some []
  /\ snd (handleShopPurchase b telegramId user n) <> Some [].
Proof.
  unfold handleDailyCheckin, handleViewRaffles, handleViewShop, handleReferralLink,
    handleMyInfo, handleEnterCode, handleBackToMenu, handleRaffleEntry, handleShopPurchase.
  repeat split; repeat case_match; simpl; discriminate.
Qed.

Lemma answered (r : Bot * option (list Reply)) :
  snd r <> Some [] -> snd (fst r, default [SomethingWentWrong] (snd r)) <> [].
Proof. destruct r as [b' [[|x l]|]]; simpl; congruence. Qed.

(** X16: every button the bot shows is answered, but one.  For a
    registered user each tag of the main menu, of the raffle list, of the
    shop list and of the back button gets at least one reply; the tag
    [daily_completed] of the menu shown after a check-in has no handler:
    pressing it changes nothing and is never acknowledged. *)
Theorem every_button_but_one_is_answered
    (localOffset : Z) (b : Bot) (telegramId : string) (user : User) (now : Z) :
  storage.getUserByTelegramId (db b) telegramId = Some user ->
  (forall tag s,
     In tag (mainMenuKeyboard ++ rafflesKeyboard s ++ shopKeyboard s) ->
     snd (onCallbackQuery localOffset b telegramId tag now) <> [])
  /\ (forall tag,
        In tag checkedInKeyboard -> tag <> "daily_completed" ->
        snd (onCallbackQuery localOffset b telegramId tag now) <> [])
  /\ In "daily_completed" checkedInKeyboard
  /\ onCallbackQuery localOffset b telegramId "daily_completed" now = (b, []).
Proof.
  intros Huser.
  destruct (fixed_tag_dispatch localOffset b telegramId user now Huser)
    as (D1 & D2 & D3 & D4 & D5 & D6 & D7 & D8).
  assert (Hfixed : forall tag,
            In tag (mainMenuKeyboard ++ ["back_to_menu"]) ->
            snd (onCallbackQuery localOffset b telegramId tag now) <> []).
  { intros tag Hin.
    destruct (handlers_answer localOffset b telegramId user now None)
      as (A1 & A2 & A3 & A4 & A5 & A6 & A7 & _).
    simpl in Hin.
    destruct Hin as [<-|[<-|[<-|[<-|[<-|[<-|[<-|[]]]]]]]];
      [rewrite D1|rewrite D2|rewrite D3|rewrite D4|rewrite D5|rewrite D6|rewrite D7];
      by apply answered. }
  split; [|split; [|split]].
  - intros tag s Hin. apply in_app_or in Hin as [Hin|Hin].
    { apply Hfixed. apply in_or_app. by left. }
    apply in_app_or in Hin as [Hin|Hin].
    + unfold rafflesKeyboard in Hin. apply in_app_or in Hin as [Hin|Hin].
      * apply in_map_iff in Hin as (raffle & <- & _).
        unfold raffleCallbackData. rewrite (dispatch_raffle_tag _ _ _ user) by done.
        apply answered.
        by destruct (handlers_answer localOffset b telegramId user now (Some (r_id raffle)))
          as (_ & _ & _ & _ & _ & _ & _ & A & _).
      * apply Hfixed. apply in_or_app. by right.
    + unfold shopKeyboard in Hin. apply in_app_or in Hin as [Hin|Hin].
      * apply in_map_iff in Hin as (item & <- & _).
        unfold shopCallbackData. rewrite (dispatch_shop_tag _ _ _ user) by done.
        apply answered.
        by destruct (handlers_answer localOffset b telegramId user now (Some (i_id item)))
          as (_ & _ & _ & _ & _ & _ & _ & _ & A).
      * apply Hfixed. apply in_or_app. by right.
  - intros tag Hin Hne. apply Hfixed. simpl in Hin. simpl.
    destruct Hin as [<-|Hin]; [done|]. right. tauto.
  - simpl. by left.
  - exact D8.
Qed.

(** ** From a list to a choice *)

Lemma typed_number b telegramId user n pre post :
  storage.getUserByTelegramId (db b) telegramId = Some user ->
  userStates b !! telegramId = None ->
  allChars JS.isSpace pre = true ->
  allChars JS.isSpace post = true ->
  onMessage b telegramId (pre ++ decimalText n ++ post)
  = let activeRaffles := storage.getActiveRaffles (db b) in
    if (n >? 0) && (n <=? Z.of_nat (length activeRaffles)) then
      match activeRaffles !! Z.to_nat (n - 1) with
      | None => (b, [])
      | Some raffle =>
          if u_coins user <? r_entryCost raffle then
            (b, [NotEnoughCoins (r_entryCost raffle)])
          else
            (setDb b
               (storage.createTransaction
                  (storage.updateRaffle
                     (storage.enterRaffle
                        (storage.updateUser (db b) telegramId
                           (coinsPatch (u_coins user - r_entryCost raffle)))
                        (mkRaffleEntry (r_id raffle) (u_id user) 1))
                     (r_id raffle) (r_currentEntries raffle + 1))
                  (mkTransaction (u_id user) raffle_entry (- r_entryCost raffle))),
             [RaffleEntered (r_id raffle) (u_coins user - r_entryCost raffle)])
      end
    else
      let shopItems := storage.getActiveShopItems (db b) in
      if (n >? 0) && (n <=? Z.of_nat (length shopItems)) then
        match shopItems !! Z.to_nat (n - 1) with
        | None => (b, [])
        | Some item =>
            if u_coins user <? i_cost item then (b, [NotEnoughCoins (i_cost item)])
            else if match i_stock item with Some st => st <=? 0 | None => false end then
              (b, [OutOfStock])
            else
              (setDb b
                 (storage.createTransaction
                    (match i_stock item with
                     | Some st =>
                         storage.updateShopItem
                           (storage.createPurchase
                              (storage.updateUser (db b) telegramId
                                 (coinsPatch (u_coins user - i_cost item)))
                              (mkPurchase (u_id user) (i_id item) 1 (i_cost item) "completed"))
                           (i_id item) (st - 1)
                     | None =>
                         storage.createPurchase
                           (storage.updateUser (db b) telegramId
                              (coinsPatch (u_coins user - i_cost item)))
                           (mkPurchase (u_id user) (i_id item) 1 (i_cost item) "completed")
                     end)
                    (mkTransaction (u_id user) shop_purchase (- i_cost item))),
               [Purchased (i_id item) (u_coins user - i_cost item)])
        end
      else (b, []).
Proof.
  intros Huser Hstate Hpre Hpost.
  pose proof (bare_integer_parses n pre post Hpre Hpost) as Hparse.
  pose proof (parsed_text_passes_guard _ _ Hparse) as Hguard.
  unfold onMessage. rewrite Hguard, Huser, Hstate, Hparse. reflexivity.
Qed.

(** X17: the number shown in the list of [/raffle] brings back the raffle
    it stands by.  When the command lists the raffles and the user, with no
    code awaited, replies with the position of one of them (white space
    around it or not), that raffle is entered when the balance covers its
    cost: one RaffleEntry for it, the balance debited by its cost; when the
    balance does not cover it, the reply names the cost and nothing is
    written. *)
Theorem listed_number_selects_listed_raffle
    (localOffset : Z) (b : Bot) (telegramId : string) (user : User) (now : Z)
    (shown : list Raffle) (coins : Z) (i : nat) (raffle : Raffle) (pre post : string) :
  storage.getUserByTelegramId (db b) telegramId = Some user ->
  userStates b !! telegramId = None ->
  onReadCommand localOffset b CmdRaffle telegramId now = (b, [RaffleList shown coins]) ->
  shown !! i = Some raffle ->
  allChars JS.isSpace pre = true ->
  allChars JS.isSpace post = true ->
  let text := pre ++ decimalText (Z.of_nat i + 1) ++ post in
  (u_coins user < r_entryCost raffle ->
     onMessage b telegramId text = (b, [NotEnoughCoins (r_entryCost raffle)]))
  /\ (r_entryCost raffle <= u_coins user ->
      let b' := fst (onMessage b telegramId text) in
      snd (onMessage b telegramId text)
      = [RaffleEntered (r_id raffle) (u_coins user - r_entryCost raffle)]
      /\ raffleEntries (db b')
         = (raffleEntries (db b) ++ [mkRaffleEntry (r_id raffle) (u_id user) 1])%list
      /\ coinsOf (db b') telegramId = Some (u_coins user - r_entryCost raffle)).
Proof.
  intros Huser Hstate Hlist Hshown Hpre Hpost text.
  assert (E : shown = storage.getActiveRaffles (db b)).
  { unfold onReadCommand in Hlist. rewrite Huser in Hlist.
    destruct (Z.of_nat (length (storage.getActiveRaffles (db b))) =? 0); [done|].
    by injection Hlist as <- _. }
  subst shown. pose proof (lookup_lt_Some _ _ _ Hshown) as Hlt.
  unfold text. rewrite (typed_number b telegramId user) by done. cbv zeta.
  replace ((Z.of_nat i + 1 >? 0)
           && (Z.of_nat i + 1 <=? Z.of_nat (length (storage.getActiveRaffles (db b)))))
    with true by (symmetry; apply andb_true_iff; lia).
  replace (Z.to_nat (Z.of_nat i + 1 - 1)) with i by lia.
  rewrite Hshown. split; intros Hc.
  - by replace (u_coins user <? r_entryCost raffle) with true
      by (symmetry; apply Z.ltb_lt; lia).
  - replace (u_coins user <? r_entryCost raffle) with false
      by (symmetry; apply Z.ltb_ge; lia).
    split; [done|]. split; [done|]. simpl.
    by apply (coinsOf_debited (db b) telegramId user).
Qed.

(** X18: in the shop list the numbers that raffles use are taken.  When
    the user replies with the position of an item of the list of [/shop]
    and there are at least that many active raffles, the number is read as
    a raffle: no purchase is written and no stock changes.  Only a position
    above the number of active raffles reaches the item, which is then
    bought when the balance covers it and stock is left. *)
Theorem shop_number_shadowed_by_raffles
    (localOffset : Z) (b : Bot) (telegramId : string) (user : User) (now : Z)
    (shown : list ShopItem) (coins : Z) (i : nat) (item : ShopItem) (pre post : string) :
  storage.getUserByTelegramId (db b) telegramId = Some user ->
  userStates b !! telegramId = None ->
  onReadCommand localOffset b CmdShop telegramId now = (b, [ShopList shown coins]) ->
  shown !! i = Some item ->
  allChars JS.isSpace pre = true ->
  allChars JS.isSpace post = true ->
  let text := pre ++ decimalText (Z.of_nat i + 1) ++ post in
  let b' := fst (onMessage b telegramId text) in
  ((i < length (storage.getActiveRaffles (db b)))%nat ->
     purchases (db b') = purchases (db b) /\ shopItems (db b') = shopItems (db b))
  /\ ((length (storage.getActiveRaffles (db b)) <= i)%nat ->
      i_cost item <= u_coins user ->
      match i_stock item with Some st => 0 < st | None => True end ->
      snd (onMessage b telegramId text)
      = [Purchased (i_id item) (u_coins user - i_cost item)]
      /\ purchases (db b')
         = (purchases (db b)
            ++ [mkPurchase (u_id user) (i_id item) 1 (i_cost item) "completed"])%list).
Proof.
  intros Huser Hstate Hlist Hshown Hpre Hpost text b'.
  assert (E : shown = storage.getActiveShopItems (db b)).
  { unfold onReadCommand in Hlist. rewrite Huser in Hlist.
    destruct (Z.of_nat (length (storage.getActiveShopItems (db b))) =? 0); [done|].
    by injection Hlist as <- _. }
  subst shown. pose proof (lookup_lt_Some _ _ _ Hshown) as Hlt.
  unfold b', text. rewrite (typed_number b telegramId user) by done. cbv zeta.
  replace (Z.to_nat (Z.of_nat i + 1 - 1)) with i by lia.
  split.
  - intros Hi.
    replace ((Z.of_nat i + 1 >? 0)
             && (Z.of_nat i + 1 <=? Z.of_nat (length (storage.getActiveRaffles (db b)))))
      with true by (symmetry; apply andb_true_iff; lia).
    destruct (storage.getActiveRaffles (db b) !! i) as [raffle|]; [|done].
    by destruct (u_coins user <? r_entryCost raffle).
  - intros Hi Hcost Hstock.
    replace ((Z.of_nat i + 1 >? 0)
             && (Z.of_nat i + 1 <=? Z.of_nat (length (storage.getActiveRaffles (db b)))))
      with false by (symmetry; apply andb_false_iff; lia).
    replace ((Z.of_nat i + 1 >? 0)
             && (Z.of_nat i + 1 <=? Z.of_nat (length (storage.getActiveShopItems (db b)))))
      with true by (symmetry; apply andb_true_iff; lia).
    rewrite Hshown.
    replace (u_coins user <? i_cost item) with false by (symmetry; apply Z.ltb_ge; lia).
    destruct (i_stock item) as [st|]; [|done].
    by replace (st <=? 0) with false by (symmetry; apply Z.leb_gt; lia).
Qed.

(** ** Two purchases resumed in alternation *)

Lemma interleave_0 s t1 t2 rest :
  Interleaved.interleave s [t1; t2] (0%nat :: rest)
  = let '(s', t') := Interleaved.step s t1 in Interleaved.interleave s' [t'; t2] rest.
Proof. reflexivity. Qed.

Lemma interleave_1 s t1 t2 rest :
  Interleaved.interleave s [t1; t2] (1%nat :: rest)
  = let '(s', t') := Interleaved.step s t2 in Interleaved.interleave s' [t1; t'] rest.
Proof. reflexivity. Qed.

(** X19: the double spend is there for every user and item.  When the
    handlers of two presses of one buy button by one user are resumed in
    alternation and the balance covers the cost once, both presses succeed:
    two Purchases and two Transactions are written, the balance is debited
    once, and a tracked stock goes down by one only. *)
Theorem alternating_purchases_charge_once
    (s : Store) (telegramId : string) (user : User) (item : ShopItem) (itemId : Z) :
  storage.getUserByTelegramId s telegramId = Some user ->
  List.find (fun i => i_id i =? itemId) (storage.getAllShopItems s) = Some item ->
  i_cost item <= u_coins user ->
  match i_stock item with Some st => 0 < st | None => True end ->
  let request := Interleaved.AwaitUser telegramId (Some itemId) in
  let bought := Interleaved.Finished [Purchased (i_id item) (u_coins user - i_cost item)] in
  let purchase := mkPurchase (u_id user) (i_id item) 1 (i_cost item) "completed" in
  let debit := mkTransaction (u_id user) shop_purchase (- i_cost item) in
  let '(s', tasks) := Interleaved.interleave s [request; request] alternating in
  tasks = [bought; bought]
  /\ coinsOf s' telegramId = Some (u_coins user - i_cost item)
  /\ purchases s' = (purchases s ++ [purchase; purchase])%list
  /\ transactions s' = (transactions s ++ [debit; debit])%list
  /\ List.find (fun i => i_id i =? itemId) (storage.getAllShopItems s')
     = Some (match i_stock item with
             | Some st => storage.setStock (st - 1) item
             | None => item
             end).
Proof.
  intros Huser Hfind Hcost Hstock request bought purchase debit.
  assert (Hc1 : (u_coins user <? i_cost item) = false) by (apply Z.ltb_ge; lia).
  assert (Hid : i_id item = itemId).
  { apply find_some in Hfind as [_ E]. by apply Z.eqb_eq in E. }
  assert (Hcoins : forall s0,
    coinsOf (storage.updateUser (storage.updateUser s0 telegramId
               (coinsPatch (u_coins user - i_cost item))) telegramId
               (coinsPatch (u_coins user - i_cost item))) telegramId
    = (fun _ => u_coins user - i_cost item) <$> storage.getUserByTelegramId s0 telegramId).
  { intros s0. unfold coinsOf. rewrite !getUser_updateUser.
    destruct (storage.getUserByTelegramId s0 telegramId) as [v|] eqn:Hv; [|done].
    simpl. apply getUser_found in Hv as [_ <-]. rewrite String.eqb_refl. simpl.
    by rewrite String.eqb_refl. }
  unfold alternating, request.
  destruct (i_stock item) as [st|] eqn:Hst.
  - assert (Hc2 : (st <=? 0) = false) by (apply Z.leb_gt; lia).
    do 12 (first [rewrite interleave_0 | rewrite interleave_1];
           cbn [Interleaved.step]; rewrite ?Huser, ?Hfind, ?Hc1, ?Hst, ?Hc2;
           cbv beta iota zeta).
    cbn [Interleaved.interleave].
    split; [done|]. split; [|split; [|split]].
    + change (coinsOf (storage.createTransaction ?a ?x) telegramId)
        with (coinsOf a telegramId).
      change (coinsOf (storage.createTransaction ?a ?x) telegramId)
        with (coinsOf a telegramId).
      change (coinsOf (storage.updateShopItem ?a ?x ?y) telegramId)
        with (coinsOf a telegramId).
      change (coinsOf (storage.updateShopItem ?a ?x ?y) telegramId)
        with (coinsOf a telegramId).
      change (coinsOf (storage.createPurchase ?a ?x) telegramId)
        with (coinsOf a telegramId).
      change (coinsOf (storage.createPurchase ?a ?x) telegramId)
        with (coinsOf a telegramId).
      by rewrite Hcoins, Huser.
    + simpl. by rewrite <- app_assoc.
    + simpl. by rewrite <- app_assoc.
    + change (storage.getAllShopItems (storage.createTransaction ?a ?x))
        with (storage.getAllShopItems a).
      change (storage.getAllShopItems (storage.createTransaction ?a ?x))
        with (storage.getAllShopItems a).
      rewrite !findItem_updateShopItem.
      change (storage.getAllShopItems (storage.createPurchase ?a ?x))
        with (storage.getAllShopItems a).
      change (storage.getAllShopItems (storage.createPurchase ?a ?x))
        with (storage.getAllShopItems a).
      rewrite !findItem_updateUser, Hfind. simpl. rewrite Z.eqb_refl. simpl.
      by rewrite Z.eqb_refl.
  - do 12 (first [rewrite interleave_0 | rewrite interleave_1];
           cbn [Interleaved.step]; rewrite ?Huser, ?Hfind, ?Hc1, ?Hst;
           cbv beta iota zeta).
    cbn [Interleaved.interleave].
    split; [done|]. split; [|split; [|split]].
    + change (coinsOf (storage.createTransaction ?a ?x) telegramId)
        with (coinsOf a telegramId).
      change (coinsOf (storage.createTransaction ?a ?x) telegramId)
        with (coinsOf a telegramId).
      change (coinsOf (storage.createPurchase ?a ?x) telegramId)
        with (coinsOf a telegramId).
      change (coinsOf (storage.createPurchase ?a ?x) telegramId)
        with (coinsOf a telegramId).
      by rewrite Hcoins, Huser.
    + simpl. by rewrite <- app_assoc.
    + simpl. by rewrite <- app_assoc.
    + simpl. exact Hfind.
Qed.

(** ** The time a broadcast takes *)

Lemma broadcastLoop_pauses sendMessage activeUsers s0 f0 :
  let '(c, tr) := broadcastLoop sendMessage activeUsers s0 f0 in
  pauseTotal tr = 50 * (success c - s0)
  /\ Z.of_nat (length tr) = Z.of_nat (length activeUsers) + (success c - s0)
  /\ failed c - f0
     = Z.of_nat (length (List.filter (fun u => negb (sendMessage (u_telegramId u)))
                                     activeUsers)).
Proof.
  revert s0 f0. induction activeUsers as [|user rest IH]; intros s0 f0; simpl.
  - repeat split; lia.
  - destruct (sendMessage (u_telegramId user)) eqn:Hsend; simpl.
    + specialize (IH (s0 + 1) f0).
      destruct (broadcastLoop sendMessage rest (s0 + 1) f0) as [c tr].
      destruct IH as (H1 & H2 & H3). simpl. repeat split; lia.
    + specialize (IH s0 (f0 + 1)).
      destruct (broadcastLoop sendMessage rest s0 (f0 + 1)) as [c tr].
      destruct IH as (H1 & H2 & H3). simpl. repeat split; lia.
Qed.

(** X20: a broadcast pauses 50 ms for every message that went through and
    for no other: the pauses add up to 50 ms times the success count, the
    loop makes one call per user plus one pause per success, and the failed
    count is the number of users whose send was rejected.  When every send
    is rejected there is no pause at all. *)
Theorem broadcast_pause_time (sendMessage : string -> bool) (activeUsers : list User) :
  exists c tr,
    broadcastMessage true sendMessage activeUsers = Some (c, tr)
    /\ pauseTotal tr = 50 * success c
    /\ Z.of_nat (length tr) = Z.of_nat (length activeUsers) + success c
    /\ failed c
       = Z.of_nat (length (List.filter (fun u => negb (sendMessage (u_telegramId u)))
                                       activeUsers))
    /\ ((forall u, In u activeUsers -> sendMessage (u_telegramId u) = false) ->
        pauseTotal tr = 0 /\ success c = 0).
Proof.
  unfold broadcastMessage. simpl.
  pose proof (broadcastLoop_pauses sendMessage activeUsers 0 0) as H.
  pose proof (broadcastLoop_counts sendMessage activeUsers 0 0) as H'.
  destruct (broadcastLoop sendMessage activeUsers 0 0) as [c tr].
  exists c, tr. destruct H as (H1 & H2 & H3). destruct H' as (_ & H4 & _).
  split; [done|]. repeat split; try lia.
  - assert (E : List.filter (fun u => sendMessage (u_telegramId u)) activeUsers = []).
    { clear -H. induction activeUsers as [|u l IH]; simpl; [done|].
      rewrite (H u) by (by left). apply IH. intros v Hv. apply H. by right. }
    rewrite E in H4. simpl in H4. lia.
  - assert (E : List.filter (fun u => sendMessage (u_telegramId u)) activeUsers = []).
    { clear -H. induction activeUsers as [|u l IH]; simpl; [done|].
      rewrite (H u) by (by left). apply IH. intros v Hv. apply H. by right. }
    rewrite E in H4. simpl in H4. lia.
Qed.

(** ** Start-up *)

Lemma resolved_token (a b c : option string) :
  let botToken := Init.orElse a (Init.orElse b c) in
  Init.firstNonEmpty a b c = if JS.truthy botToken then botToken else None.
Proof.
  unfold Init.firstNonEmpty, Init.nonEmpty, Init.orElse, JS.truthy.
  destruct a as [x|], b as [y|], c as [z|]; simpl;
    repeat match goal with
      | |- context [String.eqb ?v ""] => destruct (String.eqb v "") eqn:?; simpl
      end; try done.
Qed.


(** X22: the handlers are registered exactly when a token is found and
    both the call that clears the updates and [setWebHook] go through.
    When only [setWebHook] fails, a new bot is still installed and
    returned, with no handler on it.  The value returned is the installed
    bot except when no token is found.  An old bot whose [stopPolling]
    fails keeps its listeners, and stays installed when no token is found
    or the first call fails. *)
Theorem handlers_registered_iff (env : Init.Env) (s : Store) (bot : option Init.Instance) :
  let found := Init.firstNonEmpty (storage.getBotSetting s "bot_token")
                 (Init.BOT_TOKEN env) (Init.TELEGRAM_BOT_TOKEN env) in
  let '(installed, returned, calls) := Init.initializeBot env s bot in
  (In Init.SetupBotHandlers calls
   <-> found <> None /\ Init.fetchOk env = true /\ Init.setWebHookOk env = true)
  /\ (forall tok, found = Some tok -> Init.fetchOk env = true ->
        installed = Some (Init.mkInstance tok (Init.setWebHookOk env))
        /\ returned = installed)
  /\ (returned <> installed -> found = None)
  /\ (forall old, bot = Some old -> Init.stopPollingOk env = false ->
        ~ In Init.RemoveAllListeners calls
        /\ (found = None \/ Init.fetchOk env = false -> installed = Some old)).
Proof.
  intros found. unfold found. rewrite resolved_token. unfold Init.initializeBot.
  set (botToken := Init.orElse _ _).
  destruct bot as [old|], (Init.stopPollingOk env), (JS.truthy botToken) eqn:Ht;
    cbn [negb];
    destruct (Init.fetchOk env), (Init.setWebHookOk env); cbn [negb];
    try (destruct botToken as [tok0|]; [|discriminate]);
    simpl; repeat split;
    try (intros; simplify_eq; intuition (try discriminate; try congruence; done)).
Qed.

(** ** Unknown users, conversation states, buttons that write *)

(** X23: a telegram id that has no user row can write nothing but its
    registration: every handler other than [/start] leaves the tables and
    the conversation states as they are; the commands and the buttons
    answer with the request to start the bot, a text message gets no answer. *)
Theorem unregistered_user_writes_nothing (localOffset : Z) (b : Bot) (e : Event) :
  storage.getUserByTelegramId (db b) (eventUser e) = None ->
  isStart e = false ->
  handle localOffset b e = (b, unknownUserReplies e).
Proof.
  intros Hnone Hstart. destruct e; simpl in *; try done.
  - unfold onDaily. by rewrite Hnone.
  - unfold onReadCommand. by rewrite Hnone.
  - unfold onMessage. rewrite Hnone. by destruct (_ || _).
  - unfold onCallbackQuery. rewrite Hnone. by destruct (String.eqb data "").
Qed.

Lemma registered_iff s t :
  is_Some (storage.getUserByTelegramId s t) <-> In t (map u_telegramId (users s)).
Proof.
  unfold storage.getUserByTelegramId. split.
  - intros [u Hu]. apply find_some in Hu as [Hin E]. apply String.eqb_eq in E.
    apply in_map_iff. by exists u.
  - intros Hin. apply in_map_iff in Hin as (u & E & Hin).
    destruct (List.find _ (users s)) as [v|] eqn:Hf; [done|].
    pose proof (find_none _ _ Hf u Hin) as Hno. simpl in Hno.
    rewrite E, String.eqb_refl in Hno. done.
Qed.

Lemma registered_kept localOffset b e t :
  is_Some (storage.getUserByTelegramId (db b) t) ->
  is_Some (storage.getUserByTelegramId (db (fst (handle localOffset b e))) t).
Proof.
  rewrite !registered_iff. intros Hin.
  destruct (handle_keeps_identity localOffset b e) as (_ & [k Hk] & _).
  assert (E : forall l, map u_telegramId l = map (fun k => snd (fst k)) (map userKey l)).
  { intros l. rewrite map_map. done. }
  rewrite E, Hk, map_app. apply in_or_app. left. by rewrite <- E.
Qed.

Lemma handle_states localOffset b e :
  let b' := fst (handle localOffset b e) in
  userStates b' = userStates b
  \/ userStates b' = delete (eventUser e) (userStates b)
  \/ exists now,
       userStates b' = <[eventUser e := ("expecting_invite_code", now)]> (userStates b)
       /\ is_Some (storage.getUserByTelegramId (db b) (eventUser e)).
Proof.
  destruct e; handler_cases; simpl; eauto.
Qed.

(** X24: the conversation states stay in order.  When every state held is
    the prompt for an invitation code and is held for a registered user,
    that is so after any run of handlers: the only state ever set is that
    prompt, and it is set for the registered user who pressed the button. *)
Theorem states_stay_in_order (localOffset : Z) (b : Bot) (events : list Event) :
  statesInOrder b ->
  statesInOrder (run localOffset b events).
Proof.
  intros H. apply (run_invariant statesInOrder localOffset); [|done].
  clear. intros b e Hb t st Hst.
  assert (Hkept : forall st0, userStates b !! t = Some st0 ->
            fst st0 = "expecting_invite_code"
            /\ is_Some (storage.getUserByTelegramId (db (fst (handle localOffset b e))) t)).
  { intros st0 H0. destruct (Hb t st0 H0) as [? ?]. split; [done|].
    by apply registered_kept. }
  destruct (handle_states localOffset b e) as [E|[E|(now & E & Hreg)]];
    rewrite E in Hst.
  - by apply Hkept.
  - apply lookup_delete_Some in Hst as [_ Hst]. by apply Hkept.
  - apply lookup_insert_Some in Hst as [[<- <-]|[_ Hst]]; [|by apply Hkept].
    split; [done|]. by apply registered_kept.
Qed.

(** X25: which handlers can write to the tables.  The commands
    [/referral], [/raffle], [/shop] and [/myinfo] change nothing at all;
    and a button writes to no table unless its tag is [daily_checkin] or
    starts with [raffle_] or [shop_]. *)
Theorem only_three_kinds_of_button_write
    (localOffset : Z) (b : Bot) (telegramId data : string) (now : Z) (c : ReadCommand) :
  fst (onReadCommand localOffset b c telegramId now) = b
  /\ (writingTag data = false ->
      db (fst (onCallbackQuery localOffset b telegramId data now)) = db b).
Proof.
  split.
  - unfold onReadCommand. by repeat case_match.
  - unfold writingTag. intros H.
    apply orb_false_iff in H as [H H3]. apply orb_false_iff in H as [H1 H2].
    unfold onCallbackQuery. rewrite H1, H2, H3.
    unfold handleViewRaffles, handleViewShop, handleReferralLink, handleMyInfo,
      handleEnterCode, handleBackToMenu.
    by repeat case_match; simplify_eq.
Qed.

(** ** The further properties at the sample data *)

Lemma sampleStore_rewards : rewardsNonNegative sampleStore.
Proof. split; intros a H; vm_compute in H; simplify_eq; lia. Qed.

Lemma balances_stay_non_negative_witness :
  rewardsNonNegative (db sampleBot)
  /\ balancesNonNegative (db sampleBot)
  /\ balancesNonNegative (db (run 0 sampleBot sampleEvents)).
Proof.
  assert (Hb : balancesNonNegative (db sampleBot)).
  { repeat constructor; simpl; lia. }
  split; [exact sampleStore_rewards|]. split; [exact Hb|].
  exact (balances_stay_non_negative 0 sampleBot sampleEvents sampleStore_rewards Hb).
Defined.

Lemma stock_stays_non_negative_witness :
  stockNonNegative (db sampleBot)
  /\ stockNonNegative (db (run 0 sampleBot sampleEvents)).
Proof.
  assert (Hs : stockNonNegative (db sampleBot)).
  { repeat constructor; simpl; lia. }
  split; [exact Hs|].
  exact (stock_stays_non_negative 0 sampleBot sampleEvents Hs).
Defined.

Lemma entries_never_decrease_witness :
  NoDup (map r_id (raffles (db sampleBot)))
  /\ Forall2 raffleGrew [closedRaffle; openRaffle]
             (raffles (db (run 0 sampleBot sampleEvents))).
Proof.
  assert (Hnd : NoDup (map r_id (raffles (db sampleBot)))).
  { apply NoDup_ListNoDup; repeat constructor; simpl; intuition lia. }
  split; [exact Hnd|].
  exact (entries_never_decrease 0 sampleBot sampleEvents Hnd).
Defined.

Lemma referredBy_never_changes_witness :
  let events := [CallbackQuery "300" "enter_code" 1700000000000;
                 Message "300" "qqqq1111";
                 Start "300" (Some "QQQQ1111") "zzzzzzzz"] in
  referredByOf (db joinedBot) "300" = Some (Some "AB3_-XYZ")
  /\ referredByOf (db (run 0 joinedBot events)) "300" = Some (Some "AB3_-XYZ").
Proof.
  split; [reflexivity|].
  apply (referredBy_never_changes 0 joinedBot); [reflexivity|discriminate].
Defined.

Lemma handler_leaves_other_states_witness :
  "200" <> eventUser (Message "100" "1")
  /\ userStates (fst (handle 0 promptedBot (Message "100" "1"))) !! "200"
     = userStates promptedBot !! "200".
Proof.
  assert (Hne : "200" <> eventUser (Message "100" "1")) by discriminate.
  split; [exact Hne|].
  exact (handler_leaves_other_states 0 promptedBot (Message "100" "1") "200" Hne).
Defined.

Lemma prompt_takes_precedence_witness :
  let b' := fst (onMessage promptedBot "200" "1") in
  userStates promptedBot !! "200" = Some ("expecting_invite_code", 0)
  /\ storage.getActiveRaffles (db promptedBot) = [openRaffle]
  /\ raffles (db b') = raffles (db promptedBot)
  /\ raffleEntries (db b') = raffleEntries (db promptedBot)
  /\ shopItems (db b') = shopItems (db promptedBot)
  /\ purchases (db b') = purchases (db promptedBot)
  /\ Forall isInvitationReply (snd (onMessage promptedBot "200" "1")).
Proof.
  split; [reflexivity|]. split; [reflexivity|].
  exact (prompt_takes_precedence promptedBot "200" "1" 0 eq_refl).
Defined.

Lemma prompt_rejections_write_nothing_witness :
  let consumed := mkBot (db promptedBot) (delete "200" (userStates promptedBot)) in
  onMessage promptedBot "200" "nobody" = (consumed, [InvalidInvitationCode])
  /\ onMessage promptedBot "200" " qqqq1111 " = (consumed, [OwnInvitationCode]).
Proof.
  split.
  - exact (proj1 (prompt_rejections_write_nothing promptedBot "200" "nobody" newcomerN 0
                    eq_refl eq_refl eq_refl) eq_refl).
  - exact (proj2 (prompt_rejections_write_nothing promptedBot "200" " qqqq1111 " newcomerN 0
                    eq_refl eq_refl eq_refl) newcomerN eq_refl eq_refl).
Defined.


Lemma start_with_code_when_registered_witness :
  let b' := fst (onStart sampleBot "200" (Some "AB3_-XYZ") "abcdefgh") in
  let own := fst (onStart sampleBot "200" (Some "QQQQ1111") "abcdefgh") in
  (transactions (db b')
   = [mkTransaction 1 daily_reward 10; mkTransaction 1 referral 5;
      mkTransaction 2 referral 5]
   /\ referredByOf (db b') "200" = Some (Some "AB3_-XYZ")
   /\ coinsOf (db b') "200" = Some 5
   /\ coinsOf (db b') "100" = Some 15)
  /\ (referredByOf (db own) "200" = Some (Some "QQQQ1111")
      /\ coinsOf (db own) "200" = Some 10).
Proof.
  split.
  - destruct (start_with_code_when_registered sampleBot "200" "AB3_-XYZ" "abcdefgh"
                newcomerN referrerR 5 sampleStore_wellFormed eq_refl eq_refl)
      as (H1 & H2 & H3 & H4); [discriminate|reflexivity|reflexivity|].
    split; [exact H1|]. split; [exact H2|]. split; [exact H3|].
    apply H4. discriminate.
  - destruct (start_with_code_when_registered sampleBot "200" "QQQQ1111" "abcdefgh"
                newcomerN newcomerN 5 sampleStore_wellFormed eq_refl eq_refl)
      as (_ & H2 & H3 & _); [discriminate|reflexivity|reflexivity|].
    split; [exact H2|exact H3].
Defined.

Lemma granted_claim_blocks_the_day_witness :
  let now := 1700000000000 in
  let b1 := fst (handle 0 sampleBot (Daily "200" now)) in
  localDay 0 (now + 20000000) = localDay 0 now
  /\ localDay 0 now < localDay 0 (now + 90000000)
  /\ handle 0 b1 (CallbackQuery "200" "daily_checkin" (now + 20000000))
     = (b1, [AlreadyClaimedToday])
  /\ coinsOf (db (fst (handle 0 b1 (CallbackQuery "200" "daily_checkin" (now + 90000000)))))
             "200"
     = Some 4.
Proof.
  split; [reflexivity|]. split; [reflexivity|]. split.
  - apply (proj1 (granted_claim_blocks_the_day 0 sampleBot "200" newcomerN 2
                    1700000000000 (1700000000000 + 20000000)
                    (Daily "200" 1700000000000)
                    (CallbackQuery "200" "daily_checkin" (1700000000000 + 20000000))
                    eq_refl eq_refl eq_refl (or_introl eq_refl) (or_intror eq_refl))).
    vm_compute. discriminate.
  - apply (proj2 (granted_claim_blocks_the_day 0 sampleBot "200" newcomerN 2
                    1700000000000 (1700000000000 + 90000000)
                    (Daily "200" 1700000000000)
                    (CallbackQuery "200" "daily_checkin" (1700000000000 + 90000000))
                    eq_refl eq_refl eq_refl (or_introl eq_refl) (or_intror eq_refl))).
    reflexivity.
Defined.

Lemma checkin_button_differs_in_streak_only_witness :
  let now := 1700000000000 in
  let button := db (fst (onCallbackQuery 0 sampleBot "200" "daily_checkin" now)) in
  let command := db (fst (onDaily 0 sampleBot "200" now)) in
  canClaimDailyReward 0 now (u_lastDailyReward newcomerN) = true
  /\ users button = [referrerR; mkUser 2 "200" "QQQQ1111" None 2 0 (Some now)]
  /\ users command
     = map (fun v => if String.eqb (u_telegramId v) "200" then countStreak v else v)
           (users button)
  /\ transactions command = transactions button.
Proof.
  destruct (checkin_button_differs_in_streak_only 0 sampleBot "200" newcomerN 2
              1700000000000 eq_refl eq_refl eq_refl) as (H1 & H2 & _).
  split; [reflexivity|]. split; [reflexivity|]. split; [exact H1|exact H2].
Defined.

Lemma button_tag_round_trip_witness :
  raffleCallbackData openRaffle = "raffle_2"
  /\ shopCallbackData lastPieceItem = "shop_2"
  /\ onCallbackQuery 0 sampleBot "100" "raffle_2" 1700000000000
     = (fst (handleRaffleEntry sampleBot "100" referrerR (Some 2)),
        default [SomethingWentWrong]
                (snd (handleRaffleEntry sampleBot "100" referrerR (Some 2))))
  /\ onCallbackQuery 0 sampleBot "100" "shop_2" 1700000000000
     = (fst (handleShopPurchase sampleBot "100" referrerR (Some 2)),
        default [SomethingWentWrong]
                (snd (handleShopPurchase sampleBot "100" referrerR (Some 2)))).
Proof.
  destruct (button_tag_round_trip 0 sampleBot "100" referrerR 1700000000000 eq_refl)
    as [H1 H2].
  split; [reflexivity|]. split; [reflexivity|]. split.
  - exact (H1 openRaffle).
  - exact (H2 lastPieceItem).
Defined.

Lemma every_button_but_one_is_answered_witness :
  In "raffle_2" (rafflesKeyboard sampleStore)
  /\ snd (onCallbackQuery 0 sampleBot "100" "raffle_2" 1700000000000) <> []
  /\ snd (onCallbackQuery 0 sampleBot "100" "enter_code" 1700000000000) <> []
  /\ onCallbackQuery 0 sampleBot "100" "daily_completed" 1700000000000 = (sampleBot, []).
Proof.
  destruct (every_button_but_one_is_answered 0 sampleBot "100" referrerR 1700000000000
              eq_refl) as (H1 & H2 & _ & H4).
  split; [vm_compute; tauto|]. split; [|split].
  - apply (H1 "raffle_2" sampleStore). vm_compute. tauto.
  - apply (H2 "enter_code"); [vm_compute; tauto|discriminate].
  - exact H4.
Defined.

Lemma listed_number_selects_listed_raffle_witness :
  onReadCommand 0 sampleBot CmdRaffle "100" 1700000000000
  = (sampleBot, [RaffleList [openRaffle] 10])
  /\ snd (onMessage sampleBot "100" " 1 ") = [RaffleEntered 2 6]
  /\ raffleEntries (db (fst (onMessage sampleBot "100" " 1 "))) = [mkRaffleEntry 2 1 1]
  /\ coinsOf (db (fst (onMessage sampleBot "100" " 1 "))) "100" = Some 6
  /\ onMessage sampleBot "200" "1" = (sampleBot, [NotEnoughCoins 4]).
Proof.
  split; [reflexivity|].
  destruct (proj2 (listed_number_selects_listed_raffle 0 sampleBot "100" referrerR
                     1700000000000 [openRaffle] 10 0%nat openRaffle " " " "
                     eq_refl eq_refl eq_refl eq_refl eq_refl eq_refl))
    as (H1 & H2 & H3); [simpl; lia|].
  split; [exact H1|]. split; [exact H2|]. split; [exact H3|].
  apply (proj1 (listed_number_selects_listed_raffle 0 sampleBot "200" newcomerN
                  1700000000000 [openRaffle] 0 0%nat openRaffle "" ""
                  eq_refl eq_refl eq_refl eq_refl eq_refl eq_refl)).
  simpl; lia.
Defined.

Lemma shop_number_shadowed_by_raffles_witness :
  onReadCommand 0 reshelvedBot CmdShop "100" 1700000000000
  = (reshelvedBot, [ShopList [soldOutItem; lastPieceItem] 10])
  /\ storage.getActiveRaffles (db reshelvedBot) = [openRaffle]
  /\ (purchases (db (fst (onMessage reshelvedBot "100" "1"))) = []
      /\ shopItems (db (fst (onMessage reshelvedBot "100" "1")))
         = [soldOutItem; lastPieceItem])
  /\ (snd (onMessage reshelvedBot "100" "2") = [Purchased 2 0]
      /\ purchases (db (fst (onMessage reshelvedBot "100" "2")))
         = [mkPurchase 1 2 1 10 "completed"]).
Proof.
  split; [reflexivity|]. split; [reflexivity|]. split.
  - apply (proj1 (shop_number_shadowed_by_raffles 0 reshelvedBot "100" referrerR
                    1700000000000 [soldOutItem; lastPieceItem] 10 0%nat soldOutItem "" ""
                    eq_refl eq_refl eq_refl eq_refl eq_refl eq_refl)).
    simpl; lia.
  - apply (proj2 (shop_number_shadowed_by_raffles 0 reshelvedBot "100" referrerR
                    1700000000000 [soldOutItem; lastPieceItem] 10 1%nat lastPieceItem "" ""
                    eq_refl eq_refl eq_refl eq_refl eq_refl eq_refl));
      simpl; lia.
Defined.

Lemma alternating_purchases_charge_once_witness :
  let '(s', tasks) :=
    Interleaved.interleave sampleStore [buyLastPiece; buyLastPiece] alternating in
  tasks = [Interleaved.Finished [Purchased 2 0]; Interleaved.Finished [Purchased 2 0]]
  /\ coinsOf s' "100" = Some 0
  /\ purchases s' = [mkPurchase 1 2 1 10 "completed"; mkPurchase 1 2 1 10 "completed"]
  /\ transactions s'
     = [mkTransaction 1 daily_reward 10; mkTransaction 1 shop_purchase (-10);
        mkTransaction 1 shop_purchase (-10)]
  /\ List.find (fun i => i_id i =? 2) (storage.getAllShopItems s')
     = Some (mkShopItem 2 10 (Some 0) true).
Proof.
  refine (alternating_purchases_charge_once sampleStore "100" referrerR lastPieceItem 2
            eq_refl eq_refl _ _); simpl; lia.
Defined.
Lemma unregistered_user_writes_nothing_witness :
  storage.getUserByTelegramId (db sampleBot) "999" = None
  /\ handle 0 sampleBot (Daily "999" 1700000000000) = (sampleBot, [PleaseStartFirst])
  /\ handle 0 sampleBot (Message "999" "1") = (sampleBot, [])
  /\ handle 0 sampleBot (CallbackQuery "999" "shop_2" 1700000000000)
     = (sampleBot, [PleaseStartFirst]).
Proof.
  split; [reflexivity|]. split; [|split].
  - exact (unregistered_user_writes_nothing 0 sampleBot (Daily "999" 1700000000000)
             eq_refl eq_refl).
  - exact (unregistered_user_writes_nothing 0 sampleBot (Message "999" "1")
             eq_refl eq_refl).
  - exact (unregistered_user_writes_nothing 0 sampleBot
             (CallbackQuery "999" "shop_2" 1700000000000) eq_refl eq_refl).
Defined.

Lemma states_stay_in_order_witness :
  statesInOrder promptedBot
  /\ statesInOrder (run 0 promptedBot sampleEvents).
Proof.
  assert (H : statesInOrder promptedBot).
  { intros t st Hst. unfold promptedBot in Hst. cbn [userStates] in Hst.
    apply lookup_insert_Some in Hst as [[<- <-]|[_ Hst]].
    - split; [reflexivity|]. by exists newcomerN.
    - by rewrite lookup_empty in Hst. }
  split; [exact H|].
  exact (states_stay_in_order 0 promptedBot sampleEvents H).
Defined.
